(** * The request-bridging engine of the Claude proxy (ClaudeProxyBridge)

    A shallow embedding of [claude-proxy/src/bridge.js]: backend selection,
    request normalisation, the response cache, retry with exponential
    back-off, the streaming relay and the metrics sink, followed by the
    properties established about them. *)

From Stdlib Require Import ZArith QArith Qfield Lia Lqa Bool List Ascii String DecimalString.
From stdpp Require Import gmap strings.
From Equations Require Import Equations.
Import ListNotations.

Local Open Scope string_scope.
Local Open Scope Z_scope.

(** ** JavaScript values *)

Module JS.

(** A JavaScript number. Every finite double is a rational, and the only
    numeric operations the bridge performs on request fields ([Math.min],
    [Math.max], comparison) are exact on doubles, so finite numbers are
    carried as rationals. *)
Inductive number : Type :=
| Fin (q : Q)
| PosInf
| NegInf
| NaN.

(** [x < y] on numbers; any comparison with [NaN] is false. *)
Definition lt (x y : number) : bool :=
  match x, y with
  | NaN, _ | _, NaN => false
  | Fin a, Fin b => match (a ?= b)%Q with Lt => true | _ => false end
  | NegInf, NegInf => false
  | NegInf, _ => true
  | _, NegInf => false
  | PosInf, _ => false
  | Fin _, PosInf => true
  end.

Definition isNaN (x : number) : bool :=
  match x with NaN => true | _ => false end.

(** [Math.min(x, y)] and [Math.max(x, y)]: [NaN] is contagious. *)
Definition Math_min (x y : number) : number :=
  if isNaN x || isNaN y then NaN else if lt y x then y else x.

Definition Math_max (x y : number) : number :=
  if isNaN x || isNaN y then NaN else if lt x y then y else x.

Definition ofZ (z : Z) : number := Fin (inject_Z z).

(** JSON-like values. An object lists its own properties in enumeration
    order. *)
#[warnings="-register-all"]
Inductive value : Type :=
| Undefined
| Null
| Bool (b : bool)
| Num (n : number)
| Str (s : string)
| Arr (l : list value)
| Obj (o : list (string * value)).

Definition object : Type := list (string * value).

(** ToBoolean. *)
Definition truthy (v : value) : bool :=
  match v with
  | Undefined | Null => false
  | Bool b => b
  | Num (Fin q) => negb (Qeq_bool q 0)
  | Num NaN => false
  | Num _ => true
  | Str s => negb (String.eqb s "")
  | Arr _ | Obj _ => true
  end.

(** [a || b]. *)
Definition or_else (a b : value) : value := if truthy a then a else b.

(** Property read [o.k]; an absent property reads as [undefined]. *)
Fixpoint get (k : string) (o : object) : value :=
  match o with
  | [] => Undefined
  | (k', v) :: rest => if String.eqb k k' then v else get k rest
  end.

Fixpoint has (k : string) (o : object) : bool :=
  match o with
  | [] => false
  | (k', _) :: rest => String.eqb k k' || has k rest
  end.

(** Property write [o.k = v]: an existing property keeps its position, a
    new one is appended. *)
Fixpoint set (k : string) (v : value) (o : object) : object :=
  match o with
  | [] => [(k, v)]
  | (k', v') :: rest =>
      if String.eqb k k' then (k, v) :: rest else (k', v') :: set k v rest
  end.

(** Object spread [{...a, ...b}]. *)
Definition spread (a b : object) : object :=
  fold_left (fun acc kv => set (fst kv) (snd kv) acc) b a.

(** Rest pattern: the properties of [o] other than those named in [ks]. *)
Definition omit (ks : list string) (o : object) : object :=
  List.filter (fun kv => negb (existsb (String.eqb (fst kv)) ks)) o.

End JS.

(** ** SHA-256 (FIPS 180-4), as computed by [crypto.createHash('sha256')] *)

Module SHA256.

Definition w32 (x : Z) : Z := Z.land x 0xFFFFFFFF.
Definition add32 (x y : Z) : Z := w32 (x + y).
Definition rotr (n x : Z) : Z := Z.lor (Z.shiftr x n) (w32 (Z.shiftl x (32 - n))).
Definition shr (n x : Z) : Z := Z.shiftr x n.
Definition xor3 (a b c : Z) : Z := Z.lxor a (Z.lxor b c).

Definition Ch (x y z : Z) : Z :=
  Z.lxor (Z.land x y) (Z.land (Z.lxor x 0xFFFFFFFF) z).
Definition Maj (x y z : Z) : Z := xor3 (Z.land x y) (Z.land x z) (Z.land y z).
Definition Sigma0 (x : Z) : Z := xor3 (rotr 2 x) (rotr 13 x) (rotr 22 x).
Definition Sigma1 (x : Z) : Z := xor3 (rotr 6 x) (rotr 11 x) (rotr 25 x).
Definition sigma0 (x : Z) : Z := xor3 (rotr 7 x) (rotr 18 x) (shr 3 x).
Definition sigma1 (x : Z) : Z := xor3 (rotr 17 x) (rotr 19 x) (shr 10 x).

(** The round constants are the first 32 bits of the fractional parts of
    the cube roots of the first 64 primes, the initial hash value those of
    the square roots of the first 8 primes. *)
Definition is_prime (n : nat) : bool :=
  forallb (fun d => negb (Nat.eqb (n mod d) 0)) (seq 2 (n - 2)).

Definition primes : list Z :=
  List.map Z.of_nat (List.filter is_prime (seq 2 310)).

(** The integer cube root of a number below [2^108], bit by bit. *)
Definition cube_root (n : Z) : Z :=
  fold_left
    (fun r bit => let c := r + 2 ^ Z.of_nat bit in if c * c * c <=? n then c else r)
    (rev (seq 0 36)) 0.

Definition K : list Z :=
  Eval vm_compute in List.map (fun p => w32 (cube_root (p * 2 ^ 96))) primes.

Definition H0 : list Z :=
  Eval vm_compute in List.map (fun p => w32 (Z.sqrt (p * 2 ^ 64))) (firstn 8 primes).

Definition bytes_of_string (s : string) : list Z :=
  List.map (fun c => Z.of_N (N_of_ascii c)) (list_ascii_of_string s).

(** Big-endian bytes of [x], [n] of them. *)
Fixpoint be_bytes (n : nat) (x : Z) : list Z :=
  match n with
  | O => []
  | S n' => be_bytes n' (Z.shiftr x 8) ++ [Z.land x 0xFF]
  end.

(** Padding: a [1] bit, zeros up to 56 modulo 64, then the bit length. *)
Definition pad (msg : list Z) : list Z :=
  let len := Z.of_nat (List.length msg) in
  let zeros := Z.to_nat ((55 - len) mod 64) in
  msg ++ [0x80] ++ List.repeat 0 zeros ++ be_bytes 8 (8 * len).

Fixpoint words_of_bytes (fuel : nat) (bs : list Z) : list Z :=
  match fuel, bs with
  | S f, a :: b :: c :: d :: rest =>
      (Z.shiftl a 24 + Z.shiftl b 16 + Z.shiftl c 8 + d) :: words_of_bytes f rest
  | _, _ => []
  end.

Fixpoint chunks (fuel : nat) (n : nat) (ws : list Z) : list (list Z) :=
  match fuel, ws with
  | S f, _ :: _ => firstn n ws :: chunks f n (skipn n ws)
  | _, _ => []
  end.

(** Message schedule: [w] holds the words computed so far, most recent
    first. *)
Fixpoint schedule (n : nat) (w : list Z) : list Z :=
  match n with
  | O => w
  | S n' =>
      let x := add32 (add32 (sigma1 (nth 1 w 0)) (nth 6 w 0))
                     (add32 (sigma0 (nth 14 w 0)) (nth 15 w 0)) in
      schedule n' (x :: w)
  end.

Definition round (st : list Z) (kw : Z * Z) : list Z :=
  match st with
  | [a; b; c; d; e; f; g; h] =>
      let t1 := add32 (add32 (add32 h (Sigma1 e)) (add32 (Ch e f g) (fst kw))) (snd kw) in
      let t2 := add32 (Sigma0 a) (Maj a b c) in
      [add32 t1 t2; a; b; c; add32 d t1; e; f; g]
  | _ => st
  end.

Definition compress (h : list Z) (block : list Z) : list Z :=
  let w := rev (schedule 48 (rev block)) in
  let st := fold_left round (combine K w) h in
  List.map (fun p => add32 (fst p) (snd p)) (combine h st).

Definition digest_words (msg : list Z) : list Z :=
  let bs := pad msg in
  let ws := words_of_bytes (List.length bs) bs in
  fold_left compress (chunks (List.length ws) 16 ws) H0.

Definition hex_digit (x : Z) : ascii :=
  if x <? 10 then ascii_of_N (Z.to_N (48 + x)) else ascii_of_N (Z.to_N (87 + x)).

Fixpoint hex_of_bytes (bs : list Z) : string :=
  match bs with
  | [] => EmptyString
  | b :: rest =>
      String (hex_digit (Z.shiftr b 4)) (String (hex_digit (Z.land b 0xF)) (hex_of_bytes rest))
  end.

(** [createHash('sha256').update(s).digest('hex')]. *)
Definition hex (s : string) : string :=
  hex_of_bytes (List.flat_map (be_bytes 4) (digest_words (bytes_of_string s))).

End SHA256.

(** ** JSON text *)

(** What the platform supplies and the model leaves abstract: the shortest
    round-trip decimal rendering of a number that is not an integer below
    [10^21] ([Number.prototype.toString]), and [Date.prototype.toISOString]
    of an instant given in milliseconds. *)
Class Platform : Type := {
  fracToString : Q -> string;
  toISOString : Z -> string;
}.

Module JSON.

Definition dquote : ascii := ascii_of_nat 34.
Definition backslash : ascii := ascii_of_nat 92.

Definition hex4 (n : Z) : string :=
  String "0" (String "0" (String (SHA256.hex_digit (Z.shiftr n 4))
    (String (SHA256.hex_digit (Z.land n 0xF)) EmptyString))).

(** QuoteJSONString on one code unit. *)
Definition escape (c : ascii) : string :=
  let n := Z.of_N (N_of_ascii c) in
  if n =? 34 then String backslash (String dquote EmptyString)
  else if n =? 92 then String backslash (String backslash EmptyString)
  else if n =? 8 then String backslash "b"
  else if n =? 9 then String backslash "t"
  else if n =? 10 then String backslash "n"
  else if n =? 12 then String backslash "f"
  else if n =? 13 then String backslash "r"
  else if n <? 32 then String backslash (String "u" (hex4 n))
  else String c EmptyString.

Fixpoint escape_all (s : string) : string :=
  match s with
  | EmptyString => EmptyString
  | String c rest => escape c +:+ escape_all rest
  end.

Definition quote (s : string) : string :=
  String dquote (escape_all s) +:+ String dquote EmptyString.

Fixpoint join (sep : string) (l : list string) : string :=
  match l with
  | [] => EmptyString
  | [x] => x
  | x :: rest => x +:+ sep +:+ join sep rest
  end.

Section Stringify.
Context {P : Platform}.

(** [Number::toString] on a finite number. *)
Definition finiteToString (q : Q) : string :=
  let r := Qred q in
  if (Zpos (Qden r) =? 1) && (Z.abs (Qnum r) <? 10 ^ 21)
  then NilZero.string_of_int (Z.to_int (Qnum r))
  else fracToString q.

Definition number (n : JS.number) : string :=
  match n with
  | JS.Fin q => finiteToString q
  | _ => "null"
  end.

(** [JSON.stringify(v)]; [None] is [undefined]. An [undefined] array
    element is written [null], an [undefined] property is left out. *)
Fixpoint stringify (v : JS.value) : option string :=
  match v with
  | JS.Undefined => None
  | JS.Null => Some "null"
  | JS.Bool true => Some "true"
  | JS.Bool false => Some "false"
  | JS.Num n => Some (number n)
  | JS.Str s => Some (quote s)
  | JS.Arr l =>
      Some ("[" +:+ join "," (List.map (fun x => default "null" (stringify x)) l) +:+ "]")
  | JS.Obj o =>
      Some ("{" +:+ join ","
              (List.flat_map
                 (fun kv => match kv with
                            | (k, x) => match stringify x with
                                        | Some t => [quote k +:+ ":" +:+ t]
                                        | None => []
                                        end
                            end) o) +:+ "}")
  end.

End Stringify.
End JSON.

(** ** Requests and configuration *)

(** [this.options] after the constructor has merged the defaults. The
    retry and cache settings are integers ([parseInt] in the server). *)
Record Options : Type := {
  anthropicApiKey : JS.value;
  cacheEnabled : bool;
  cacheTtl : Z;
  retryAttempts : Z;
  retryDelay : Z;
  maxTokens : JS.number;
  defaultModel : string;
}.

(** The request object handed to [proxyRequest] / [proxyRequestStream]:
    the six properties [transformToClaudeFormat] destructures, and every
    other own property ([requestId], [headers], [method], [stream], ...)
    in [otherParams]. [None] is an absent numeric property. *)
Module Request.
Record t : Type := {
  model : JS.value;
  max_tokens : option JS.number;
  temperature : option JS.number;
  messages : JS.value;
  system : JS.value;
  stop_sequences : JS.value;
  otherParams : JS.object;
}.
Definition requestId (r : t) : JS.value := JS.get "requestId" (otherParams r).
Definition method (r : t) : JS.value := JS.get "method" (otherParams r).
End Request.

(** The object sent to a backend adapter. [system] and [stop_sequences]
    are own properties only when the request gave a truthy value. *)
Module ClaudeRequest.
Record t : Type := {
  model : JS.value;
  max_tokens : JS.number;
  temperature : JS.number;
  messages : JS.value;
  otherParams : JS.object;
  system : option JS.value;
  stop_sequences : option JS.value;
}.
End ClaudeRequest.

(** The body of the GitHub Actions endpoint, as
    [transformGitHubActionsRequest] destructures it. *)
Module GhRequest.
Record t : Type := {
  prompt : option string;
  direct_prompt : option string;
  model : JS.value;
  max_tokens : option JS.number;
  temperature : option JS.number;
  system_prompt : option string;
  context : option string;
  action : JS.value;
  otherParams : JS.object;
}.
End GhRequest.

Definition default_temperature : JS.number := JS.Fin (3 # 10).
Definition token_ceiling : JS.number := JS.ofZ 8192.

(** A destructuring default applies to an [undefined] property only. *)
Definition or_default (v d : JS.value) : JS.value :=
  match v with JS.Undefined => d | _ => v end.

Definition truthy_str (s : option string) : bool :=
  match s with Some x => negb (String.eqb x "") | None => false end.

Definition mkMessage (role content : string) : JS.value :=
  JS.Obj [("role", JS.Str role); ("content", JS.Str content)].

(** The [messages] array built by [transformGitHubActionsRequest]. *)
Definition synthesized_messages (gh : GhRequest.t) : list JS.value :=
  (match GhRequest.system_prompt gh with
   | Some s => if truthy_str (Some s) then [mkMessage "system" s] else []
   | None => []
   end)
  ++ (match GhRequest.context gh with
      | Some c => if truthy_str (Some c) then [mkMessage "user" ("Context: " +:+ c)] else []
      | None => []
      end)
  ++ (let mainPrompt :=
        if truthy_str (GhRequest.direct_prompt gh)
        then GhRequest.direct_prompt gh else GhRequest.prompt gh in
      match mainPrompt with
      | Some p => if truthy_str (Some p) then [mkMessage "user" p] else []
      | None => []
      end).

Definition transformGitHubActionsRequest (opts : Options) (gh : GhRequest.t) : Request.t :=
  let other := GhRequest.otherParams gh in
  {| Request.model := or_default (GhRequest.model gh) (JS.Str (defaultModel opts));
     Request.max_tokens := Some (default (maxTokens opts) (GhRequest.max_tokens gh));
     Request.temperature := Some (default default_temperature (GhRequest.temperature gh));
     Request.messages :=
       if JS.has "messages" other then JS.get "messages" other
       else JS.Arr (synthesized_messages gh);
     Request.system := JS.get "system" other;
     Request.stop_sequences := JS.get "stop_sequences" other;
     Request.otherParams :=
       JS.spread [("action", or_default (GhRequest.action gh) (JS.Str "chat"))]
                 (JS.omit ["messages"; "system"; "stop_sequences"] other) |}.

Definition transformToClaudeFormat (opts : Options) (request : Request.t) : ClaudeRequest.t :=
  let max_tokens := default (maxTokens opts) (Request.max_tokens request) in
  let temperature := default default_temperature (Request.temperature request) in
  {| ClaudeRequest.model := or_default (Request.model request) (JS.Str (defaultModel opts));
     ClaudeRequest.max_tokens := JS.Math_min max_tokens token_ceiling;
     ClaudeRequest.temperature := JS.Math_max (JS.ofZ 0) (JS.Math_min (JS.ofZ 1) temperature);
     ClaudeRequest.messages := JS.or_else (Request.messages request) (JS.Arr []);
     ClaudeRequest.otherParams := Request.otherParams request;
     ClaudeRequest.system :=
       if JS.truthy (Request.system request) then Some (Request.system request) else None;
     ClaudeRequest.stop_sequences :=
       if JS.truthy (Request.stop_sequences request)
       then Some (Request.stop_sequences request) else None |}.

Definition opt_num (n : option JS.number) : JS.value :=
  match n with Some x => JS.Num x | None => JS.Undefined end.

(** The [keyData] object of [generateCacheKey]. *)
Definition keyData (opts : Options) (request : Request.t) : JS.value :=
  JS.Obj [ ("model", JS.or_else (Request.model request) (JS.Str (defaultModel opts)));
           ("messages", Request.messages request);
           ("max_tokens", opt_num (Request.max_tokens request));
           ("temperature", opt_num (Request.temperature request));
           ("system", Request.system request) ].

Definition generateCacheKey `{Platform} (opts : Options) (request : Request.t) : string :=
  let hash := SHA256.hex (default "" (JSON.stringify (keyData opts request))) in
  "claude_" +:+ String.substring 0 16 hash.

(** ** Errors and call outcomes *)

(** A value thrown by an adapter: the properties [isRetryableError] reads. *)
Module Error.
Record t : Type := {
  status : option Z;
  code : option string;
  message : option string;
}.
End Error.

(** A call either returns or throws. *)
Inductive outcome (E A : Type) : Type :=
| Returned (a : A)
| Thrown (e : E).
Arguments Returned {E A} a.
Arguments Thrown {E A} e.

(** [hay.includes(needle)]. *)
Fixpoint includes (needle hay : string) : bool :=
  String.prefix needle hay
  || match hay with
     | EmptyString => false
     | String _ rest => includes needle rest
     end.

Definition retryableStatuses : list Z := [429; 500; 502; 503; 504].
Definition retryableErrors : list string := ["ECONNRESET"; "ETIMEDOUT"; "ENOTFOUND"].

Definition status_listed (s : option Z) : bool :=
  match s with Some n => existsb (Z.eqb n) retryableStatuses | None => false end.

Definition code_listed (c : option string) : bool :=
  match c with Some x => existsb (String.eqb x) retryableErrors | None => false end.

(** The value of the [||] chain of [isRetryableError]; [None] is the
    [undefined] that [error.message?.includes(..)] yields when the error
    has no message. *)
Definition isRetryableError (error : Error.t) : option bool :=
  if status_listed (Error.status error) then Some true
  else if code_listed (Error.code error) then Some true
  else match Error.message error with
       | None => None
       | Some m => if includes "rate limit" m then Some true else Some (includes "timeout" m)
       end.

Definition truthy_flag (f : option bool) : bool := default false f.

(** ** Backends *)

Inductive AuthMethod : Type :=
| Api      (* 'api' *)
| Sdk      (* 'sdk' *)
| Cli      (* 'cli' *)
| NoAuth   (* 'none' *)
| Unset.   (* undefined: initializeAuthMethods has not assigned yet *)

Definition authMethod_text (m : AuthMethod) : string :=
  match m with
  | Api => "api" | Sdk => "sdk" | Cli => "cli" | NoAuth => "none" | Unset => "undefined"
  end.

(** What [initializeAuthMethods] finds when it probes. *)
Record Probe : Type := {
  sdkModule : bool;      (* import('./claudeCodeSDK.js') and the constructor succeed *)
  sdkAvailable : bool;   (* ClaudeCodeSDK.isAvailable() resolves true *)
  cliModule : bool;      (* import('./claudeCodeCLI.js') and the constructor succeed *)
  cliOnPath : bool;      (* `which claude` exits with code 0 *)
}.

(** [ClaudeCodeCLI.isAvailable]. *)
Definition ClaudeCodeCLI_isAvailable (p : Probe) : bool := cliOnPath p.

Definition initializeAuthMethods (opts : Options) (p : Probe) : AuthMethod :=
  if JS.truthy (anthropicApiKey opts) then Api
  else if sdkModule p && sdkAvailable p then Sdk
  else if cliModule p then Cli
  else NoAuth.

(** A backend adapter stub: its answer to a request may depend on how many
    adapter invocations came before. For the SDK and the CLI the stub stands
    for [transformRequest] followed by [execute]. *)
Definition Adapter : Type := ClaudeRequest.t -> nat -> outcome Error.t JS.object.

(** An event of the upstream message stream. *)
Record Chunk : Type := {
  type : string;
  delta_text : option string;   (* chunk.delta?.text *)
}.

(** The second argument of [onChunk]: 'start', 'content', 'stop', 'error'. *)
Inductive EventKind : Type := KStart | KContent | KStop | KError.

(** One call [onChunk(text, kind)]. *)
Definition Event : Type := (string * EventKind)%type.

(** A streaming adapter stub: what it delivers, then how it ends ([None]:
    normally). The upstream API delivers chunks; the SDK and CLI adapters
    are handed [onChunk] and call it themselves. *)
Definition ApiStream : Type := ClaudeRequest.t -> nat -> list Chunk * option Error.t.
Definition EventStream : Type := ClaudeRequest.t -> nat -> list Event * option Error.t.

(** What a call leaves behind outside the bridge object. *)
Record Effects : Type := {
  forwarded : list ClaudeRequest.t;  (* the request of each adapter invocation, oldest first *)
  sleeps : list Z;                   (* back-off delays slept, oldest first *)
  emitted : list Event;              (* calls made to onChunk, oldest first *)
}.

Definition no_effects : Effects := {| forwarded := []; sleeps := []; emitted := [] |}.

(** The number of adapter invocations so far. *)
Definition invocations (env : Effects) : nat := List.length (forwarded env).

Definition invoked (claudeRequest : ClaudeRequest.t) (env : Effects) : Effects :=
  {| forwarded := forwarded env ++ [claudeRequest]; sleeps := sleeps env;
     emitted := emitted env |}.

Definition sleep (ms : Z) (env : Effects) : Effects :=
  {| forwarded := forwarded env; sleeps := sleeps env ++ [ms]; emitted := emitted env |}.

Definition onChunk (evs : list Event) (env : Effects) : Effects :=
  {| forwarded := forwarded env; sleeps := sleeps env; emitted := emitted env ++ evs |}.

(** ** The cache (node-cache) *)

(** The part of node-cache the bridge relies on: a keyed store whose
    entries carry an expiry instant [t] in milliseconds, [0] meaning none.
    Expiry is checked when an entry is read, and an expired entry is
    deleted by that read. *)
Module NodeCache.

Record entry : Type := { v : JS.object; t : Z }.

Definition live (e : entry) (now : Z) : bool := (t e =? 0) || (now <=? t e).

Definition get (c : gmap string entry) (key : string) (now : Z)
  : option JS.object * gmap string entry :=
  match c !! key with
  | Some e => if live e now then (Some (v e), c) else (None, delete key c)
  | None => (None, c)
  end.

Definition set (c : gmap string entry) (key : string) (value : JS.object) (ttl now : Z)
  : gmap string entry :=
  <[ key := {| v := value; t := if ttl =? 0 then 0 else now + ttl * 1000 |} ]> c.

End NodeCache.

(** ** Metrics *)

Record Metrics : Type := {
  requests : Z;
  cacheHits : Z;
  cacheMisses : Z;
  errors : Z;
  totalTokens : Q;
  averageResponseTime : Q;
  lastRequestTime : option string;
  uptime : Z;
}.

Definition initialMetrics (now : Z) : Metrics :=
  {| requests := 0; cacheHits := 0; cacheMisses := 0; errors := 0;
     totalTokens := 0; averageResponseTime := 0;
     lastRequestTime := None; uptime := now |}.

(** Property read on any value. *)
Definition prop (k : string) (x : JS.value) : JS.value :=
  match x with JS.Obj o => JS.get k o | _ => JS.Undefined end.

(** [(x || 0)] for a token count, which is a finite number or absent. *)
Definition count_or_zero (x : JS.value) : Q :=
  match x with JS.Num (JS.Fin q) => q | _ => 0%Q end.

Definition updateMetrics (m : Metrics) (response : JS.object) (responseTime : Z) : Metrics :=
  let usage := JS.get "usage" response in
  let tokens :=
    if JS.truthy usage
    then (totalTokens m + (count_or_zero (prop "input_tokens" usage)
                           + count_or_zero (prop "output_tokens" usage)))%Q
    else totalTokens m in
  let currentAvg := averageResponseTime m in
  let requests := requests m in
  {| requests := requests; cacheHits := cacheHits m; cacheMisses := cacheMisses m;
     errors := errors m; totalTokens := tokens;
     averageResponseTime :=
       ((currentAvg * inject_Z (requests - 1) + inject_Z responseTime) / inject_Z requests)%Q;
     lastRequestTime := lastRequestTime m; uptime := uptime m |}.

(** ** The bridge object *)

Record Bridge : Type := {
  options : Options;
  authMethod : AuthMethod;
  anthropic : Adapter;            (* this.anthropic.messages.create *)
  claudeSDK : Adapter;            (* this.claudeSDK.execute *)
  claudeCLI : Adapter;            (* this.claudeCLI.execute *)
  anthropicStream : ApiStream;    (* this.anthropic.messages.create({stream: true}) *)
  claudeSDKStream : EventStream;  (* this.claudeSDK.executeStream *)
  claudeCLIStream : EventStream;  (* this.claudeCLI.executeStream *)
  cache : option (gmap string NodeCache.entry);
  metrics : Metrics;
}.

Definition with_state (b : Bridge) (c : option (gmap string NodeCache.entry)) (m : Metrics)
  : Bridge :=
  {| options := options b; authMethod := authMethod b;
     anthropic := anthropic b; claudeSDK := claudeSDK b; claudeCLI := claudeCLI b;
     anthropicStream := anthropicStream b; claudeSDKStream := claudeSDKStream b;
     claudeCLIStream := claudeCLIStream b;
     cache := c; metrics := m |}.

Definition noAuthError (streaming : bool) (m : AuthMethod) : Error.t :=
  {| Error.status := None; Error.code := None;
     Error.message :=
       Some ("No authentication method available"
             +:+ (if streaming then " for streaming" else "")
             +:+ ". Current method: " +:+ authMethod_text m
             +:+ ". Please provide ANTHROPIC_API_KEY or install Claude Code SDK/CLI.") |}.

(** The CLI answer put into the shape of an API message. *)
Definition cliToApi (cliResponse : JS.object) : JS.object :=
  [ ("content", JS.Arr [JS.Obj [("type", JS.Str "text");
                                ("text", JS.get "content" cliResponse)]]);
    ("model", JS.get "model" cliResponse);
    ("usage", JS.get "usage" cliResponse);
    ("role", JS.Str "assistant");
    ("type", JS.Str "message") ].

(** The [switch (this.authMethod)] of [executeWithRetry]: one attempt. *)
Definition attempt_once (b : Bridge) (claudeRequest : ClaudeRequest.t) (env : Effects)
  : outcome Error.t JS.object * Effects :=
  match authMethod b with
  | Api => (anthropic b claudeRequest (invocations env), invoked claudeRequest env)
  | Sdk => (claudeSDK b claudeRequest (invocations env), invoked claudeRequest env)
  | Cli =>
      (match claudeCLI b claudeRequest (invocations env) with
       | Returned cliResponse => Returned (cliToApi cliResponse)
       | Thrown e => Thrown e
       end, invoked claudeRequest env)
  | m => (Thrown (noAuthError false m), env)
  end.

Definition should_retry (opts : Options) (attempt : Z) (error : Error.t) : bool :=
  (attempt <? retryAttempts opts) && truthy_flag (isRetryableError error).

Definition backoff (opts : Options) (attempt : Z) : Z :=
  retryDelay opts * 2 ^ (attempt - 1).

Equations? executeWithRetry (b : Bridge) (claudeRequest : ClaudeRequest.t)
    (attempt : Z) (env : Effects) : outcome Error.t JS.object * Effects
    by wf (Z.to_nat (retryAttempts (options b) - attempt)) lt :=
  executeWithRetry b claudeRequest attempt env with attempt_once b claudeRequest env := {
    | (Returned response, env1) => (Returned response, env1)
    | (Thrown error, env1) with Logic.inspect (should_retry (options b) attempt error) := {
        | exist _ true _ =>
            executeWithRetry b claudeRequest (attempt + 1)
                             (sleep (backoff (options b) attempt) env1)
        | exist _ false _ => (Thrown error, env1) } }.
Proof.
  unfold should_retry in *.
  apply andb_true_iff in e as [Hlt _]. apply Z.ltb_lt in Hlt. lia.
Qed.

(** ** Non-streaming calls *)

(** [{...response, ...metadata, timestamp: new Date().toISOString()}]. *)
Definition formatResponse `{Platform} (response metadata : JS.object) (now : Z) : JS.object :=
  JS.set "timestamp" (JS.Str (toISOString now)) (JS.spread response metadata).

(** The object [proxyRequest] throws. *)
Module StructuredError.
Record t : Type := {
  status : Z;
  message : string;
  requestId : JS.value;
  responseTime : Z;
  retryable : option bool;
}.
End StructuredError.

(** [error.status || 500] and [error.message || fallback]. *)
Definition status_or_500 (error : Error.t) : Z :=
  match Error.status error with
  | Some n => if n =? 0 then 500 else n
  | None => 500
  end.

Definition message_or (fallback : string) (error : Error.t) : string :=
  match Error.message error with
  | Some m => if String.eqb m "" then fallback else m
  | None => fallback
  end.

Definition is_POST (x : JS.value) : bool :=
  match x with JS.Str s => String.eqb s "POST" | _ => false end.

Definition count_request `{Platform} (m : Metrics) (now : Z) : Metrics :=
  {| requests := requests m + 1; cacheHits := cacheHits m; cacheMisses := cacheMisses m;
     errors := errors m; totalTokens := totalTokens m;
     averageResponseTime := averageResponseTime m;
     lastRequestTime := Some (toISOString now); uptime := uptime m |}.

Definition count_cacheHit (m : Metrics) : Metrics :=
  {| requests := requests m; cacheHits := cacheHits m + 1; cacheMisses := cacheMisses m;
     errors := errors m; totalTokens := totalTokens m;
     averageResponseTime := averageResponseTime m;
     lastRequestTime := lastRequestTime m; uptime := uptime m |}.

Definition count_cacheMiss (m : Metrics) : Metrics :=
  {| requests := requests m; cacheHits := cacheHits m; cacheMisses := cacheMisses m + 1;
     errors := errors m; totalTokens := totalTokens m;
     averageResponseTime := averageResponseTime m;
     lastRequestTime := lastRequestTime m; uptime := uptime m |}.

Definition count_error (m : Metrics) : Metrics :=
  {| requests := requests m; cacheHits := cacheHits m; cacheMisses := cacheMisses m;
     errors := errors m + 1; totalTokens := totalTokens m;
     averageResponseTime := averageResponseTime m;
     lastRequestTime := lastRequestTime m; uptime := uptime m |}.

(** The cache check at the head of [proxyRequest]: the cached response if
    there is a live one, with the cache and the metrics as the check
    leaves them. *)
Definition cache_check (c : option (gmap string NodeCache.entry)) (request : Request.t)
    (cacheKey : string) (now : Z) (m : Metrics)
  : option JS.object * option (gmap string NodeCache.entry) * Metrics :=
  match c with
  | Some data =>
      if negb (is_POST (Request.method request)) then
        match NodeCache.get data cacheKey now with
        | (Some cached, data') => (Some cached, Some data', count_cacheHit m)
        | (None, data') => (None, Some data', count_cacheMiss m)
        end
      else (None, c, m)
  | None => (None, None, m)
  end.

(** [proxyRequest(request)]. The clock reads [t0] on entry and up to the
    cache check, and [t1] once the backend call has settled. *)
Definition proxyRequest `{Platform} (b : Bridge) (request : Request.t) (t0 t1 : Z)
    (env : Effects) : outcome StructuredError.t JS.object * Bridge * Effects :=
  let m := count_request (metrics b) t0 in
  let cacheKey := generateCacheKey (options b) request in
  match cache_check (cache b) request cacheKey t0 m with
  | (Some cached, c, m) =>
      (Returned (formatResponse cached [("fromCache", JS.Bool true)] t0), with_state b c m, env)
  | (None, c, m) =>
      let claudeRequest := transformToClaudeFormat (options b) request in
      match executeWithRetry b claudeRequest 1 env with
      | (Returned response, env) =>
          let responseTime := t1 - t0 in
          let m := updateMetrics m response responseTime in
          let c :=
            match c with
            | Some data =>
                if JS.truthy (JS.get "usage" response)
                then Some (NodeCache.set data cacheKey response (cacheTtl (options b)) t1)
                else Some data
            | None => None
            end in
          (Returned (formatResponse response
                       [("requestId", Request.requestId request);
                        ("responseTime", JS.Num (JS.ofZ responseTime))] t1),
           with_state b c m, env)
      | (Thrown error, env) =>
          (Thrown {| StructuredError.status := status_or_500 error;
                     StructuredError.message := message_or "Request failed" error;
                     StructuredError.requestId := Request.requestId request;
                     StructuredError.responseTime := t1 - t0;
                     StructuredError.retryable := isRetryableError error |},
           with_state b c (count_error m), env)
      end
  end.

(** ** Streaming calls *)

(** The body of the [for await] loop of [streamAnthropicAPI]. *)
Definition relayChunk (chunk : Chunk) : list Event :=
  if String.eqb (type chunk) "content_block_delta" then
    let text := default "" (delta_text chunk) in
    if negb (String.eqb text "") then [(text, KContent)] else []
  else if String.eqb (type chunk) "message_start" then [("", KStart)]
  else if String.eqb (type chunk) "message_stop" then [("", KStop)]
  else [].

Definition streamAnthropicAPI (b : Bridge) (claudeRequest : ClaudeRequest.t) (env : Effects)
  : option Error.t * Effects :=
  let '(chunks, ending) := anthropicStream b claudeRequest (invocations env) in
  (ending, onChunk (List.flat_map relayChunk chunks) (invoked claudeRequest env)).

(** The [switch (this.authMethod)] of [executeStreamWithRetry]: one
    attempt; [None] when it completes. *)
Definition stream_once (b : Bridge) (claudeRequest : ClaudeRequest.t) (env : Effects)
  : option Error.t * Effects :=
  match authMethod b with
  | Api => streamAnthropicAPI b claudeRequest env
  | Sdk =>
      let '(events, ending) := claudeSDKStream b claudeRequest (invocations env) in
      (ending, onChunk events (invoked claudeRequest env))
  | Cli =>
      let '(events, ending) := claudeCLIStream b claudeRequest (invocations env) in
      (ending, onChunk events (invoked claudeRequest env))
  | m => (Some (noAuthError true m), env)
  end.

Equations? executeStreamWithRetry (b : Bridge) (claudeRequest : ClaudeRequest.t)
    (attempt : Z) (env : Effects) : option Error.t * Effects
    by wf (Z.to_nat (retryAttempts (options b) - attempt)) lt :=
  executeStreamWithRetry b claudeRequest attempt env with stream_once b claudeRequest env := {
    | (None, env1) => (None, env1)
    | (Some error, env1) with Logic.inspect (should_retry (options b) attempt error) := {
        | exist _ true _ =>
            executeStreamWithRetry b claudeRequest (attempt + 1)
                                   (sleep (backoff (options b) attempt) env1)
        | exist _ false _ => (Some error, env1) } }.
Proof.
  unfold should_retry in *.
  apply andb_true_iff in e as [Hlt _]. apply Z.ltb_lt in Hlt. lia.
Qed.

(** The object [proxyRequestStream] throws. *)
Module StreamError.
Record t : Type := {
  status : Z;
  message : string;
  requestId : JS.value;
  responseTime : Z;
}.
End StreamError.

Definition proxyRequestStream `{Platform} (b : Bridge) (request : Request.t) (t0 t1 : Z)
    (env : Effects) : outcome StreamError.t unit * Bridge * Effects :=
  let m := count_request (metrics b) t0 in
  let claudeRequest := transformToClaudeFormat (options b) request in
  match executeStreamWithRetry b claudeRequest 1 env with
  | (None, env) => (Returned tt, with_state b (cache b) m, env)
  | (Some error, env) =>
      (Thrown {| StreamError.status := status_or_500 error;
                 StreamError.message := message_or "Streaming request failed" error;
                 StreamError.requestId := Request.requestId request;
                 StreamError.responseTime := t1 - t0 |},
       with_state b (cache b) (count_error m),
       onChunk [("ERROR: " +:+ message_or "Stream failed" error, KError)] env)
  end.

(** ** Vocabulary of the properties *)

(** The adapter the pinned backend calls, the CLI answer taken in API
    shape; [None] when no backend is selected. *)
Definition backend (b : Bridge) : option Adapter :=
  match authMethod b with
  | Api => Some (anthropic b)
  | Sdk => Some (claudeSDK b)
  | Cli => Some (fun claudeRequest n =>
                   match claudeCLI b claudeRequest n with
                   | Returned cliResponse => Returned (cliToApi cliResponse)
                   | Thrown e => Thrown e
                   end)
  | _ => None
  end.

(** The live cached response the cache check of [proxyRequest] finds. *)
Definition cached_response `{Platform} (b : Bridge) (request : Request.t) (now : Z)
  : option JS.object :=
  (cache_check (cache b) request (generateCacheKey (options b) request) now
               (count_request (metrics b) now)).1.1.

(** What a request asks for: its own value, the configured default when
    it names none. *)
Definition requested_max_tokens (opts : Options) (request : Request.t) : JS.number :=
  default (maxTokens opts) (Request.max_tokens request).

Definition requested_temperature (request : Request.t) : JS.number :=
  default default_temperature (Request.temperature request).

(** The requests a call has forwarded, given the log before and after. *)
Definition newly_forwarded (before after : Effects) : list ClaudeRequest.t :=
  skipn (List.length (forwarded before)) (forwarded after).


Definition total (l : list Z) : Z := fold_right Z.add 0 l.

(** The delays slept after attempts [from], [from + 1], ... ([n] of them). *)
Definition delays (opts : Options) (from : Z) (n : nat) : list Z :=
  List.map (fun k => backoff opts (from + Z.of_nat k)) (seq 0 n).

(** The effects of [calls] invocations with request [cr] and [naps]
    back-off sleeps, starting at attempt [from]. *)
Definition after_attempts (opts : Options) (cr : ClaudeRequest.t) (from : Z)
    (calls naps : nat) (env : Effects) : Effects :=
  {| forwarded := forwarded env ++ repeat cr calls;
     sleeps := sleeps env ++ delays opts from naps;
     emitted := emitted env |}.


(** The message list as the specification words it: the system message if
    present, the context message if present, then the instruction, where
    [direct_prompt] goes before [prompt]; present means given and not
    empty. *)
Definition present (s : option string) : list string :=
  match s with
  | Some x => if String.eqb x "" then [] else [x]
  | None => []
  end.

Definition spec_messages (gh : GhRequest.t) : list JS.value :=
  List.map (mkMessage "system") (present (GhRequest.system_prompt gh))
  ++ List.map (fun c => mkMessage "user" ("Context: " +:+ c)) (present (GhRequest.context gh))
  ++ List.map (mkMessage "user")
       (match present (GhRequest.direct_prompt gh) with
        | [] => present (GhRequest.prompt gh)
        | d => d
        end).

(** What one streaming attempt hands to [onChunk], and how it ends. *)
Definition delivered (b : Bridge) (cr : ClaudeRequest.t) (n : nat) : list Event * option Error.t :=
  match authMethod b with
  | Api => let '(chunks, ending) := anthropicStream b cr n in
           (List.flat_map relayChunk chunks, ending)
  | Sdk => claudeSDKStream b cr n
  | Cli => claudeCLIStream b cr n
  | m => ([], Some (noAuthError true m))
  end.

(** What [k] successive attempts hand to [onChunk], the first of them
    being adapter invocation number [from]. *)
Definition relayed (b : Bridge) (cr : ClaudeRequest.t) (from k : nat) : list Event :=
  concat (List.map (fun i => (delivered b cr (from + i)).1) (seq 0 k)).

(** The texts of the content deltas of an upstream stream, in order. *)
Definition content_texts (chunks : list Chunk) : list string :=
  List.flat_map
    (fun chunk => if String.eqb (type chunk) "content_block_delta"
                  then present (delta_text chunk) else [])
    chunks.

Definition is_content (ev : Event) : bool :=
  match ev.2 with KContent => true | _ => false end.

Definition is_terminal (ev : Event) : bool :=
  match ev.2 with KStop | KError => true | _ => false end.

Definition terminal_events (evs : list Event) : nat :=
  List.length (List.filter is_terminal evs).

(** ** Cache administration and sequences of calls *)

(** [clearCache]: [flushAll] empties the store of an enabled cache. *)
Definition clearCache (b : Bridge) : Bridge :=
  with_state b (match cache b with Some _ => Some ∅ | None => None end) (metrics b).

(** The [hitRate] of [getCacheStats]: [hits / (hits + misses) || 0]; a
    division of zero by zero is [NaN], which [||] replaces by [0]. *)
Definition hitRate (m : Metrics) : JS.number :=
  let hits := cacheHits m in
  let lookups := hits + cacheMisses m in
  if lookups =? 0 then
    if hits =? 0 then JS.ofZ 0 else if 0 <? hits then JS.PosInf else JS.NegInf
  else if hits =? 0 then JS.ofZ 0
  else JS.Fin (inject_Z hits / inject_Z lookups).

(** The cache as the success path of [proxyRequest] leaves it: the
    response is stored only if it carries [usage]. *)
Definition stored (opts : Options) (c : option (gmap string NodeCache.entry)) (key : string)
    (response : JS.object) (now : Z) : option (gmap string NodeCache.entry) :=
  match c with
  | Some data =>
      if JS.truthy (JS.get "usage" response)
      then Some (NodeCache.set data key response (cacheTtl opts) now)
      else Some data
  | None => None
  end.

(** One use of the bridge: a non-streaming call, a streaming call, or a
    cache flush. *)
Inductive Call : Type :=
| NonStreaming (request : Request.t) (t0 t1 : Z)
| Streaming (request : Request.t) (t0 t1 : Z)
| Flush.

Definition perform `{Platform} (s : Bridge * Effects) (c : Call) : Bridge * Effects :=
  match c with
  | NonStreaming request t0 t1 =>
      let '(_, b, env) := proxyRequest s.1 request t0 t1 s.2 in (b, env)
  | Streaming request t0 t1 =>
      let '(_, b, env) := proxyRequestStream s.1 request t0 t1 s.2 in (b, env)
  | Flush => (clearCache s.1, s.2)
  end.

Definition run `{Platform} (calls : list Call) (s : Bridge * Effects) : Bridge * Effects :=
  fold_left perform calls s.

Definition is_call (c : Call) : bool :=
  match c with Flush => false | _ => true end.

(** What the counters of a bridge that started from zero always satisfy. *)
Definition counters_consistent (m : Metrics) : Prop :=
  0 <= cacheHits m /\ 0 <= cacheMisses m /\ 0 <= errors m
  /\ cacheHits m + cacheMisses m <= requests m
  /\ cacheHits m + errors m <= requests m.

(** The effects of a streaming call that made [calls] attempts with
    request [cr], slept [naps] times and handed on what those attempts
    delivered. *)
Definition after_stream_attempts (b : Bridge) (cr : ClaudeRequest.t) (from : Z)
    (calls naps : nat) (env : Effects) : Effects :=
  {| forwarded := forwarded env ++ repeat cr calls;
     sleeps := sleeps env ++ delays (options b) from naps;
     emitted := emitted env ++ relayed b cr (invocations env) calls |}.

(** A request that names the numbers a normalised request carries. *)
Definition renormalised (request : Request.t) (cr : ClaudeRequest.t) : Request.t :=
  {| Request.model := Request.model request;
     Request.max_tokens := Some (ClaudeRequest.max_tokens cr);
     Request.temperature := Some (ClaudeRequest.temperature cr);
     Request.messages := Request.messages request;
     Request.system := Request.system request;
     Request.stop_sequences := Request.stop_sequences request;
     Request.otherParams := Request.otherParams request |}.



(** ** Text conversions *)

Definition nullish (v : JS.value) : bool :=
  match v with JS.Undefined | JS.Null => true | _ => false end.

(** [v === s] for a string literal [s]. *)
Definition is_str (s : string) (v : JS.value) : bool :=
  match v with JS.Str x => String.eqb x s | _ => false end.

(** The separator of the prompt parts: two line feeds. *)
Definition blank_line : string :=
  String (ascii_of_nat 10) (String (ascii_of_nat 10) EmptyString).

Section ToString.
Context {P : Platform}.

(** ToString on a JSON-like value: an array is its elements joined by
    commas, a plain object is the text [[object Object]]. *)
Fixpoint toString (v : JS.value) : string :=
  match v with
  | JS.Undefined => "undefined"
  | JS.Null => "null"
  | JS.Bool true => "true"
  | JS.Bool false => "false"
  | JS.Num (JS.Fin q) => JSON.finiteToString q
  | JS.Num JS.PosInf => "Infinity"
  | JS.Num JS.NegInf => "-Infinity"
  | JS.Num JS.NaN => "NaN"
  | JS.Str s => s
  | JS.Arr l => JSON.join "," (List.map (fun x => if nullish x then "" else toString x) l)
  | JS.Obj _ => "[object Object]"
  end.

(** [l.join(sep)]: [null] and [undefined] elements are written as the
    empty text. *)
Definition Array_join (sep : string) (l : list JS.value) : string :=
  JSON.join sep (List.map (fun x => if nullish x then "" else toString x) l).

End ToString.

(** What the JavaScript engine supplies and the model leaves abstract:
    [String.prototype.trim], the split of a text at runs of commas and
    white space ([split(/[,\s]+/)]), and the message of the [TypeError]
    that reading property [k] of [null] or [undefined] raises. *)
Class Engine : Type := {
  trim : string -> string;
  splitTools : string -> list string;
  readOfNullish : JS.value -> string -> string;
}.

Definition typeError `{Engine} (v : JS.value) (k : string) : Error.t :=
  {| Error.status := None; Error.code := None;
     Error.message := Some (readOfNullish v k) |}.

(** ** The command-line adapter *)

Module ClaudeCodeCLI.

(** What one run of the [claude] command does: the command is not on the
    path, the process closes (with its exit code, [None] when a signal
    ended it, and what it wrote to standard output and standard error)
    before the timer fires, or the timer fires first. *)
Inductive Run : Type :=
| NotFound
| Closed (code : option Z) (output error : string)
| TimedOut.

(** [new Error(message)]. *)
Definition failure (message : string) : Error.t :=
  {| Error.status := None; Error.code := None; Error.message := Some message |}.

(** The arguments handed to [spawn]. *)
Definition args (model prompt : JS.value) : list JS.value :=
  ((if JS.truthy model then [JS.Str "--model"; model] else []) ++ [prompt])%list.

(** [execute(prompt, {model, timeout})] with the timer armed, as the
    bridge calls it. *)
Definition execute `{Engine} (model : JS.value) (run : Run) : outcome Error.t JS.object :=
  match run with
  | NotFound =>
      Thrown (failure
        "Claude Code CLI not found. Please install: curl -fsSL https://api.claude.ai/install.sh | sh")
  | Closed code output error =>
      match code with
      | Some 0 =>
          Returned [ ("content", JS.Str (trim output));
                     ("model", JS.or_else model (JS.Str "claude-max"));
                     ("source", JS.Str "cli");
                     ("usage", JS.Obj [("note", JS.Str "Usage tracked by MAX subscription");
                                       ("subscription", JS.Str "MAX")]) ]
      | _ =>
          Thrown (failure ("Claude Code CLI failed: "
                           +:+ (if String.eqb error "" then "Unknown error" else error)))
      end
  | TimedOut => Thrown (failure "Claude Code CLI timeout")
  end.

(** The text one message contributes to the prompt. *)
Definition part `{Platform} (msg : JS.value) : JS.value :=
  if is_str "system" (prop "role" msg)
  then JS.Str ("System: " +:+ toString (prop "content" msg))
  else if is_str "assistant" (prop "role" msg)
  then JS.Str ("Assistant: " +:+ toString (prop "content" msg))
  else prop "content" msg.

(** [transformRequest(apiRequest)]: the prompt, or the [TypeError] of
    reading [role] on a message that is [null] or [undefined]. *)
Definition transformRequest `{Platform} `{Engine} (apiRequest : ClaudeRequest.t)
  : outcome Error.t JS.value :=
  let other := ClaudeRequest.otherParams apiRequest in
  match ClaudeRequest.messages apiRequest with
  | JS.Arr l =>
      match List.find nullish l with
      | Some v => Thrown (typeError v "role")
      | None => Returned (JS.Str (Array_join blank_line (List.map part l)))
      end
  | _ =>
      if JS.truthy (JS.get "prompt" other) then Returned (JS.get "prompt" other)
      else if JS.truthy (JS.get "direct_prompt" other)
      then Returned (JS.get "direct_prompt" other)
      else Returned (JS.Str "")
  end.

(** The [cli] case of the bridge: [transformRequest], then [execute]
    with the model of the request. [world] is what the command does when
    run with given arguments for the [n]-th time. *)
Definition adapter `{Platform} `{Engine} (world : list JS.value -> nat -> Run) : Adapter :=
  fun claudeRequest n =>
    match transformRequest claudeRequest with
    | Returned cliPrompt =>
        execute (ClaudeRequest.model claudeRequest)
                (world (args (ClaudeRequest.model claudeRequest) cliPrompt) n)
    | Thrown e => Thrown e
    end.

End ClaudeCodeCLI.

(** ** The SDK adapter *)

Module ClaudeCodeSDK.

(** [this.options] of the adapter. *)
Record Config : Type := {
  maxTurns : JS.value;
  outputFormat : JS.value;
  cwd : JS.value;
  allowedTools : JS.value;
  systemPrompt : JS.value;
  mcpConfig : JS.value;
}.

(** What the [query] generator does: it yields messages and completes, or
    it throws. *)
Inductive Query : Type :=
| Completed (messages : list JS.object)
| Failed (error : Error.t).

(** [content?.[0]?.text]; the first character of a text has no [text]. *)
Definition first_text (content : JS.value) : JS.value :=
  match content with
  | JS.Arr (x :: _) => prop "text" x
  | JS.Obj o => prop "text" (JS.get "0" o)
  | _ => JS.Undefined
  end.

Definition find_message (p : JS.object -> bool) (messages : list JS.object) : JS.value :=
  match List.find p messages with Some m => JS.Obj m | None => JS.Undefined end.

(** [processMessages(messages, requestId)]. *)
Definition processMessages `{Platform} (messages : list JS.object) (requestId : JS.value)
  : JS.object :=
  let resultMessage := find_message (fun m => is_str "result" (JS.get "type" m)) messages in
  let assistantMessages :=
    List.filter (fun m => is_str "assistant" (JS.get "type" m)) messages in
  let initMessage :=
    find_message (fun m => is_str "system" (JS.get "type" m)
                           && is_str "init" (JS.get "subtype" m)) messages in
  let response :=
    if JS.truthy resultMessage && is_str "success" (prop "subtype" resultMessage)
    then prop "result" resultMessage
    else match List.last (List.map Some assistantMessages) None with
         | Some lastAssistant =>
             JS.or_else (first_text (prop "content" (JS.get "message" lastAssistant)))
                        (JS.Str "")
         | None => JS.Str ""
         end in
  let usage :=
    [ ("total_cost_usd", JS.or_else (prop "total_cost_usd" resultMessage) (JS.Num (JS.ofZ 0)));
      ("duration_ms", JS.or_else (prop "duration_ms" resultMessage) (JS.Num (JS.ofZ 0)));
      ("duration_api_ms", JS.or_else (prop "duration_api_ms" resultMessage) (JS.Num (JS.ofZ 0)));
      ("num_turns", JS.or_else (prop "num_turns" resultMessage) (JS.Num (JS.ofZ 0)));
      ("subscription", JS.Str "MAX") ] in
  let metadata :=
    [ ("session_id", JS.or_else (prop "session_id" resultMessage)
                                (JS.Str ("sdk_" +:+ toString requestId)));
      ("model", JS.or_else (prop "model" initMessage) (JS.Str "claude-sonnet-4"));
      ("tools", JS.or_else (prop "tools" initMessage) (JS.Arr []));
      ("mcp_servers", JS.or_else (prop "mcp_servers" initMessage) (JS.Arr []));
      ("permission_mode", JS.or_else (prop "permissionMode" initMessage) (JS.Str "default"));
      ("api_key_source", JS.or_else (prop "apiKeySource" initMessage)
                                    (JS.Str "MAX_subscription")) ] in
  [ ("content", JS.Arr [JS.Obj [("type", JS.Str "text"); ("text", response)]]);
    ("model", JS.get "model" metadata);
    ("usage", JS.Obj usage);
    ("metadata", JS.Obj metadata);
    ("role", JS.Str "assistant");
    ("type", JS.Str "message");
    ("success", JS.Bool (is_str "success" (prop "subtype" resultMessage)));
    ("is_error", JS.or_else (prop "is_error" resultMessage) (JS.Bool false)) ].

(** The options handed to [query]; [options.sdkOptions] is absent or an
    object. *)
Definition queryOptions (cfg : Config) (options : JS.object) : JS.object :=
  JS.spread
    [ ("maxTurns", JS.or_else (JS.get "maxTurns" options) (maxTurns cfg));
      ("outputFormat", JS.or_else (JS.get "outputFormat" options) (outputFormat cfg));
      ("cwd", JS.or_else (JS.get "cwd" options) (cwd cfg));
      ("allowedTools", JS.or_else (JS.get "allowedTools" options) (allowedTools cfg));
      ("systemPrompt", JS.or_else (JS.get "systemPrompt" options) (systemPrompt cfg));
      ("mcpConfig", JS.or_else (JS.get "mcpConfig" options) (mcpConfig cfg)) ]
    (match JS.get "sdkOptions" options with JS.Obj o => o | _ => [] end).

(** [execute(prompt, options)] given what the query did. [generated] is
    the identifier made from the clock and a random number when the
    options name none, [duration] the time the call took. *)
Definition execute `{Platform} (generated : string) (duration : Z) (options : JS.object)
    (q : Query) : outcome Error.t JS.object :=
  let requestId := JS.or_else (JS.get "requestId" options) (JS.Str generated) in
  match q with
  | Completed messages =>
      Returned (JS.spread (processMessages messages requestId)
                  [ ("requestId", requestId);
                    ("duration", JS.Num (JS.ofZ duration));
                    ("source", JS.Str "sdk");
                    ("messages", if JS.truthy (JS.get "includeMessages" options)
                                 then JS.Arr (List.map JS.Obj messages)
                                 else JS.Undefined) ])
  | Failed error =>
      Thrown {| Error.status := Some 500; Error.code := None;
                Error.message :=
                  Some (message_or "Claude Code SDK execution failed" error) |}
  end.

(** [parseAllowedTools(allowedTools)]. *)
Definition parseAllowedTools `{Engine} (allowedTools : JS.value) : JS.value :=
  if negb (JS.truthy allowedTools) then JS.Arr []
  else match allowedTools with
       | JS.Str s =>
           JS.Arr (List.map JS.Str
                     (List.filter (fun tool => negb (String.eqb tool ""))
                                  (List.map trim (splitTools s))))
       | JS.Arr l => JS.Arr l
       | _ => JS.Arr []
       end.

(** [transformRequest(apiRequest)]: the prompt and [sdkOptions], or the
    [TypeError] of reading [role] on a message that is [null] or
    [undefined]. *)
Definition transformRequest `{Platform} `{Engine} (cfg : Config) (apiRequest : ClaudeRequest.t)
  : outcome Error.t (JS.value * JS.object) :=
  let other := ClaudeRequest.otherParams apiRequest in
  let mcp := JS.or_else (JS.get "mcp_config" other) (mcpConfig cfg) in
  let sdkOptions : JS.object :=
    ([ ("maxTurns", JS.or_else (JS.get "max_turns" other) (maxTurns cfg));
       ("outputFormat", JS.Str "json");
       ("allowedTools", parseAllowedTools (JS.get "allowed_tools" other));
       ("systemPrompt", JS.or_else (JS.get "system_prompt" other)
                                   (default JS.Undefined (ClaudeRequest.system apiRequest)));
       ("permissionMode", JS.or_else (JS.get "permission_mode" other) (JS.Str "default")) ]
     ++ (if JS.truthy mcp then [("mcpConfig", mcp)] else []))%list in
  match ClaudeRequest.messages apiRequest with
  | JS.Arr l =>
      match List.find nullish l with
      | Some v => Thrown (typeError v "role")
      | None =>
          Returned (JS.Str (Array_join blank_line
                              (List.map (prop "content")
                                 (List.filter (fun msg => is_str "user" (prop "role" msg)) l))),
                    sdkOptions)
      end
  | _ =>
      (if JS.truthy (JS.get "direct_prompt" other)
       then Returned (JS.get "direct_prompt" other, sdkOptions)
       else if JS.truthy (JS.get "prompt" other)
       then Returned (JS.get "prompt" other, sdkOptions)
       else Returned (JS.Str "", sdkOptions))
  end.

(** What a call of the bridge hands to [query]: the prompt and the query
    options made from [{requestId, timeout: 60000, ...sdkOptions}]. *)
Definition callOptions (requestId : JS.value) (sdkOptions : JS.object) : JS.object :=
  JS.spread [("requestId", requestId); ("timeout", JS.Num (JS.ofZ 60000))] sdkOptions.

Definition queryInput `{Platform} `{Engine} (cfg : Config) (apiRequest : ClaudeRequest.t)
  : outcome Error.t (JS.value * JS.object) :=
  match transformRequest cfg apiRequest with
  | Returned (prompt, sdkOptions) =>
      Returned (prompt,
                queryOptions cfg
                  (callOptions (JS.get "requestId" (ClaudeRequest.otherParams apiRequest))
                               sdkOptions))
  | Thrown e => Thrown e
  end.

(** The [sdk] case of the bridge: [transformRequest], then [execute].
    [world] is what the query does for a given input at the [n]-th call,
    [generated] and [duration] the identifier made and the time taken
    there. *)
Definition adapter `{Platform} `{Engine} (cfg : Config) (generated : nat -> string)
    (duration : nat -> Z) (world : JS.value * JS.object -> nat -> Query) : Adapter :=
  fun claudeRequest n =>
    match transformRequest cfg claudeRequest with
    | Returned (prompt, sdkOptions) =>
        let options :=
          callOptions (JS.get "requestId" (ClaudeRequest.otherParams claudeRequest))
                      sdkOptions in
        execute (generated n) (duration n) options
                (world (prompt, queryOptions cfg options) n)
    | Thrown e => Thrown e
    end.

End ClaudeCodeSDK.

(** ** The GitHub Actions endpoint *)

(** [transformGitHubActionsResponse(claudeResponse)]. *)
Definition transformGitHubActionsResponse `{Platform} (claudeResponse : JS.object) (now : Z)
  : JS.object :=
  [ ("action", JS.Str "response");
    ("success", JS.Bool true);
    ("response", JS.or_else (ClaudeCodeSDK.first_text (JS.get "content" claudeResponse))
                            (JS.get "content" claudeResponse));
    ("usage", JS.get "usage" claudeResponse);
    ("model", JS.get "model" claudeResponse);
    ("metadata",
     JS.Obj [ ("requestId", JS.get "requestId" claudeResponse);
              ("responseTime", JS.get "responseTime" claudeResponse);
              ("fromCache", JS.or_else (JS.get "fromCache" claudeResponse) (JS.Bool false));
              ("timestamp", JS.Str (toISOString now)) ]) ].

(** The request the handler hands to the bridge:
    [{...claudeRequest, requestId, headers, isGitHubActions: true}]. *)
Definition githubActionsCall (opts : Options) (body : GhRequest.t) (requestId : string)
    (headers : JS.value) : Request.t :=
  let claudeRequest := transformGitHubActionsRequest opts body in
  {| Request.model := Request.model claudeRequest;
     Request.max_tokens := Request.max_tokens claudeRequest;
     Request.temperature := Request.temperature claudeRequest;
     Request.messages := Request.messages claudeRequest;
     Request.system := Request.system claudeRequest;
     Request.stop_sequences := Request.stop_sequences claudeRequest;
     Request.otherParams :=
       JS.spread (Request.otherParams claudeRequest)
                 [ ("requestId", JS.Str requestId);
                   ("headers", headers);
                   ("isGitHubActions", JS.Bool true) ] |}.

(** What a handler sends: the status and the JSON body. *)
Module Reply.
Record t : Type := { status : Z; body : JS.object }.
End Reply.

(** The non-streaming branch of the handler of
    [POST /api/github-actions/claude]. The clock reads [start] on entry,
    [t0] and [t1] inside [proxyRequest], and [t2] when the reply is made. *)
Definition githubActionsReply `{Platform} (b : Bridge) (body : GhRequest.t)
    (requestId : string) (headers : JS.value) (start t0 t1 t2 : Z) (env : Effects)
  : Reply.t * Bridge * Effects :=
  match proxyRequest b (githubActionsCall (options b) body requestId headers) t0 t1 env with
  | (Returned response, b, env) =>
      ({| Reply.status := 200;
          Reply.body := transformGitHubActionsResponse response t2 |}, b, env)
  | (Thrown error, b, env) =>
      ({| Reply.status :=
            if StructuredError.status error =? 0 then 500 else StructuredError.status error;
          Reply.body :=
            [ ("error", JS.Str (if String.eqb (StructuredError.message error) ""
                                then "Internal server error"
                                else StructuredError.message error));
              ("requestId", JS.Str requestId);
              ("duration", JS.Num (JS.ofZ (t2 - start)));
              ("action", JS.Str "error") ] |}, b, env)
  end.

(** ** The error-handling middleware *)

Module ErrorHandler.

(** The properties of the error the middleware reads; [status] and
    [statusCode] are numbers or absent. *)
Record Err : Type := {
  status : option Z;
  statusCode : option Z;
  message : option string;
  name : option string;
  code : option string;
  stack : JS.value;
  details : JS.value;
}.

Definition named (n : string) (x : option string) : bool :=
  match x with Some s => String.eqb s n | None => false end.

(** [a || b] on a number that may be absent. *)
Definition num_or (a : option Z) (b : Z) : Z :=
  match a with Some n => if n =? 0 then b else n | None => b end.

(** The status sent and the object handed to [res.json]. [production] is
    [process.env.NODE_ENV === 'production']; [requestId] is the
    [x-request-id] header. *)
Definition middleware `{Platform} (production : bool) (error : Err) (requestId : JS.value)
    (now : Z) : Reply.t :=
  let status0 := num_or (status error) (num_or (statusCode error) 500) in
  let message0 :=
    match message error with
    | Some m => if String.eqb m "" then "Internal server error" else m
    | None => "Internal server error"
    end in
  let '(status, message) :=
    if named "ValidationError" (name error) then (400, "Invalid request data")
    else if named "UnauthorizedError" (name error) then (401, "Unauthorized access")
    else if named "ECONNREFUSED" (code error) then (503, "Service temporarily unavailable")
    else if named "ENOTFOUND" (code error) then (502, "External service unreachable")
    else (status0, message0) in
  let message :=
    if production && (500 <=? status) then "Internal server error" else message in
  {| Reply.status := status;
     Reply.body :=
       JS.spread [ ("error", JS.Str message);
                   ("status", JS.Num (JS.ofZ status));
                   ("timestamp", JS.Str (toISOString now));
                   ("requestId", requestId) ]
                 (if production then []
                  else [("stack", stack error); ("details", details error)]) |}.

End ErrorHandler.

(** ** The authentication middleware *)

Module AuthMiddleware.

(** [s.split(',')]. *)
Fixpoint split_commas (s : string) : list string :=
  match s with
  | EmptyString => [EmptyString]
  | String c rest =>
      if Ascii.eqb c ","%char then EmptyString :: split_commas rest
      else match split_commas rest with
           | x :: xs => String c x :: xs
           | [] => [String c EmptyString]
           end
  end.

Record t : Type := {
  apiKeys : list string;
  githubTokens : list string;
  requireAuth : bool;
}.

(** [set.has(x)]. *)
Definition has (set : list string) (x : string) : bool := existsb (String.eqb x) set.

(** The constructor, from the three environment variables it reads. *)
Definition constructor `{Engine} (AUTHORIZED_API_KEYS GITHUB_TOKENS REQUIRE_AUTH : option string)
  : t :=
  let listed (variable : option string) :=
    List.filter (fun key => negb (String.eqb (trim key) ""))
      (split_commas (match variable with
                     | Some s => s
                     | None => ""
                     end)) in
  {| apiKeys := listed AUTHORIZED_API_KEYS;
     githubTokens := listed GITHUB_TOKENS;
     requireAuth := negb (ErrorHandler.named "false" REQUIRE_AUTH) |}.

(** The parts of the request the middleware reads; a header is a text or
    absent. *)
Record Req : Type := {
  path : string;
  authorization : option string;
  x_api_key : option string;
  x_github_token : option string;
  x_github_repository : option string;
  x_github_workflow : option string;
  x_github_actor : option string;
  ip : option string;
  remoteAddress : option string;
}.

(** What the middleware does: it calls [next()], with the [authType] it
    has written on the request if any; it answers 401; or it throws the
    [TypeError] of [startsWith] read on an absent address. *)
Inductive Verdict : Type :=
| Next (authType : option string)
| Unauthorized
| Raised.

Definition isValidGitHubToken (req : Req) : bool :=
  truthy_str (x_github_repository req)
  && truthy_str (x_github_workflow req)
  && truthy_str (x_github_actor req).

Definition localIPs : list string := ["::1"; "::ffff:127.0.0.1"; "127.0.0.1"; "localhost"].

(** [isLocalRequest(req)]; [None] is the [TypeError]. *)
Definition isLocalRequest (req : Req) : option bool :=
  let address := if truthy_str (ip req) then ip req else remoteAddress req in
  match address with
  | Some a =>
      Some (existsb (String.eqb a) localIPs
            || String.prefix "192.168." a || String.prefix "10." a)
  | None => None
  end.

Definition bearer_token (authHeader : string) : string :=
  String.substring 7 (String.length authHeader - 7) authHeader.

Definition middleware (auth : t) (req : Req) : Verdict :=
  if String.eqb (path req) "/health" then Next None
  else if negb (requireAuth auth) then Next None
  else if match x_api_key req with
          | Some apiKey => truthy_str (Some apiKey) && has (apiKeys auth) apiKey
          | None => false
          end
  then Next (Some "api-key")
  else if match authorization req with
          | Some authHeader =>
              truthy_str (Some authHeader) && String.prefix "Bearer " authHeader
              && has (apiKeys auth) (bearer_token authHeader)
          | None => false
          end
  then Next (Some "bearer")
  else if includes "/github-actions/" (path req)
          && match x_github_token req with
             | Some githubToken =>
                 truthy_str (Some githubToken)
                 && (has (githubTokens auth) githubToken || isValidGitHubToken req)
             | None => false
             end
  then Next (Some "github")
  else match isLocalRequest req with
       | Some true => Next (Some "local")
       | Some false => Unauthorized
       | None => Raised
       end.

End AuthMiddleware.

(** An answer whose [usage] is an object without token counts. *)
Definition token_free (r : JS.object) : Prop :=
  exists u, JS.get "usage" r = JS.Obj u
            /\ JS.get "input_tokens" u = JS.Undefined
            /\ JS.get "output_tokens" u = JS.Undefined.

(** A payload with another [system_prompt]. *)
Definition with_system_prompt (gh : GhRequest.t) (system_prompt : option string) : GhRequest.t :=
  {| GhRequest.prompt := GhRequest.prompt gh;
     GhRequest.direct_prompt := GhRequest.direct_prompt gh;
     GhRequest.model := GhRequest.model gh;
     GhRequest.max_tokens := GhRequest.max_tokens gh;
     GhRequest.temperature := GhRequest.temperature gh;
     GhRequest.system_prompt := system_prompt;
     GhRequest.context := GhRequest.context gh;
     GhRequest.action := GhRequest.action gh;
     GhRequest.otherParams := GhRequest.otherParams gh |}.

(** ** The constructor of the bridge *)

(** [v !== false]. *)
Definition is_not_false (v : JS.value) : bool :=
  match v with JS.Bool false => false | _ => true end.

(** [this.options] as the constructor builds it from its argument and
    from the [ANTHROPIC_API_KEY] of the environment. *)
Definition constructor_options (ANTHROPIC_API_KEY : JS.value) (options : JS.object)
  : JS.object :=
  JS.spread
    [ ("anthropicApiKey", JS.or_else (JS.get "anthropicApiKey" options) ANTHROPIC_API_KEY);
      ("cacheEnabled", JS.Bool (is_not_false (JS.get "cacheEnabled" options)));
      ("cacheTtl", JS.or_else (JS.get "cacheTtl" options) (JS.Num (JS.ofZ 300)));
      ("retryAttempts", JS.or_else (JS.get "retryAttempts" options) (JS.Num (JS.ofZ 3)));
      ("retryDelay", JS.or_else (JS.get "retryDelay" options) (JS.Num (JS.ofZ 1000)));
      ("maxTokens", JS.or_else (JS.get "maxTokens" options) (JS.Num (JS.ofZ 4096)));
      ("defaultModel", JS.or_else (JS.get "defaultModel" options)
                                  (JS.Str "claude-sonnet-4-20250514")) ]
    options.

(** The values of an empty argument. *)
Definition default_options (ANTHROPIC_API_KEY : JS.value) : JS.object :=
  [ ("anthropicApiKey", ANTHROPIC_API_KEY);
    ("cacheEnabled", JS.Bool true);
    ("cacheTtl", JS.Num (JS.ofZ 300));
    ("retryAttempts", JS.Num (JS.ofZ 3));
    ("retryDelay", JS.Num (JS.ofZ 1000));
    ("maxTokens", JS.Num (JS.ofZ 4096));
    ("defaultModel", JS.Str "claude-sonnet-4-20250514") ].

(** Whether the constructor creates the cache:
    [this.options.cacheEnabled ? new NodeCache(..) : null]. *)
Definition cache_created (this_options : JS.object) : bool :=
  JS.truthy (JS.get "cacheEnabled" this_options).

(** ** What a streaming call is to hand on, in the words of the specification *)







Definition is_error (ev : Event) : bool :=
  match ev.2 with KError => true | _ => false end.



(** ** Sample inputs *)

(** Writes a text in which an apostrophe stands for a double quote. *)
Definition sq (s : string) : string :=
  string_of_list_ascii
    (List.map (fun c => if Ascii.eqb c "'"%char then JSON.dquote else c)
              (list_ascii_of_string s)).

Definition sampleOptions : Options :=
  {| anthropicApiKey := JS.Str "sk-ant-test";
     cacheEnabled := true;
     cacheTtl := 300;
     retryAttempts := 3;
     retryDelay := 1000;
     maxTokens := JS.ofZ 4096;
     defaultModel := "claude-sonnet-4-20250514" |}.

Definition samplePlatform : Platform :=
  {| fracToString := fun _ => "0.3"; toISOString := fun _ => "1970-01-01T00:00:00.000Z" |}.

Definition hi_request (mt : Z) : Request.t :=
  {| Request.model := JS.Str "m1";
     Request.max_tokens := Some (JS.ofZ mt);
     Request.temperature := None;
     Request.messages := JS.Arr [mkMessage "user" "hi"];
     Request.system := JS.Undefined;
     Request.stop_sequences := JS.Undefined;
     Request.otherParams := [("requestId", JS.Str "req_1")] |}.

(** An API-backed bridge with an empty cache and fresh metrics. *)
Definition sampleBridge (stub : Adapter) (stream : ApiStream) : Bridge :=
  {| options := sampleOptions; authMethod := Api;
     anthropic := stub; claudeSDK := stub; claudeCLI := stub;
     anthropicStream := stream;
     claudeSDKStream := fun _ _ => ([], None);
     claudeCLIStream := fun _ _ => ([], None);
     cache := Some ∅; metrics := initialMetrics 0 |}.

Definition helloResponse : JS.object :=
  [ ("content", JS.Str "hello");
    ("usage", JS.Obj [("input_tokens", JS.Num (JS.ofZ 3)); ("output_tokens", JS.Num (JS.ofZ 5))]) ].

Definition transientError : Error.t :=
  {| Error.status := Some 503; Error.code := None;
     Error.message := Some "Service Unavailable" |}.

Definition authError : Error.t :=
  {| Error.status := Some 401; Error.code := None;
     Error.message := Some "invalid x-api-key" |}.

(** Fails with [e] on its first [n] invocations, then answers [r]. *)
Definition flaky (n : nat) (e : Error.t) (r : JS.object) : Adapter :=
  fun _ k => if (k <? n)%nat then Thrown e else Returned r.

(** A request for 999999 tokens at temperature 1.5. *)
Definition greedy_request : Request.t :=
  {| Request.model := JS.Undefined;
     Request.max_tokens := Some (JS.ofZ 999999);
     Request.temperature := Some (JS.Fin (3 # 2));
     Request.messages := JS.Arr [mkMessage "user" "hi"];
     Request.system := JS.Undefined;
     Request.stop_sequences := JS.Undefined;
     Request.otherParams := [("requestId", JS.Str "req_2")] |}.

(** The same at temperature -1. *)
Definition frozen_request : Request.t :=
  {| Request.model := JS.Undefined;
     Request.max_tokens := Some (JS.ofZ 999999);
     Request.temperature := Some (JS.Fin (-1));
     Request.messages := JS.Arr [mkMessage "user" "hi"];
     Request.system := JS.Undefined;
     Request.stop_sequences := JS.Undefined;
     Request.otherParams := [("requestId", JS.Str "req_3")] |}.

(** A GitHub Actions payload with every optional part, and an empty one. *)
Definition full_payload : GhRequest.t :=
  {| GhRequest.prompt := Some "ignored";
     GhRequest.direct_prompt := Some "review this";
     GhRequest.model := JS.Undefined;
     GhRequest.max_tokens := None;
     GhRequest.temperature := None;
     GhRequest.system_prompt := Some "be brief";
     GhRequest.context := Some "repo X";
     GhRequest.action := JS.Undefined;
     GhRequest.otherParams := [] |}.

Definition empty_payload : GhRequest.t :=
  {| GhRequest.prompt := None;
     GhRequest.direct_prompt := None;
     GhRequest.model := JS.Undefined;
     GhRequest.max_tokens := None;
     GhRequest.temperature := None;
     GhRequest.system_prompt := None;
     GhRequest.context := None;
     GhRequest.action := JS.Undefined;
     GhRequest.otherParams := [] |}.

(** No API key, no SDK, the CLI adapter module loads, and no [claude]
    command on the path. *)
Definition keyless_options : Options :=
  {| anthropicApiKey := JS.Undefined;
     cacheEnabled := true; cacheTtl := 300; retryAttempts := 3; retryDelay := 1000;
     maxTokens := JS.ofZ 4096; defaultModel := "claude-sonnet-4-20250514" |}.

Definition bare_machine : Probe :=
  {| sdkModule := false; sdkAvailable := false; cliModule := true; cliOnPath := false |}.

(** An upstream stream of one content delta that ends without a
    [message_stop], and one that fails after its [message_stop]. *)
Definition delta (text : string) : Chunk :=
  {| type := "content_block_delta"; delta_text := Some text |}.

Definition unterminated : ApiStream := fun _ _ => ([delta "hi"], None).

Definition fails_after_stop : ApiStream :=
  fun _ _ => ([delta "hi"; {| type := "message_stop"; delta_text := None |}], Some authError).

Definition always (r : JS.object) : Adapter := fun _ _ => Returned r.
Definition failing (e : Error.t) : Adapter := fun _ _ => Thrown e.
Definition silent : ApiStream := fun _ _ => ([], None).

(** The sample bridge with its cache disabled, and with no backend. *)
Definition uncachedBridge (stub : Adapter) : Bridge :=
  with_state (sampleBridge stub silent) None (initialMetrics 0).

Definition orphanBridge : Bridge :=
  {| options := keyless_options; authMethod := NoAuth;
     anthropic := always helloResponse; claudeSDK := always helloResponse;
     claudeCLI := always helloResponse;
     anthropicStream := silent;
     claudeSDKStream := fun _ _ => ([], None);
     claudeCLIStream := fun _ _ => ([], None);
     cache := Some ∅; metrics := initialMetrics 0 |}.

(** The sample request marked POST. *)
Definition post_request : Request.t :=
  {| Request.model := JS.Str "m1";
     Request.max_tokens := Some (JS.ofZ 50);
     Request.temperature := None;
     Request.messages := JS.Arr [mkMessage "user" "hi"];
     Request.system := JS.Undefined;
     Request.stop_sequences := JS.Undefined;
     Request.otherParams := [("requestId", JS.Str "req_9"); ("method", JS.Str "POST")] |}.

(** A session: a miss, a hit, a POST call, a streaming call, a flush and
    a miss. *)
Definition sample_session : list Call :=
  [ NonStreaming (hi_request 50) 1000 1500;
    NonStreaming (hi_request 50) 2000 2100;
    NonStreaming post_request 3000 3400;
    Streaming (hi_request 50) 4000 4800;
    Flush;
    NonStreaming (hi_request 50) 5000 5600 ].

(** An engine for ASCII texts. *)
Definition is_space (c : ascii) : bool :=
  let n := nat_of_ascii c in
  Nat.eqb n 32 || (Nat.leb 9 n && Nat.leb n 13).

Fixpoint trim_start (s : string) : string :=
  match s with
  | EmptyString => EmptyString
  | String c rest => if is_space c then trim_start rest else s
  end.

Definition reversed (s : string) : string :=
  string_of_list_ascii (List.rev (list_ascii_of_string s)).

Fixpoint split_runs (s : string) (after_separator : bool) : list string :=
  match s with
  | EmptyString => [EmptyString]
  | String c rest =>
      if is_space c || Ascii.eqb c ","%char
      then if after_separator then split_runs rest true
           else EmptyString :: split_runs rest true
      else match split_runs rest false with
           | x :: xs => String c x :: xs
           | [] => [String c EmptyString]
           end
  end.

Definition sampleEngine : Engine :=
  {| trim := fun s => reversed (trim_start (reversed (trim_start s)));
     splitTools := fun s => split_runs s false;
     readOfNullish := fun v k =>
       "Cannot read properties of "
       +:+ (match v with JS.Null => "null" | _ => "undefined" end)
       +:+ " (reading '" +:+ k +:+ "')" |}.

Definition sampleConfig : ClaudeCodeSDK.Config :=
  {| ClaudeCodeSDK.maxTurns := JS.Num (JS.ofZ 3);
     ClaudeCodeSDK.outputFormat := JS.Str "json";
     ClaudeCodeSDK.cwd := JS.Str "/srv/proxy";
     ClaudeCodeSDK.allowedTools := JS.Arr [];
     ClaudeCodeSDK.systemPrompt := JS.Null;
     ClaudeCodeSDK.mcpConfig := JS.Null |}.

(** A bridge on the command-line adapter, and one on the SDK adapter,
    with an empty cache and fresh metrics. *)
Definition cliBridge (world : list JS.value -> nat -> ClaudeCodeCLI.Run) : Bridge :=
  {| options := keyless_options; authMethod := Cli;
     anthropic := failing authError; claudeSDK := failing authError;
     claudeCLI := ClaudeCodeCLI.adapter (H := samplePlatform) (H0 := sampleEngine) world;
     anthropicStream := silent;
     claudeSDKStream := fun _ _ => ([], None);
     claudeCLIStream := fun _ _ => ([], None);
     cache := Some ∅; metrics := initialMetrics 0 |}.

Definition sdkBridge (world : JS.value * JS.object -> nat -> ClaudeCodeSDK.Query) : Bridge :=
  {| options := keyless_options; authMethod := Sdk;
     anthropic := failing authError;
     claudeSDK := ClaudeCodeSDK.adapter (H := samplePlatform) (H0 := sampleEngine)
                    sampleConfig (fun _ => "sdk_1_abc") (fun _ => 40) world;
     claudeCLI := failing authError;
     anthropicStream := silent;
     claudeSDKStream := fun _ _ => ([], None);
     claudeCLIStream := fun _ _ => ([], None);
     cache := Some ∅; metrics := initialMetrics 0 |}.

(** A query that ends with an error result and no assistant message. *)
Definition error_result : list JS.object :=
  [ [("type", JS.Str "system"); ("subtype", JS.Str "init"); ("model", JS.Str "claude-opus-4")];
    [("type", JS.Str "result"); ("subtype", JS.Str "error_max_turns");
     ("is_error", JS.Bool true); ("num_turns", JS.Num (JS.ofZ 3))] ].



Example sha256_abc :
  SHA256.hex "abc" = "ba7816bf8f01cfea414140de5dae2223b00361a396177a9cb410ff61f20015ad".
Proof. vm_compute. reflexivity. Qed.

Example sha256_empty :
  SHA256.hex "" = "e3b0c44298fc1c149afbf4c8996fb92427ae41e4649b934ca495991b7852b855".
Proof. vm_compute. reflexivity. Qed.

Example sha256_two_blocks :
  SHA256.hex "abcdbcdecdefdefgefghfghighijhijkijkljklmklmnlmnomnopnopq"
  = "248d6a61d20638b8e5c026930c3e6039a33ce45964ff2167f6ecedd419db06c1".
Proof. vm_compute. reflexivity. Qed.

Example round_constants :
  List.length SHA256.K = 64%nat
  /\ nth 0 SHA256.K 0 = 0x428a2f98 /\ nth 63 SHA256.K 0 = 0xc67178f2
  /\ nth 0 SHA256.H0 0 = 0x6a09e667 /\ nth 7 SHA256.H0 0 = 0x5be0cd19.
Proof. vm_compute. repeat split; reflexivity. Qed.

Example keyData_text :
  JSON.stringify (P := samplePlatform) (keyData sampleOptions (hi_request 50))
  = Some (sq "{'model':'m1','messages':[{'role':'user','content':'hi'}],'max_tokens':50}").
Proof. vm_compute. reflexivity. Qed.


(** * Properties *)

(** ** Numbers *)

Lemma lt_not_NaN (x y : JS.number) :
  JS.lt x y = true -> JS.isNaN x = false /\ JS.isNaN y = false.
Proof. destruct x, y; simpl; intros; split; congruence. Qed.

Lemma lt_asym (x y : JS.number) : JS.lt x y = true -> JS.lt y x = false.
Proof.
  destruct x as [a| | |], y as [b| | |]; cbn [JS.lt]; try congruence.
  rewrite <- (Qcompare_antisym a b).
  destruct (a ?= b)%Q; simpl; congruence.
Qed.

Lemma lt_trans (x y z : JS.number) :
  JS.lt x y = true -> JS.lt y z = true -> JS.lt x z = true.
Proof.
  destruct x as [a| | |], y as [b| | |], z as [c| | |]; cbn [JS.lt]; try congruence.
  destruct (a ?= b)%Q eqn:Hab; try congruence.
  destruct (b ?= c)%Q eqn:Hbc; try congruence.
  intros _ _.
  apply Qlt_alt in Hab, Hbc.
  assert (Hac : (a < c)%Q) by (eapply Qlt_trans; eassumption).
  now rewrite (proj1 (Qlt_alt a c) Hac).
Qed.

Lemma Math_min_above (x c : JS.number) : JS.lt c x = true -> JS.Math_min x c = c.
Proof.
  intros H. unfold JS.Math_min.
  destruct (lt_not_NaN _ _ H) as [Hc Hx]. rewrite Hx, Hc, H. reflexivity.
Qed.

Lemma clamp_above (t : JS.number) :
  JS.lt (JS.ofZ 1) t = true -> JS.Math_max (JS.ofZ 0) (JS.Math_min (JS.ofZ 1) t) = JS.ofZ 1.
Proof.
  intros H. unfold JS.Math_min.
  destruct (lt_not_NaN _ _ H) as [_ Ht]. rewrite Ht, (lt_asym _ _ H). reflexivity.
Qed.

Lemma clamp_below (t : JS.number) :
  JS.lt t (JS.ofZ 0) = true -> JS.Math_max (JS.ofZ 0) (JS.Math_min (JS.ofZ 1) t) = JS.ofZ 0.
Proof.
  intros H.
  destruct (lt_not_NaN _ _ H) as [Ht _].
  assert (H1 : JS.lt t (JS.ofZ 1) = true) by (apply (lt_trans _ _ _ H); reflexivity).
  unfold JS.Math_min. rewrite Ht, H1. cbn [JS.isNaN JS.ofZ orb].
  unfold JS.Math_max. rewrite Ht, (lt_asym _ _ H). reflexivity.
Qed.

(** ** The retry loop, unfolded once *)

Lemma executeWithRetry_step (b : Bridge) (cr : ClaudeRequest.t) (attempt : Z) (env : Effects) :
  executeWithRetry b cr attempt env =
  match attempt_once b cr env with
  | (Returned response, env1) => (Returned response, env1)
  | (Thrown error, env1) =>
      if should_retry (options b) attempt error
      then executeWithRetry b cr (attempt + 1) (sleep (backoff (options b) attempt) env1)
      else (Thrown error, env1)
  end.
Proof.
  simp executeWithRetry.
  destruct (attempt_once b cr env) as [[response | error] env1]; simpl.
  - reflexivity.
  - destruct (should_retry (options b) attempt error); reflexivity.
Qed.

Lemma executeStreamWithRetry_step (b : Bridge) (cr : ClaudeRequest.t) (attempt : Z)
    (env : Effects) :
  executeStreamWithRetry b cr attempt env =
  match stream_once b cr env with
  | (None, env1) => (None, env1)
  | (Some error, env1) =>
      if should_retry (options b) attempt error
      then executeStreamWithRetry b cr (attempt + 1) (sleep (backoff (options b) attempt) env1)
      else (Some error, env1)
  end.
Proof.
  simp executeStreamWithRetry.
  destruct (stream_once b cr env) as [[error | ] env1]; simpl.
  - destruct (should_retry (options b) attempt error); reflexivity.
  - reflexivity.
Qed.

(** Every attempt forwards the same request, whatever the outcome. *)
Lemma attempt_once_forwards (b : Bridge) (cr : ClaudeRequest.t) (env : Effects) :
  exists k, forwarded (attempt_once b cr env).2 = (forwarded env ++ repeat cr k)%list.
Proof.
  unfold attempt_once.
  destruct (authMethod b); simpl;
    solve [ exists 1%nat; reflexivity | exists 0%nat; simpl; rewrite app_nil_r; reflexivity ].
Qed.

Lemma stream_once_forwards (b : Bridge) (cr : ClaudeRequest.t) (env : Effects) :
  exists k, forwarded (stream_once b cr env).2 = (forwarded env ++ repeat cr k)%list.
Proof.
  unfold stream_once, streamAnthropicAPI.
  destruct (authMethod b); simpl;
    repeat match goal with |- context [let '(_, _) := ?x in _] => destruct x end; simpl;
    solve [ exists 1%nat; reflexivity | exists 0%nat; simpl; rewrite app_nil_r; reflexivity ].
Qed.

Lemma repeat_app_more {A} (x : A) (l : list A) (j k : nat) :
  ((l ++ repeat x j) ++ repeat x k = l ++ repeat x (j + k))%list.
Proof. rewrite repeat_app, app_assoc. reflexivity. Qed.

(** Induction along the attempts that are left. *)
Lemma attempts_ind (M : Z) (P : Z -> Effects -> Prop) :
  (forall attempt env,
      (attempt < M -> forall env', P (attempt + 1) env') -> P attempt env) ->
  forall attempt env, P attempt env.
Proof.
  intros step attempt.
  remember (Z.to_nat (M - attempt)) as n eqn:Hn.
  revert attempt Hn.
  induction n as [| n IH]; intros attempt Hn env; apply step; intros Hlt env'.
  - lia.
  - apply IH. lia.
Qed.

Lemma should_retry_budget (opts : Options) (attempt : Z) (e : Error.t) :
  should_retry opts attempt e = true -> attempt < retryAttempts opts.
Proof.
  unfold should_retry. intros H. apply andb_true_iff in H as [H _]. now apply Z.ltb_lt.
Qed.

Lemma executeWithRetry_forwards (b : Bridge) (cr : ClaudeRequest.t) (attempt : Z)
    (env : Effects) :
  exists k, forwarded (executeWithRetry b cr attempt env).2 = (forwarded env ++ repeat cr k)%list.
Proof.
  revert attempt env.
  apply (attempts_ind (retryAttempts (options b))); intros attempt env IH.
  rewrite executeWithRetry_step.
  destruct (attempt_once_forwards b cr env) as [j Hj].
  destruct (attempt_once b cr env) as [[response | e] env1]; simpl in *.
  - eauto.
  - destruct (should_retry (options b) attempt e) eqn:E; simpl; [| eauto].
    destruct (IH (should_retry_budget _ _ _ E) (sleep (backoff (options b) attempt) env1))
      as [k Hk].
    exists (j + k)%nat. rewrite Hk. simpl. rewrite Hj. apply repeat_app_more.
Qed.

Lemma executeStreamWithRetry_forwards (b : Bridge) (cr : ClaudeRequest.t) (attempt : Z)
    (env : Effects) :
  exists k,
    forwarded (executeStreamWithRetry b cr attempt env).2 = (forwarded env ++ repeat cr k)%list.
Proof.
  revert attempt env.
  apply (attempts_ind (retryAttempts (options b))); intros attempt env IH.
  rewrite executeStreamWithRetry_step.
  destruct (stream_once_forwards b cr env) as [j Hj].
  destruct (stream_once b cr env) as [[e | ] env1]; simpl in *.
  - destruct (should_retry (options b) attempt e) eqn:E; simpl; [| eauto].
    destruct (IH (should_retry_budget _ _ _ E) (sleep (backoff (options b) attempt) env1))
      as [k Hk].
    exists (j + k)%nat. rewrite Hk. simpl. rewrite Hj. apply repeat_app_more.
  - eauto.
Qed.

(** ** Clamping *)

(** Whatever [proxyRequest] or [proxyRequestStream] forwards to an adapter
    is the normalised request. *)
Lemma proxyRequest_forwards `{Platform} (b : Bridge) (request : Request.t) (t0 t1 : Z)
    (env : Effects) :
  exists k, forwarded (proxyRequest b request t0 t1 env).2
            = (forwarded env ++ repeat (transformToClaudeFormat (options b) request) k)%list.
Proof.
  unfold proxyRequest.
  destruct (cache_check _ _ _ _ _) as [[[cached |] c] m]; simpl.
  - exists 0%nat. simpl. now rewrite app_nil_r.
  - destruct (executeWithRetry_forwards b (transformToClaudeFormat (options b) request) 1 env)
      as [k Hk].
    destruct (executeWithRetry _ _ _ _) as [[response | e] env1]; simpl in *; eauto.
Qed.

Lemma proxyRequestStream_forwards `{Platform} (b : Bridge) (request : Request.t) (t0 t1 : Z)
    (env : Effects) :
  exists k, forwarded (proxyRequestStream b request t0 t1 env).2
            = (forwarded env ++ repeat (transformToClaudeFormat (options b) request) k)%list.
Proof.
  unfold proxyRequestStream.
  destruct (executeStreamWithRetry_forwards b (transformToClaudeFormat (options b) request) 1 env)
    as [k Hk].
  destruct (executeStreamWithRetry _ _ _ _) as [[e |] env1]; simpl in *; eauto.
Qed.

Lemma newly_forwarded_repeat (env env' : Effects) (cr : ClaudeRequest.t) (k : nat) :
  forwarded env' = (forwarded env ++ repeat cr k)%list ->
  newly_forwarded env env' = repeat cr k.
Proof.
  intros E. unfold newly_forwarded. rewrite E.
  rewrite skipn_app, Nat.sub_diag, skipn_all. reflexivity.
Qed.

(** C5. The request forwarded to a backend adapter, by a non-streaming or
    a streaming call, carries [max_tokens] 8192 whenever the requested
    value exceeds 8192, temperature 1 whenever the requested temperature
    exceeds 1, and temperature 0 whenever it is below 0. *)
Theorem C5_forwarded_request_is_clamped `{Platform} (b : Bridge) (request : Request.t)
    (t0 t1 : Z) (env : Effects) (cr : ClaudeRequest.t) :
  In cr (newly_forwarded env (proxyRequest b request t0 t1 env).2)
  \/ In cr (newly_forwarded env (proxyRequestStream b request t0 t1 env).2) ->
  (JS.lt token_ceiling (requested_max_tokens (options b) request) = true ->
   ClaudeRequest.max_tokens cr = token_ceiling)
  /\ (JS.lt (JS.ofZ 1) (requested_temperature request) = true ->
      ClaudeRequest.temperature cr = JS.ofZ 1)
  /\ (JS.lt (requested_temperature request) (JS.ofZ 0) = true ->
      ClaudeRequest.temperature cr = JS.ofZ 0).
Proof.
  intros Hin.
  assert (Hcr : cr = transformToClaudeFormat (options b) request).
  { destruct Hin as [Hin | Hin].
    - destruct (proxyRequest_forwards b request t0 t1 env) as [k Hk].
      rewrite (newly_forwarded_repeat _ _ _ _ Hk) in Hin.
      now apply repeat_spec in Hin.
    - destruct (proxyRequestStream_forwards b request t0 t1 env) as [k Hk].
      rewrite (newly_forwarded_repeat _ _ _ _ Hk) in Hin.
      now apply repeat_spec in Hin. }
  subst cr. unfold requested_max_tokens, requested_temperature. simpl.
  repeat split; intros Hlt.
  - now apply Math_min_above.
  - now apply clamp_above.
  - now apply clamp_below.
Qed.

Lemma C5_witness :
  (ClaudeRequest.max_tokens (transformToClaudeFormat sampleOptions greedy_request) = token_ceiling
   /\ ClaudeRequest.temperature (transformToClaudeFormat sampleOptions greedy_request) = JS.ofZ 1)
  /\ ClaudeRequest.temperature (transformToClaudeFormat sampleOptions frozen_request) = JS.ofZ 0.
Proof.
  split.
  - destruct (C5_forwarded_request_is_clamped (H := samplePlatform)
                (sampleBridge (always helloResponse) silent) greedy_request 1000 1500 no_effects
                (transformToClaudeFormat sampleOptions greedy_request)) as (Hm & Ht & _).
    + left. vm_compute. left. reflexivity.
    + split; [apply Hm | apply Ht]; reflexivity.
  - destruct (C5_forwarded_request_is_clamped (H := samplePlatform)
                (sampleBridge (always helloResponse) silent) frozen_request 1000 1500 no_effects
                (transformToClaudeFormat sampleOptions frozen_request)) as (_ & _ & Ht).
    + left. vm_compute. left. reflexivity.
    + apply Ht. reflexivity.
Defined.

(** ** Retry with back-off *)

Lemma attempt_once_backend (b : Bridge) (stub : Adapter) (cr : ClaudeRequest.t) (env : Effects) :
  backend b = Some stub ->
  attempt_once b cr env = (stub cr (invocations env), invoked cr env).
Proof.
  unfold backend, attempt_once.
  destruct (authMethod b); intros E; inversion E; subst; reflexivity.
Qed.

Lemma delays_S (opts : Options) (from : Z) (n : nat) :
  delays opts from (S n) = backoff opts from :: delays opts (from + 1) n.
Proof.
  unfold delays. simpl. f_equal.
  - f_equal. lia.
  - rewrite <- seq_shift, List.map_map. apply List.map_ext. intros k. f_equal. lia.
Qed.

Lemma delays_snoc (opts : Options) (from : Z) (n : nat) :
  delays opts from (S n) = (delays opts from n ++ [backoff opts (from + Z.of_nat n)])%list.
Proof. unfold delays. rewrite seq_S, List.map_app. reflexivity. Qed.

Lemma total_snoc (l : list Z) (x : Z) : total (l ++ [x]) = total l + x.
Proof. unfold total. induction l as [| y l IH]; simpl; lia. Qed.


Lemma after_attempts_step (opts : Options) (cr : ClaudeRequest.t) (from : Z)
    (calls naps : nat) (env : Effects) :
  after_attempts opts cr (from + 1) calls naps (sleep (backoff opts from) (invoked cr env))
  = after_attempts opts cr from (S calls) (S naps) env.
Proof.
  unfold after_attempts, sleep, invoked. simpl. rewrite delays_S.
  f_equal; rewrite <- !app_assoc; reflexivity.
Qed.

Section Retry.

Variables (b : Bridge) (stub : Adapter) (cr : ClaudeRequest.t).
Hypothesis selected : backend b = Some stub.


(** Transient failures up to the last attempt the budget allows. *)
Lemma retry_exhausts (m : nat) :
  forall (attempt : Z) (env : Effects) (errs : nat -> Error.t),
  (forall k, (k <= m)%nat -> stub cr (invocations env + k)%nat = Thrown (errs k)) ->
  (forall k, (k < m)%nat -> isRetryableError (errs k) = Some true) ->
  attempt + Z.of_nat m = retryAttempts (options b) ->
  executeWithRetry b cr attempt env
  = (Thrown (errs m), after_attempts (options b) cr attempt (S m) m env).
Proof.
  induction m as [| m IH]; intros attempt env errs Hfail Hretry Hbudget;
    rewrite executeWithRetry_step, (attempt_once_backend _ _ _ _ selected);
    rewrite <- (Nat.add_0_r (invocations env)), (Hfail 0%nat) by lia;
    unfold should_retry.
  - replace (attempt <? retryAttempts (options b)) with false by (symmetry; apply Z.ltb_ge; lia).
    simpl andb. cbv iota. f_equal.
    unfold after_attempts, invoked. simpl. now rewrite app_nil_r.
  - rewrite (Hretry 0%nat) by lia.
    replace (attempt <? retryAttempts (options b)) with true by (symmetry; apply Z.ltb_lt; lia).
    simpl andb. cbv iota.
    rewrite (IH (attempt + 1) _ (fun k => errs (S k))).
    + now rewrite after_attempts_step.
    + intros k Hk. unfold invocations, sleep, invoked in *. simpl.
      rewrite length_app. simpl. rewrite <- (Hfail (S k)) by lia. f_equal. lia.
    + intros k Hk. apply Hretry. lia.
    + lia.
Qed.

End Retry.




(** ** Fatal errors *)


Lemma fatal_not_retried (opts : Options) (attempt : Z) (e : Error.t) :
  isRetryableError e = Some false -> should_retry opts attempt e = false.
Proof. unfold should_retry. intros ->. apply andb_false_r. Qed.

(** What the retry loop throws crosses [proxyRequest] as a structured
    error whose [retryable] flag is the classification of that error. *)
Lemma proxyRequest_propagates `{Platform} (b : Bridge) (request : Request.t) (t0 t1 : Z)
    (env env1 : Effects) (e : Error.t) :
  cached_response b request t0 = None ->
  executeWithRetry b (transformToClaudeFormat (options b) request) 1 env = (Thrown e, env1) ->
  exists se b',
    proxyRequest b request t0 t1 env = (Thrown se, b', env1)
    /\ StructuredError.retryable se = isRetryableError e
    /\ StructuredError.status se = status_or_500 e
    /\ StructuredError.message se = message_or "Request failed" e.
Proof.
  intros Hmiss Hthrown. unfold proxyRequest, cached_response in *.
  destruct (cache_check _ _ _ _ _) as [[cached c] m]. simpl in Hmiss. subst cached.
  rewrite Hthrown. eexists. eexists. repeat split.
Qed.



(** ** The cache key *)

(** The key is computed from [keyData] alone. *)
Lemma generateCacheKey_keyData `{Platform} (opts : Options) (r1 r2 : Request.t) :
  keyData opts r1 = keyData opts r2 -> generateCacheKey opts r1 = generateCacheKey opts r2.
Proof. unfold generateCacheKey. now intros ->. Qed.

Lemma keyData_fields (opts : Options) (r1 r2 : Request.t) :
  JS.or_else (Request.model r1) (JS.Str (defaultModel opts))
  = JS.or_else (Request.model r2) (JS.Str (defaultModel opts)) ->
  Request.messages r1 = Request.messages r2 ->
  Request.max_tokens r1 = Request.max_tokens r2 ->
  Request.temperature r1 = Request.temperature r2 ->
  Request.system r1 = Request.system r2 ->
  keyData opts r1 = keyData opts r2.
Proof. unfold keyData. now intros -> -> -> -> ->. Qed.

(** C8 (as the code has it). The cache key is determined by five raw
    request properties: the model with a falsy one replaced by the default
    model, the messages, [max_tokens], the temperature and the system
    preamble. Requests that agree on them get the same key, whatever their
    request id, headers, stop sequences or other properties. *)
Theorem C8_key_depends_on_five_fields `{Platform} (opts : Options) (r1 r2 : Request.t) :
  JS.or_else (Request.model r1) (JS.Str (defaultModel opts))
  = JS.or_else (Request.model r2) (JS.Str (defaultModel opts)) ->
  Request.messages r1 = Request.messages r2 ->
  Request.max_tokens r1 = Request.max_tokens r2 ->
  Request.temperature r1 = Request.temperature r2 ->
  Request.system r1 = Request.system r2 ->
  generateCacheKey opts r1 = generateCacheKey opts r2.
Proof.
  intros Hmodel Hmessages Hmax Htemp Hsystem.
  now apply generateCacheKey_keyData, keyData_fields.
Qed.

Lemma C8_witness :
  generateCacheKey (H := samplePlatform) sampleOptions (hi_request 50)
  = generateCacheKey (H := samplePlatform) sampleOptions
      {| Request.model := JS.Str "m1";
         Request.max_tokens := Some (JS.ofZ 50);
         Request.temperature := None;
         Request.messages := JS.Arr [mkMessage "user" "hi"];
         Request.system := JS.Undefined;
         Request.stop_sequences := JS.Arr [JS.Str "END"];
         Request.otherParams :=
           [("requestId", JS.Str "req_77");
            ("headers", JS.Obj [("user-agent", JS.Str "curl")])] |}.
Proof.
  apply (C8_key_depends_on_five_fields (H := samplePlatform)); reflexivity.
Defined.

(** Two requests that normalise to the same backend request, 9000 and
    10000 tokens both being cut to 8192, and yet have different keys. *)
Lemma C8_counterexample :
  transformToClaudeFormat sampleOptions (hi_request 9000)
  = transformToClaudeFormat sampleOptions (hi_request 10000)
  /\ generateCacheKey (H := samplePlatform) sampleOptions (hi_request 9000)
     = "claude_2a574c56714e08ba"
  /\ generateCacheKey (H := samplePlatform) sampleOptions (hi_request 10000)
     = "claude_68296a3e5370fe9e"
  /\ generateCacheKey (H := samplePlatform) sampleOptions (hi_request 9000)
     <> generateCacheKey (H := samplePlatform) sampleOptions (hi_request 10000).
Proof.
  repeat split; try (vm_compute; reflexivity).
  vm_compute. discriminate.
Qed.

(** ** The cache *)

Lemma get_after_set (c : gmap string NodeCache.entry) (key : string) (value : JS.object)
    (ttl t1 t2 : Z) :
  ttl = 0 \/ t2 <= t1 + ttl * 1000 ->
  NodeCache.get (NodeCache.set c key value ttl t1) key t2
  = (Some value, NodeCache.set c key value ttl t1).
Proof.
  intros Hlive. unfold NodeCache.get, NodeCache.set.
  rewrite lookup_insert_eq. unfold NodeCache.live. simpl.
  destruct (ttl =? 0) eqn:E; [reflexivity |].
  destruct Hlive as [-> | Hle]; [discriminate |].
  replace (t2 <=? t1 + ttl * 1000) with true by (symmetry; apply Z.leb_le; lia).
  now rewrite orb_true_r.
Qed.

(** A read neither inserts nor overwrites, and drops nothing that is live. *)
Lemma get_preserves (c : gmap string NodeCache.entry) (key : string) (now : Z) :
  let c' := (NodeCache.get c key now).2 in
  (forall k e, c' !! k = Some e -> c !! k = Some e)
  /\ (forall k e, c !! k = Some e -> NodeCache.live e now = true -> c' !! k = Some e).
Proof.
  unfold NodeCache.get.
  destruct (c !! key) as [e0 |] eqn:E; [destruct (NodeCache.live e0 now) eqn:L |]; simpl;
    try (split; intros; assumption).
  split; intros k e Hk.
  - rewrite lookup_delete in Hk. destruct (decide (key = k)); congruence.
  - intros Hlive. rewrite lookup_delete. destruct (decide (key = k)); [| assumption].
    subst k. congruence.
Qed.

(** After a read that found nothing, the key holds no entry. *)
Lemma get_miss_absent (c : gmap string NodeCache.entry) (key : string) (now : Z) :
  (NodeCache.get c key now).1 = None -> (NodeCache.get c key now).2 !! key = None.
Proof.
  unfold NodeCache.get.
  destruct (c !! key) as [e0 |] eqn:E; [destruct (NodeCache.live e0 now) eqn:L |]; simpl.
  - discriminate.
  - intros _. apply lookup_delete_eq.
  - intros _. assumption.
Qed.

Lemma get_absent (c : gmap string NodeCache.entry) (key : string) (now : Z) :
  c !! key = None -> NodeCache.get c key now = (None, c).
Proof. unfold NodeCache.get. now intros ->. Qed.

(** What the cache check leaves of an enabled cache is an enabled cache. *)
Lemma cache_check_enabled (data : gmap string NodeCache.entry) (request : Request.t)
    (key : string) (now : Z) (m : Metrics) :
  exists data',
    (cache_check (Some data) request key now m).1.2 = Some data'
    /\ (forall k e, data' !! k = Some e -> data !! k = Some e)
    /\ (forall k e, data !! k = Some e -> NodeCache.live e now = true -> data' !! k = Some e)
    /\ ((cache_check (Some data) request key now m).1.1 = None ->
        is_POST (Request.method request) = false -> data' !! key = None).
Proof.
  unfold cache_check.
  destruct (is_POST (Request.method request)); simpl.
  - exists data. repeat split; auto; discriminate.
  - pose proof (get_preserves data key now) as [Hsub Hkeep].
    pose proof (get_miss_absent data key now) as Hmiss.
    destruct (NodeCache.get data key now) as [[cached |] data']; simpl in *;
      exists data'; repeat split; auto; discriminate.
Qed.

(** A live entry under the key of a request that is not marked POST is
    served without a backend call, and counted as a hit. *)
Lemma proxyRequest_hit `{Platform} (b : Bridge) (data : gmap string NodeCache.entry)
    (request : Request.t) (t0 t1 : Z) (env : Effects) (cached : JS.object) :
  cache b = Some data ->
  is_POST (Request.method request) = false ->
  NodeCache.get data (generateCacheKey (options b) request) t0 = (Some cached, data) ->
  proxyRequest b request t0 t1 env
  = (Returned (formatResponse cached [("fromCache", JS.Bool true)] t0),
     with_state b (Some data) (count_cacheHit (count_request (metrics b) t0)), env).
Proof.
  intros Hcache Hpost Hget. unfold proxyRequest, cache_check.
  rewrite Hcache, Hpost. simpl negb. cbv iota. now rewrite Hget.
Qed.

(** C1 (as the code has it). Two non-streaming calls with the same model,
    messages, [max_tokens], temperature and system preamble, on a bridge
    whose cache is enabled: if the first reaches the backend and succeeds
    with a response that carries [usage], and the second is not marked
    POST and arrives before the entry expires, then the second is answered
    without any adapter invocation, the hit counter grows by exactly one,
    and the answer is the adapter response of the first call extended with
    [fromCache: true] and its own timestamp, where the first answer was
    that response extended with [requestId], [responseTime] and its
    timestamp. *)
Theorem C1_second_call_served_from_cache `{Platform} (b : Bridge)
    (data : gmap string NodeCache.entry) (req1 req2 : Request.t) (t0 t1 t2 t3 : Z)
    (env env1 : Effects) (r : JS.object) :
  cache b = Some data ->
  Request.model req1 = Request.model req2 ->
  Request.messages req1 = Request.messages req2 ->
  Request.max_tokens req1 = Request.max_tokens req2 ->
  Request.temperature req1 = Request.temperature req2 ->
  Request.system req1 = Request.system req2 ->
  is_POST (Request.method req2) = false ->
  cached_response b req1 t0 = None ->
  executeWithRetry b (transformToClaudeFormat (options b) req1) 1 env = (Returned r, env1) ->
  JS.truthy (JS.get "usage" r) = true ->
  cacheTtl (options b) = 0 \/ t2 <= t1 + cacheTtl (options b) * 1000 ->
  exists b1 b2,
    proxyRequest b req1 t0 t1 env
    = (Returned (formatResponse r [("requestId", Request.requestId req1);
                                   ("responseTime", JS.Num (JS.ofZ (t1 - t0)))] t1),
       b1, env1)
    /\ proxyRequest b1 req2 t2 t3 env1
       = (Returned (formatResponse r [("fromCache", JS.Bool true)] t2), b2, env1)
    /\ cacheHits (metrics b2) = cacheHits (metrics b1) + 1.
Proof.
  intros Hcache Hmodel Hmessages Hmax Htemp Hsystem Hpost Hmiss Hok Husage Httl.
  assert (Hkey : generateCacheKey (options b) req2 = generateCacheKey (options b) req1).
  { symmetry. apply generateCacheKey_keyData, keyData_fields; congruence. }
  unfold proxyRequest at 1. unfold cached_response in Hmiss. rewrite Hcache in *.
  destruct (cache_check_enabled data req1 (generateCacheKey (options b) req1) t0
              (count_request (metrics b) t0)) as (data' & Hdata' & _).
  destruct (cache_check _ _ _ _ _) as [[cached c] m]. simpl in Hmiss, Hdata'. subst cached c.
  rewrite Hok, Husage.
  eexists. eexists. split; [reflexivity |].
  match goal with
  | |- proxyRequest ?b1 _ _ _ _ = _ /\ _ =>
      rewrite (proxyRequest_hit b1
                 (NodeCache.set data' (generateCacheKey (options b) req1) r
                                (cacheTtl (options b)) t1)
                 req2 t2 t3 env1 r)
  end.
  - split; reflexivity.
  - reflexivity.
  - exact Hpost.
  - simpl options. rewrite Hkey. now apply get_after_set.
Qed.

Lemma C1_witness :
  exists b1 b2,
    proxyRequest (H := samplePlatform) (sampleBridge (always helloResponse) silent)
                 (hi_request 50) 1000 1500 no_effects
    = (Returned (formatResponse (H := samplePlatform) helloResponse
                   [("requestId", JS.Str "req_1"); ("responseTime", JS.Num (JS.ofZ 500))] 1500),
       b1, invoked (transformToClaudeFormat sampleOptions (hi_request 50)) no_effects)
    /\ proxyRequest (H := samplePlatform) b1 (hi_request 50) 2000 2600
                    (invoked (transformToClaudeFormat sampleOptions (hi_request 50)) no_effects)
       = (Returned (formatResponse (H := samplePlatform) helloResponse [("fromCache", JS.Bool true)] 2000), b2,
          invoked (transformToClaudeFormat sampleOptions (hi_request 50)) no_effects)
    /\ cacheHits (metrics b2) = cacheHits (metrics b1) + 1.
Proof.
  apply (C1_second_call_served_from_cache (H := samplePlatform)
           (sampleBridge (always helloResponse) silent) ∅
           (hi_request 50) (hi_request 50) 1000 1500 2000 2600 no_effects
           (invoked (transformToClaudeFormat sampleOptions (hi_request 50)) no_effects)
           helloResponse); try reflexivity.
  right. simpl. lia.
Defined.

(** The two answers of that scenario, as JSON text: the second is not the
    first. *)
Lemma C1_counterexample :
  exists r1 b1 r2 b2 env1,
    proxyRequest (H := samplePlatform) (sampleBridge (always helloResponse) silent)
                 (hi_request 50) 1000 1500 no_effects
    = (Returned r1, b1, env1)
    /\ proxyRequest (H := samplePlatform) b1 (hi_request 50) 2000 2600 env1
       = (Returned r2, b2, env1)
    /\ JSON.stringify (P := samplePlatform) (JS.Obj r1)
       = Some (sq ("{'content':'hello','usage':{'input_tokens':3,'output_tokens':5},"
                   +:+ "'requestId':'req_1','responseTime':500,"
                   +:+ "'timestamp':'1970-01-01T00:00:00.000Z'}"))
    /\ JSON.stringify (P := samplePlatform) (JS.Obj r2)
       = Some (sq ("{'content':'hello','usage':{'input_tokens':3,'output_tokens':5},"
                   +:+ "'fromCache':true,"
                   +:+ "'timestamp':'1970-01-01T00:00:00.000Z'}"))
    /\ JSON.stringify (P := samplePlatform) (JS.Obj r1)
       <> JSON.stringify (P := samplePlatform) (JS.Obj r2).
Proof.
  do 5 eexists. split; [vm_compute; reflexivity |].
  split; [vm_compute; reflexivity |].
  split; [vm_compute; reflexivity |].
  split; [vm_compute; reflexivity |].
  vm_compute. discriminate.
Qed.


(** ** Failed calls and the cache *)

(** With a backend selected the retry loop invokes the adapter at least
    once. *)
Lemma executeWithRetry_invokes (b : Bridge) (stub : Adapter) (cr : ClaudeRequest.t)
    (attempt : Z) (env : Effects) :
  backend b = Some stub ->
  (invocations env < invocations (executeWithRetry b cr attempt env).2)%nat.
Proof.
  intros Hsel.
  rewrite executeWithRetry_step, (attempt_once_backend _ _ _ _ Hsel).
  assert (Hone : (invocations env < invocations (invoked cr env))%nat).
  { unfold invocations, invoked. simpl. rewrite length_app. simpl. lia. }
  destruct (stub cr (invocations env)) as [response | e]; simpl; [exact Hone |].
  destruct (should_retry (options b) attempt e); simpl; [| exact Hone].
  destruct (executeWithRetry_forwards b cr (attempt + 1)
              (sleep (backoff (options b) attempt) (invoked cr env))) as [k Hk].
  unfold invocations in *. rewrite Hk. simpl in *. rewrite !length_app in *. simpl in *. lia.
Qed.

(** A request with no live cached response goes to the backend. *)
Lemma proxyRequest_miss_invokes `{Platform} (b : Bridge) (stub : Adapter)
    (request : Request.t) (t0 t1 : Z) (env : Effects) :
  backend b = Some stub ->
  cached_response b request t0 = None ->
  (invocations env < invocations (proxyRequest b request t0 t1 env).2)%nat.
Proof.
  intros Hsel Hmiss. unfold proxyRequest, cached_response in *.
  destruct (cache_check _ _ _ _ _) as [[cached c] m]. simpl in Hmiss. subst cached.
  pose proof (executeWithRetry_invokes b stub (transformToClaudeFormat (options b) request)
                1 env Hsel) as Hinv.
  destruct (executeWithRetry _ _ _ _) as [[response | e] env1]; exact Hinv.
Qed.



(** ** The running average *)

(** [updateMetrics] follows the incremental-mean rule with the request
    counter as [n]. *)
Lemma updateMetrics_incremental (m : Metrics) (response : JS.object) (sample : Z) :
  requests m <> 0 ->
  (averageResponseTime (updateMetrics m response sample)
   == averageResponseTime m
      + (inject_Z sample - averageResponseTime m) / inject_Z (requests m))%Q.
Proof.
  intros Hn. unfold updateMetrics. cbn [averageResponseTime].
  assert (Hq : ~ (inject_Z (requests m) == 0)%Q).
  { intros E. apply Hn. apply (eq_sym) in E. unfold Qeq in E. simpl in E. lia. }
  unfold Z.sub. rewrite inject_Z_plus, inject_Z_opp. field. exact Hq.
Qed.

(** C9 (evaluation). A failed call followed by a successful one that
    takes 100 ms: one latency sample has been recorded, and the stored
    average is 50, not 100, because the failed call was counted in the
    divisor. *)
Theorem C9_average_divides_by_all_requests :
  exists se b1 env1 r b2 env2,
    proxyRequest (H := samplePlatform) (sampleBridge (flaky 1 authError helloResponse) silent)
                 (hi_request 50) 1000 1100 no_effects = (Thrown se, b1, env1)
    /\ proxyRequest (H := samplePlatform) b1 (hi_request 50) 2000 2100 env1
       = (Returned r, b2, env2)
    /\ JS.get "responseTime" r = JS.Num (JS.ofZ 100)
    /\ requests (metrics b2) = 2
    /\ (averageResponseTime (metrics b2) == 50)%Q
    /\ ~ (averageResponseTime (metrics b2) == 100)%Q.
Proof.
  do 6 eexists. split; [vm_compute; reflexivity |].
  split; [vm_compute; reflexivity |].
  repeat split; try (vm_compute; reflexivity).
  vm_compute. discriminate.
Qed.

(** ** Backend selection *)

Lemma initializeAuthMethods_cases (opts : Options) (p : Probe) :
  (initializeAuthMethods opts p = Api <-> JS.truthy (anthropicApiKey opts) = true)
  /\ (initializeAuthMethods opts p = Sdk <->
      JS.truthy (anthropicApiKey opts) = false /\ sdkModule p && sdkAvailable p = true)
  /\ (initializeAuthMethods opts p = Cli <->
      JS.truthy (anthropicApiKey opts) = false /\ sdkModule p && sdkAvailable p = false
      /\ cliModule p = true)
  /\ (initializeAuthMethods opts p = NoAuth <->
      JS.truthy (anthropicApiKey opts) = false /\ sdkModule p && sdkAvailable p = false
      /\ cliModule p = false).
Proof.
  unfold initializeAuthMethods.
  destruct (JS.truthy (anthropicApiKey opts)), (sdkModule p && sdkAvailable p), (cliModule p);
    repeat split; intros; try discriminate; try reflexivity;
    repeat match goal with H : _ /\ _ |- _ => destruct H end; discriminate.
Qed.

(** C4 (evaluation). Without an API key and without the SDK, the CLI
    backend is selected although [ClaudeCodeCLI.isAvailable] answers false:
    the selection does not ask whether the command is on the path. *)
Theorem C4_cli_selected_without_command :
  ClaudeCodeCLI_isAvailable bare_machine = false
  /\ initializeAuthMethods keyless_options bare_machine = Cli.
Proof. split; reflexivity. Qed.

(** ** The GitHub Actions dialect *)

(** C6 (as the code has it). For a payload without a [messages] property
    of its own, the message list is the system message if [system_prompt]
    is given and not empty, then the context message if [context] is given
    and not empty, then the instruction, [direct_prompt] going before
    [prompt]. *)
Theorem C6_message_order (opts : Options) (gh : GhRequest.t) :
  JS.has "messages" (GhRequest.otherParams gh) = false ->
  Request.messages (transformGitHubActionsRequest opts gh) = JS.Arr (spec_messages gh).
Proof.
  intros Hown. unfold transformGitHubActionsRequest. cbn [Request.messages]. rewrite Hown.
  f_equal. unfold synthesized_messages, spec_messages.
  destruct gh as [prompt direct_prompt model max_tokens temperature system_prompt context
                    action other]; cbn.
  destruct system_prompt as [sp |], context as [c |], direct_prompt as [d |], prompt as [q |];
    cbn;
    repeat (match goal with
            | |- context [String.eqb ?x ""] => destruct (String.eqb x "") eqn:?
            end; cbn);
    congruence.
Qed.

Lemma C6_witness :
  Request.messages (transformGitHubActionsRequest sampleOptions full_payload)
  = JS.Arr [mkMessage "system" "be brief"; mkMessage "user" "Context: repo X";
            mkMessage "user" "review this"].
Proof. apply (C6_message_order sampleOptions full_payload). reflexivity. Defined.

(** A payload with neither [direct_prompt] nor [prompt] is normalised
    without an error, to a request with no message, and that request
    reaches the adapter. *)
Lemma C6_counterexample :
  transformGitHubActionsRequest sampleOptions empty_payload
  = {| Request.model := JS.Str "claude-sonnet-4-20250514";
       Request.max_tokens := Some (JS.ofZ 4096);
       Request.temperature := Some default_temperature;
       Request.messages := JS.Arr [];
       Request.system := JS.Undefined;
       Request.stop_sequences := JS.Undefined;
       Request.otherParams := [("action", JS.Str "chat")] |}
  /\ List.map ClaudeRequest.messages
       (forwarded (proxyRequest (H := samplePlatform)
                     (sampleBridge (always helloResponse) silent)
                     (transformGitHubActionsRequest sampleOptions empty_payload)
                     1000 1500 no_effects).2)
     = [JS.Arr []].
Proof. split; vm_compute; reflexivity. Qed.

(** ** The streaming relay *)

Lemma relayed_S (b : Bridge) (cr : ClaudeRequest.t) (from k : nat) :
  relayed b cr from (S k) = ((delivered b cr from).1 ++ relayed b cr (S from) k)%list.
Proof.
  unfold relayed. cbn [seq List.map concat]. rewrite Nat.add_0_r. f_equal.
  rewrite <- seq_shift, List.map_map. f_equal. apply List.map_ext. intros i.
  now rewrite Nat.add_succ_r.
Qed.

Lemma noAuth_fatal (streaming : bool) (m : AuthMethod) :
  isRetryableError (noAuthError streaming m) = Some false.
Proof. destruct streaming, m; reflexivity. Qed.



(** The relay of the upstream API keeps the content deltas in order and
    passes on one stop event for each [message_stop]. *)
Lemma relay_keeps_content_order (chunks : list Chunk) :
  List.map fst (List.filter is_content (List.flat_map relayChunk chunks)) = content_texts chunks.
Proof.
  unfold content_texts.
  induction chunks as [| chunk rest IH]; [reflexivity |].
  cbn [List.flat_map]. rewrite List.filter_app, List.map_app. f_equal; [| exact IH].
  unfold relayChunk, present.
  destruct (String.eqb (type chunk) "content_block_delta").
  - destruct (delta_text chunk) as [text |]; simpl; [| reflexivity].
    destruct (String.eqb text ""); reflexivity.
  - destruct (String.eqb (type chunk) "message_start"); [reflexivity |].
    destruct (String.eqb (type chunk) "message_stop"); reflexivity.
Qed.

Lemma terminal_events_app (l1 l2 : list Event) :
  terminal_events (l1 ++ l2) = (terminal_events l1 + terminal_events l2)%nat.
Proof. unfold terminal_events. now rewrite List.filter_app, length_app. Qed.

Lemma relay_terminal_events (chunks : list Chunk) :
  terminal_events (List.flat_map relayChunk chunks)
  = List.length (List.filter (fun chunk => String.eqb (type chunk) "message_stop") chunks).
Proof.
  induction chunks as [| chunk rest IH]; [reflexivity |].
  cbn [List.flat_map List.filter]. rewrite terminal_events_app, IH.
  unfold relayChunk.
  destruct (String.eqb (type chunk) "content_block_delta") eqn:Ed.
  - apply String.eqb_eq in Ed. rewrite Ed. simpl.
    destruct (delta_text chunk) as [text |]; simpl; [| reflexivity].
    destruct (String.eqb text ""); reflexivity.
  - destruct (String.eqb (type chunk) "message_start") eqn:Es.
    + apply String.eqb_eq in Es. rewrite Es. reflexivity.
    + destruct (String.eqb (type chunk) "message_stop"); reflexivity.
Qed.








(** An upstream stream that fails after its [message_stop]: the caller
    sees a stop event and then an error event. *)
Example stop_then_error :
  exists se b' env',
    proxyRequestStream (H := samplePlatform)
      (sampleBridge (always helloResponse) fails_after_stop) (hi_request 50) 1000 1500 no_effects
    = (Thrown se, b', env')
    /\ emitted env' = [("hi", KContent); ("", KStop); ("ERROR: invalid x-api-key", KError)]
    /\ terminal_events (emitted env') = 2%nat.
Proof. do 3 eexists. repeat split; vm_compute; reflexivity. Qed.

(** The scenario of a stub that answers without [usage]: nothing is
    cached, and the second call invokes the stub again. *)
Example answer_without_usage_is_not_cached :
  exists r1 b1 env1 r2 b2 env2,
    proxyRequest (H := samplePlatform)
      (sampleBridge (always [("content", JS.Str "hello")]) silent) (hi_request 50)
      1000 1500 no_effects = (Returned r1, b1, env1)
    /\ proxyRequest (H := samplePlatform) b1 (hi_request 50) 2000 2500 env1
       = (Returned r2, b2, env2)
    /\ invocations env1 = 1%nat /\ invocations env2 = 2%nat
    /\ cacheHits (metrics b2) = 0.
Proof. do 6 eexists. repeat split; vm_compute; reflexivity. Qed.

(** * Further properties of the bridge *)

(** ** The cache across calls *)

(** A call that finds no cached response is the backend call, its answer
    stored if it carries [usage], or its error wrapped. *)
Lemma proxyRequest_reaches_backend `{Platform} (b : Bridge) (request : Request.t) (t0 t1 : Z)
    (env : Effects) (c : option (gmap string NodeCache.entry)) (m : Metrics) :
  cache_check (cache b) request (generateCacheKey (options b) request) t0
              (count_request (metrics b) t0) = (None, c, m) ->
  proxyRequest b request t0 t1 env
  = match executeWithRetry b (transformToClaudeFormat (options b) request) 1 env with
    | (Returned response, env1) =>
        (Returned (formatResponse response
                     [("requestId", Request.requestId request);
                      ("responseTime", JS.Num (JS.ofZ (t1 - t0)))] t1),
         with_state b (stored (options b) c (generateCacheKey (options b) request) response t1)
                    (updateMetrics m response (t1 - t0)),
         env1)
    | (Thrown error, env1) =>
        (Thrown {| StructuredError.status := status_or_500 error;
                   StructuredError.message := message_or "Request failed" error;
                   StructuredError.requestId := Request.requestId request;
                   StructuredError.responseTime := t1 - t0;
                   StructuredError.retryable := isRetryableError error |},
         with_state b c (count_error m), env1)
    end.
Proof. intros Hcheck. unfold proxyRequest. rewrite Hcheck. reflexivity. Qed.

(** The counters after a non-streaming call, read off the cache check. *)
Lemma proxyRequest_metrics `{Platform} (b : Bridge) (request : Request.t) (t0 t1 : Z)
    (env : Effects) :
  let checked := cache_check (cache b) request (generateCacheKey (options b) request) t0
                             (count_request (metrics b) t0) in
  let result := proxyRequest b request t0 t1 env in
  requests (metrics result.1.2) = requests checked.2
  /\ cacheHits (metrics result.1.2) = cacheHits checked.2
  /\ cacheMisses (metrics result.1.2) = cacheMisses checked.2
  /\ errors (metrics result.1.2)
     = errors checked.2 + match result.1.1 with Returned _ => 0 | Thrown _ => 1 end
  /\ (checked.1.1 <> None -> exists r, result.1.1 = Returned r).
Proof.
  cbv zeta. unfold proxyRequest.
  destruct (cache_check _ _ _ _ _) as [[[cached |] c] m]; simpl.
  - repeat split; try lia. eauto.
  - destruct (executeWithRetry _ _ _ _) as [[response | e] env1]; simpl;
      repeat split; try lia; congruence.
Qed.

Lemma expired_is_missed (c : gmap string NodeCache.entry) (key : string) (value : JS.object)
    (ttl t1 t2 : Z) :
  ttl <> 0 -> t1 + ttl * 1000 <> 0 -> t1 + ttl * 1000 < t2 ->
  NodeCache.get (NodeCache.set c key value ttl t1) key t2
  = (None, delete key (NodeCache.set c key value ttl t1)).
Proof.
  intros Httl Hnz Hlate. unfold NodeCache.get, NodeCache.set.
  rewrite lookup_insert_eq. unfold NodeCache.live. simpl.
  replace (ttl =? 0) with false by (symmetry; apply Z.eqb_neq; exact Httl).
  replace (t1 + ttl * 1000 =? 0) with false by (symmetry; apply Z.eqb_neq; exact Hnz).
  replace (t2 <=? t1 + ttl * 1000) with false by (symmetry; apply Z.leb_gt; exact Hlate).
  reflexivity.
Qed.

(** X1. Once the time to live of a stored response has run out, the same
    request is a cache miss again: it is counted as a miss, not as a hit,
    and the backend adapter is invoked anew. *)
Theorem X1_expired_entry_is_refetched `{Platform} (b : Bridge) (stub : Adapter)
    (data : gmap string NodeCache.entry) (request : Request.t) (t0 t1 t2 t3 : Z)
    (env env1 : Effects) (r : JS.object) :
  backend b = Some stub ->
  cache b = Some data ->
  is_POST (Request.method request) = false ->
  cached_response b request t0 = None ->
  executeWithRetry b (transformToClaudeFormat (options b) request) 1 env = (Returned r, env1) ->
  JS.truthy (JS.get "usage" r) = true ->
  cacheTtl (options b) <> 0 ->
  t1 + cacheTtl (options b) * 1000 <> 0 ->
  t1 + cacheTtl (options b) * 1000 < t2 ->
  let first := proxyRequest b request t0 t1 env in
  let second := proxyRequest first.1.2 request t2 t3 env1 in
  first.2 = env1
  /\ (invocations env1 < invocations second.2)%nat
  /\ cacheHits (metrics second.1.2) = cacheHits (metrics first.1.2)
  /\ cacheMisses (metrics second.1.2) = cacheMisses (metrics first.1.2) + 1.
Proof.
  intros Hsel Hcache Hpost Hmiss Hok Husage Httl Hnz Hlate. cbv zeta.
  unfold cached_response in Hmiss. rewrite Hcache in Hmiss.
  destruct (cache_check_enabled data request (generateCacheKey (options b) request) t0
              (count_request (metrics b) t0)) as (data' & Hdata' & _).
  destruct (cache_check (Some data) request (generateCacheKey (options b) request) t0
              (count_request (metrics b) t0)) as [[cached c] m] eqn:Hcheck.
  simpl in Hmiss, Hdata'. subst cached c.
  rewrite <- Hcache in Hcheck.
  rewrite (proxyRequest_reaches_backend b request t0 t1 env _ _ Hcheck), Hok.
  unfold stored. rewrite Husage. cbn [fst snd].
  set (b1 := with_state b _ _).
  assert (Hcheck2 :
            cache_check (cache b1) request (generateCacheKey (options b1) request) t2
                        (count_request (metrics b1) t2)
            = (None,
               Some (delete (generateCacheKey (options b) request)
                       (NodeCache.set data' (generateCacheKey (options b) request) r
                          (cacheTtl (options b)) t1)),
               count_cacheMiss (count_request (metrics b1) t2))).
  { subst b1. unfold cache_check. cbn [cache options with_state]. rewrite Hpost. cbn [negb].
    now rewrite expired_is_missed. }
  split; [reflexivity |]. split.
  - apply (proxyRequest_miss_invokes b1 stub); [exact Hsel |].
    unfold cached_response. now rewrite Hcheck2.
  - pose proof (proxyRequest_metrics b1 request t2 t3 env1) as Hm. cbv zeta in Hm.
    rewrite Hcheck2 in Hm. destruct Hm as (_ & Hh & Hmi & _). cbn [snd] in Hh, Hmi.
    rewrite Hh, Hmi. split; reflexivity.
Qed.

Lemma X1_witness :
  let first := proxyRequest (H := samplePlatform) (sampleBridge (always helloResponse) silent)
                            (hi_request 50) 1000 1500 no_effects in
  let second := proxyRequest (H := samplePlatform) first.1.2 (hi_request 50) 301501 301900
                             (invoked (transformToClaudeFormat sampleOptions (hi_request 50))
                                      no_effects) in
  first.2 = invoked (transformToClaudeFormat sampleOptions (hi_request 50)) no_effects
  /\ (1 < invocations second.2)%nat
  /\ cacheHits (metrics second.1.2) = cacheHits (metrics first.1.2)
  /\ cacheMisses (metrics second.1.2) = cacheMisses (metrics first.1.2) + 1.
Proof.
  apply (X1_expired_entry_is_refetched (H := samplePlatform)
           (sampleBridge (always helloResponse) silent) (always helloResponse) ∅
           (hi_request 50) 1000 1500 301501 301900 no_effects
           (invoked (transformToClaudeFormat sampleOptions (hi_request 50)) no_effects)
           helloResponse); try reflexivity; simpl; lia.
Defined.


(** X3. With the cache disabled every non-streaming call goes to the
    backend, the cache stays disabled, and neither hits nor misses are
    counted. *)
Theorem X3_disabled_cache_is_never_used `{Platform} (b : Bridge) (stub : Adapter)
    (request : Request.t) (t0 t1 : Z) (env : Effects) :
  backend b = Some stub ->
  cache b = None ->
  let result := proxyRequest b request t0 t1 env in
  (invocations env < invocations result.2)%nat
  /\ cache result.1.2 = None
  /\ cacheHits (metrics result.1.2) = cacheHits (metrics b)
  /\ cacheMisses (metrics result.1.2) = cacheMisses (metrics b).
Proof.
  intros Hsel Hcache. cbv zeta.
  assert (Hcheck : cache_check (cache b) request (generateCacheKey (options b) request) t0
                               (count_request (metrics b) t0)
                   = (None, None, count_request (metrics b) t0))
    by (now rewrite Hcache).
  split.
  - apply (proxyRequest_miss_invokes b stub); [exact Hsel |].
    unfold cached_response. now rewrite Hcheck.
  - pose proof (proxyRequest_metrics b request t0 t1 env) as Hm. cbv zeta in Hm.
    rewrite Hcheck in Hm. destruct Hm as (_ & Hh & Hmi & _).
    rewrite (proxyRequest_reaches_backend b request t0 t1 env _ _ Hcheck) in *.
    destruct (executeWithRetry _ _ _ _) as [[response | e] env1]; simpl in *; auto.
Qed.


Lemma X3_witness :
  let result := proxyRequest (H := samplePlatform) (uncachedBridge (always helloResponse))
                             (hi_request 50) 1000 1500 no_effects in
  (0 < invocations result.2)%nat
  /\ cache result.1.2 = None
  /\ cacheHits (metrics result.1.2) = 0
  /\ cacheMisses (metrics result.1.2) = 0.
Proof.
  apply (X3_disabled_cache_is_never_used (H := samplePlatform)
           (uncachedBridge (always helloResponse)) (always helloResponse)
           (hi_request 50) 1000 1500 no_effects); reflexivity.
Defined.

(** X4. A successful answer that carries no [usage] is returned but not
    stored: the call inserts and overwrites no entry, and the same request
    sent again goes to the backend. *)
Theorem X4_answer_without_usage_is_not_stored `{Platform} (b : Bridge) (stub : Adapter)
    (data : gmap string NodeCache.entry) (request : Request.t) (t0 t1 : Z)
    (env env1 : Effects) (r : JS.object) :
  backend b = Some stub ->
  cache b = Some data ->
  cached_response b request t0 = None ->
  executeWithRetry b (transformToClaudeFormat (options b) request) 1 env = (Returned r, env1) ->
  JS.truthy (JS.get "usage" r) = false ->
  let result := proxyRequest b request t0 t1 env in
  exists data',
    cache result.1.2 = Some data'
    /\ (forall k e, data' !! k = Some e -> data !! k = Some e)
    /\ (forall t2 t3,
          (invocations env1
           < invocations (proxyRequest result.1.2 request t2 t3 env1).2)%nat).
Proof.
  intros Hsel Hcache Hmiss Hok Husage. cbv zeta.
  unfold cached_response in Hmiss. rewrite Hcache in Hmiss.
  destruct (cache_check_enabled data request (generateCacheKey (options b) request) t0
              (count_request (metrics b) t0)) as (data' & Hdata' & Hsub & _ & Habsent).
  destruct (cache_check (Some data) request (generateCacheKey (options b) request) t0
              (count_request (metrics b) t0)) as [[cached c] m] eqn:Hcheck.
  simpl in Hmiss, Hdata', Habsent. subst cached c.
  rewrite <- Hcache in Hcheck.
  rewrite (proxyRequest_reaches_backend b request t0 t1 env _ _ Hcheck), Hok.
  unfold stored. rewrite Husage. cbn [fst snd].
  exists data'. split; [reflexivity |]. split; [exact Hsub |].
  intros t2 t3. apply (proxyRequest_miss_invokes _ stub); [exact Hsel |].
  unfold cached_response, cache_check. cbn [cache options with_state].
  destruct (is_POST (Request.method request)) eqn:Hpost; simpl; [reflexivity |].
  rewrite (get_absent _ _ _ (Habsent eq_refl eq_refl)). reflexivity.
Qed.

Lemma X4_witness :
  let result := proxyRequest (H := samplePlatform)
                  (sampleBridge (always [("content", JS.Str "hello")]) silent)
                  (hi_request 50) 1000 1500 no_effects in
  exists data',
    cache result.1.2 = Some data'
    /\ (forall k e, data' !! k = Some e -> (∅ : gmap string NodeCache.entry) !! k = Some e)
    /\ (forall t2 t3,
          (invocations (invoked (transformToClaudeFormat sampleOptions (hi_request 50))
                                no_effects)
           < invocations
               (proxyRequest (H := samplePlatform) result.1.2 (hi_request 50) t2 t3
                  (invoked (transformToClaudeFormat sampleOptions (hi_request 50))
                           no_effects)).2)%nat).
Proof.
  apply (X4_answer_without_usage_is_not_stored (H := samplePlatform)
           (sampleBridge (always [("content", JS.Str "hello")]) silent)
           (always [("content", JS.Str "hello")]) ∅ (hi_request 50) 1000 1500 no_effects
           (invoked (transformToClaudeFormat sampleOptions (hi_request 50)) no_effects)
           [("content", JS.Str "hello")]); reflexivity.
Defined.

(** ** Counters *)

Lemma cache_check_counts (c : option (gmap string NodeCache.entry)) (request : Request.t)
    (key : string) (now : Z) (m : Metrics) :
  let checked := cache_check c request key now m in
  requests checked.2 = requests m
  /\ errors checked.2 = errors m
  /\ ((checked.1.1 <> None
       /\ cacheHits checked.2 = cacheHits m + 1 /\ cacheMisses checked.2 = cacheMisses m)
      \/ (checked.1.1 = None
          /\ cacheHits checked.2 = cacheHits m
          /\ cacheMisses m <= cacheMisses checked.2 <= cacheMisses m + 1)).
Proof.
  cbv zeta. unfold cache_check.
  destruct c as [data |]; [destruct (is_POST (Request.method request)) |]; simpl;
    try (repeat split; try right; repeat split; lia).
  destruct (NodeCache.get data key now) as [[cached |] data']; simpl; repeat split.
  - left. repeat split. discriminate.
  - right. repeat split; lia.
Qed.

Lemma proxyRequest_counters `{Platform} (b : Bridge) (request : Request.t) (t0 t1 : Z)
    (env : Effects) :
  counters_consistent (metrics b) ->
  counters_consistent (metrics (proxyRequest b request t0 t1 env).1.2)
  /\ requests (metrics (proxyRequest b request t0 t1 env).1.2) = requests (metrics b) + 1.
Proof.
  intros (Hh & Hm & He & Hhm & Hhe).
  pose proof (proxyRequest_metrics b request t0 t1 env) as Hp. cbv zeta in Hp.
  pose proof (cache_check_counts (cache b) request (generateCacheKey (options b) request) t0
                (count_request (metrics b) t0)) as Hc. cbv zeta in Hc.
  destruct Hp as (Hr & Hhits & Hmisses & Herrors & Hhit).
  destruct Hc as (Hcr & Hce & Hcases).
  cbn [count_request requests cacheHits cacheMisses errors] in Hcr, Hce, Hcases.
  unfold counters_consistent. rewrite Hr, Hhits, Hmisses, Herrors, Hcr, Hce.
  destruct Hcases as [(Hfound & Hch & Hcm) | (Hnone & Hch & Hcm)]; rewrite Hch.
  - destruct (Hhit Hfound) as [r ->]. lia.
  - destruct ((proxyRequest b request t0 t1 env).1.1); lia.
Qed.

Lemma proxyRequestStream_counters `{Platform} (b : Bridge) (request : Request.t) (t0 t1 : Z)
    (env : Effects) :
  counters_consistent (metrics b) ->
  counters_consistent (metrics (proxyRequestStream b request t0 t1 env).1.2)
  /\ requests (metrics (proxyRequestStream b request t0 t1 env).1.2) = requests (metrics b) + 1.
Proof.
  intros (Hh & Hm & He & Hhm & Hhe). unfold proxyRequestStream, counters_consistent.
  destruct (executeStreamWithRetry _ _ _ _) as [[e |] env1]; simpl; lia.
Qed.

Lemma run_counters `{Platform} (calls : list Call) :
  forall (b : Bridge) (env : Effects),
  counters_consistent (metrics b) ->
  counters_consistent (metrics (run calls (b, env)).1)
  /\ requests (metrics (run calls (b, env)).1)
     = requests (metrics b) + Z.of_nat (List.length (List.filter is_call calls)).
Proof.
  induction calls as [| c calls IH]; intros b env Hb.
  - simpl. split; [exact Hb | lia].
  - unfold run in *. cbn [fold_left List.filter].
    destruct c as [request t0 t1 | request t0 t1 |]; cbn [perform is_call fst snd].
    + pose proof (proxyRequest_counters b request t0 t1 env Hb) as [Hc Hr].
      destruct (proxyRequest b request t0 t1 env) as [[out b'] env']. cbn [fst snd] in *.
      destruct (IH b' env' Hc) as [Hc' Hr']. split; [exact Hc' |].
      rewrite Hr', Hr. cbn [List.length]. lia.
    + pose proof (proxyRequestStream_counters b request t0 t1 env Hb) as [Hc Hr].
      destruct (proxyRequestStream b request t0 t1 env) as [[out b'] env']. cbn [fst snd] in *.
      destruct (IH b' env' Hc) as [Hc' Hr']. split; [exact Hc' |].
      rewrite Hr', Hr. cbn [List.length]. lia.
    + apply (IH (clearCache b) env). exact Hb.
Qed.

(** X5. Over any sequence of non-streaming calls, streaming calls and
    cache flushes, the counters of the bridge stay consistent: hits,
    misses and errors are never negative, hits plus misses and hits plus
    errors never exceed the number of requests, and the request counter
    has grown by exactly the number of calls. *)
Theorem X5_counters_stay_consistent `{Platform} (calls : list Call) (b : Bridge)
    (env : Effects) :
  counters_consistent (metrics b) ->
  counters_consistent (metrics (run calls (b, env)).1)
  /\ requests (metrics (run calls (b, env)).1)
     = requests (metrics b) + Z.of_nat (List.length (List.filter is_call calls)).
Proof.
  intros Hb. destruct (run_counters calls b env Hb) as [Hconsistent Hrequests].
  split; assumption.
Qed.

Lemma X5_witness :
  counters_consistent
    (metrics (run (H := samplePlatform) sample_session
                  (sampleBridge (always helloResponse) silent, no_effects)).1)
  /\ requests (metrics (run (H := samplePlatform) sample_session
                            (sampleBridge (always helloResponse) silent, no_effects)).1)
     = 0 + Z.of_nat 5.
Proof.
  apply (X5_counters_stay_consistent (H := samplePlatform) sample_session
           (sampleBridge (always helloResponse) silent) no_effects).
  unfold counters_consistent. simpl. lia.
Defined.

Lemma hitRate_range (m : Metrics) :
  counters_consistent m -> exists q, hitRate m = JS.Fin q /\ (0 <= q <= 1)%Q.
Proof.
  intros (Hh & Hm & _). unfold hitRate.
  destruct (cacheHits m + cacheMisses m =? 0) eqn:Ez.
  - apply Z.eqb_eq in Ez. replace (cacheHits m =? 0) with true by (symmetry; apply Z.eqb_eq; lia).
    exists (inject_Z 0). split; [reflexivity |]. split; [apply Qle_refl | discriminate].
  - apply Z.eqb_neq in Ez.
    destruct (cacheHits m =? 0) eqn:E0.
    + exists (inject_Z 0). split; [reflexivity |]. split; [apply Qle_refl | discriminate].
    + apply Z.eqb_neq in E0. eexists. split; [reflexivity |].
      assert (Hpos : (0 < inject_Z (cacheHits m + cacheMisses m))%Q).
      { unfold Qlt. simpl. lia. }
      split.
      * apply Qle_shift_div_l; [exact Hpos |]. rewrite Qmult_0_l.
        unfold Qle. simpl. lia.
      * apply Qle_shift_div_r; [exact Hpos |]. rewrite Qmult_1_l.
        rewrite <- Zle_Qle. lia.
Qed.

(** X6. After any sequence of calls on a bridge whose counters started
    consistent, the hit rate reported by the cache statistics is a number
    between 0 and 1, never [NaN] and never infinite. *)
Theorem X6_hit_rate_is_a_fraction `{Platform} (calls : list Call) (b : Bridge)
    (env : Effects) :
  counters_consistent (metrics b) ->
  exists q, hitRate (metrics (run calls (b, env)).1) = JS.Fin q /\ (0 <= q <= 1)%Q.
Proof.
  intros Hb. apply hitRate_range. now destruct (run_counters calls b env Hb).
Qed.

Lemma X6_witness :
  exists q,
    hitRate (metrics (run (H := samplePlatform) sample_session
                          (sampleBridge (always helloResponse) silent, no_effects)).1)
    = JS.Fin q /\ (0 <= q <= 1)%Q.
Proof.
  apply (X6_hit_rate_is_a_fraction (H := samplePlatform) sample_session
           (sampleBridge (always helloResponse) silent) no_effects).
  unfold counters_consistent. simpl. lia.
Defined.

Example session_hit_rate :
  hitRate (metrics (run (H := samplePlatform) sample_session
                        (sampleBridge (always helloResponse) silent, no_effects)).1)
  = JS.Fin (1 # 3).
Proof. vm_compute. reflexivity. Qed.

(** ** Flushing, missing backends, streaming *)

(** X7. After [clearCache] nothing is served from the cache: the next
    call for any request goes to the backend and counts no hit. *)
Theorem X7_flush_forgets_every_entry `{Platform} (b : Bridge) (stub : Adapter)
    (request : Request.t) (t0 t1 : Z) (env : Effects) :
  backend b = Some stub ->
  let result := proxyRequest (clearCache b) request t0 t1 env in
  (invocations env < invocations result.2)%nat
  /\ cacheHits (metrics result.1.2) = cacheHits (metrics b).
Proof.
  intros Hsel. cbv zeta.
  assert (Hnone : (cache_check (cache (clearCache b)) request
                     (generateCacheKey (options (clearCache b)) request) t0
                     (count_request (metrics (clearCache b)) t0)).1.1 = None).
  { unfold cache_check, clearCache. cbn [cache with_state].
    destruct (cache b); [| reflexivity].
    destruct (is_POST (Request.method request)); [reflexivity |]. cbn [negb].
    now rewrite get_absent by apply lookup_empty. }
  split.
  - apply (proxyRequest_miss_invokes (clearCache b) stub); [exact Hsel | exact Hnone].
  - pose proof (proxyRequest_metrics (clearCache b) request t0 t1 env) as Hm. cbv zeta in Hm.
    pose proof (cache_check_counts (cache (clearCache b)) request
                  (generateCacheKey (options (clearCache b)) request) t0
                  (count_request (metrics (clearCache b)) t0)) as Hc. cbv zeta in Hc.
    destruct Hm as (_ & Hh & _). destruct Hc as (_ & _ & [(Hfound & _) | (_ & Hch & _)]).
    + contradiction.
    + rewrite Hh, Hch. reflexivity.
Qed.

Lemma X7_witness :
  let warm := (proxyRequest (H := samplePlatform) (sampleBridge (always helloResponse) silent)
                            (hi_request 50) 1000 1500 no_effects).1.2 in
  let result := proxyRequest (H := samplePlatform) (clearCache warm) (hi_request 50) 2000 2500
                             no_effects in
  (0 < invocations result.2)%nat /\ cacheHits (metrics result.1.2) = cacheHits (metrics warm).
Proof.
  intros warm.
  apply (X7_flush_forgets_every_entry (H := samplePlatform) warm (always helloResponse)
           (hi_request 50) 2000 2500 no_effects).
  reflexivity.
Defined.

Lemma message_or_noAuth (fallback : string) (streaming : bool) (m : AuthMethod) :
  Some (message_or fallback (noAuthError streaming m))
  = Error.message (noAuthError streaming m).
Proof. destruct streaming, m; reflexivity. Qed.

(** X8. With no backend selected a call that is not answered from the
    cache fails at once: no adapter is invoked, nothing is slept, and the
    error that crosses the bridge has status 500 and [retryable] false; a
    streaming call in addition hands exactly one error event to
    [onChunk]. *)
Theorem X8_no_backend_fails_fast `{Platform} (b : Bridge) (request : Request.t) (t0 t1 : Z)
    (env : Effects) :
  backend b = None ->
  cached_response b request t0 = None ->
  (exists se b',
      proxyRequest b request t0 t1 env = (Thrown se, b', env)
      /\ StructuredError.status se = 500
      /\ StructuredError.retryable se = Some false
      /\ Some (StructuredError.message se) = Error.message (noAuthError false (authMethod b)))
  /\ (exists se b',
         proxyRequestStream b request t0 t1 env
         = (Thrown se, b',
            onChunk [("ERROR: " +:+ StreamError.message se, KError)] env)
         /\ StreamError.status se = 500
         /\ Some (StreamError.message se) = Error.message (noAuthError true (authMethod b))).
Proof.
  intros Hnone Hmiss. split.
  - unfold proxyRequest, cached_response in *.
    destruct (cache_check _ _ _ _ _) as [[cached c] m]. simpl in Hmiss. subst cached.
    rewrite executeWithRetry_step. unfold attempt_once, backend in *.
    destruct (authMethod b) eqn:E; try discriminate;
      rewrite (fatal_not_retried _ _ _ (noAuth_fatal false _));
      eexists; eexists; (split; [reflexivity |]); cbn;
      (split; [reflexivity |]); (split; [reflexivity |]); reflexivity.
  - unfold proxyRequestStream.
    rewrite executeStreamWithRetry_step. unfold stream_once, backend in *.
    destruct (authMethod b) eqn:E; try discriminate;
      rewrite (fatal_not_retried _ _ _ (noAuth_fatal true _));
      match goal with
      | |- context [message_or "Stream failed" ?e] =>
          replace (message_or "Stream failed" e) with (message_or "Streaming request failed" e)
            by (pose proof (message_or_noAuth "Stream failed" true (authMethod b)) as H1;
                pose proof (message_or_noAuth "Streaming request failed" true (authMethod b))
                  as H2;
                rewrite E in H1, H2; congruence)
      end;
      eexists; eexists; (split; [f_equal; reflexivity |]); cbn;
      (split; [reflexivity |]); reflexivity.
Qed.

Lemma X8_witness :
  (exists se b',
      proxyRequest (H := samplePlatform) orphanBridge (hi_request 50) 1000 1001 no_effects
      = (Thrown se, b', no_effects)
      /\ StructuredError.status se = 500
      /\ StructuredError.retryable se = Some false
      /\ Some (StructuredError.message se) = Error.message (noAuthError false NoAuth))
  /\ (exists se b',
         proxyRequestStream (H := samplePlatform) orphanBridge (hi_request 50) 1000 1001
                            no_effects
         = (Thrown se, b', onChunk [("ERROR: " +:+ StreamError.message se, KError)] no_effects)
         /\ StreamError.status se = 500
         /\ Some (StreamError.message se) = Error.message (noAuthError true NoAuth)).
Proof.
  apply (X8_no_backend_fails_fast (H := samplePlatform) orphanBridge (hi_request 50)
           1000 1001 no_effects); reflexivity.
Defined.

(** ** What every call does, whatever the adapter answers *)

Lemma total_delays_closed (opts : Options) (k : nat) :
  total (delays opts 1 k) = retryDelay opts * (2 ^ Z.of_nat k - 1).
Proof.
  induction k as [| k IH].
  - simpl. lia.
  - rewrite delays_snoc, total_snoc, IH. unfold backoff.
    replace (1 + Z.of_nat k - 1) with (Z.of_nat k) by lia.
    rewrite Nat2Z.inj_succ, Z.pow_succ_r by lia. lia.
Qed.

Lemma executeWithRetry_attempts (b : Bridge) (stub : Adapter) (cr : ClaudeRequest.t) :
  backend b = Some stub ->
  forall (attempt : Z) (env : Effects),
  exists k,
    (executeWithRetry b cr attempt env).2 = after_attempts (options b) cr attempt (S k) k env
    /\ Z.of_nat k <= Z.max 0 (retryAttempts (options b) - attempt).
Proof.
  intros Hsel.
  apply (attempts_ind (retryAttempts (options b))); intros attempt env IH.
  rewrite executeWithRetry_step, (attempt_once_backend _ _ _ _ Hsel).
  assert (Hone : invoked cr env = after_attempts (options b) cr attempt 1 0 env).
  { unfold after_attempts, invoked. simpl. now rewrite app_nil_r. }
  destruct (stub cr (invocations env)) as [response | e]; simpl.
  - exists 0%nat. split; [exact Hone | lia].
  - destruct (should_retry (options b) attempt e) eqn:E; simpl.
    + pose proof (should_retry_budget _ _ _ E) as Hlt.
      destruct (IH Hlt (sleep (backoff (options b) attempt) (invoked cr env))) as (k & Hk & Hb).
      exists (S k). rewrite Hk, after_attempts_step. split; [reflexivity | lia].
    + exists 0%nat. split; [exact Hone | lia].
Qed.

(** X9. Whatever the adapter answers, a retried backend call invokes it
    at least once and at most as often as the retry budget (once when the
    budget is below two), always with the same request; it sleeps exactly
    once between two invocations, for [retryDelay], twice that, four times
    that and so on, which adds up to [retryDelay * (2^k - 1)] for [k]
    sleeps. *)
Theorem X9_attempts_and_delays_are_bounded (b : Bridge) (stub : Adapter)
    (cr : ClaudeRequest.t) (env : Effects) :
  backend b = Some stub ->
  exists k,
    (executeWithRetry b cr 1 env).2 = after_attempts (options b) cr 1 (S k) k env
    /\ Z.of_nat (S k) <= Z.max 1 (retryAttempts (options b))
    /\ total (delays (options b) 1 k) = retryDelay (options b) * (2 ^ Z.of_nat k - 1).
Proof.
  intros Hsel.
  destruct (executeWithRetry_attempts b stub cr Hsel 1 env) as (k & Hk & Hb).
  exists k. split; [exact Hk |]. split; [lia | apply total_delays_closed].
Qed.

Lemma X9_witness :
  exists k,
    (executeWithRetry (sampleBridge (failing transientError) silent)
                      (transformToClaudeFormat sampleOptions (hi_request 50)) 1 no_effects).2
    = after_attempts sampleOptions (transformToClaudeFormat sampleOptions (hi_request 50))
                     1 (S k) k no_effects
    /\ Z.of_nat (S k) <= Z.max 1 3
    /\ total (delays sampleOptions 1 k) = 1000 * (2 ^ Z.of_nat k - 1).
Proof.
  apply (X9_attempts_and_delays_are_bounded (sampleBridge (failing transientError) silent)
           (failing transientError) (transformToClaudeFormat sampleOptions (hi_request 50))
           no_effects).
  reflexivity.
Defined.

Lemma stream_once_selected (b : Bridge) (cr : ClaudeRequest.t) (env : Effects) :
  backend b <> None ->
  stream_once b cr env
  = ((delivered b cr (invocations env)).2,
     onChunk (delivered b cr (invocations env)).1 (invoked cr env)).
Proof.
  unfold backend, stream_once, streamAnthropicAPI, delivered.
  destruct (authMethod b); intros Hsel; try congruence;
    repeat match goal with |- context [let '(_, _) := ?x in _] => destruct x end;
    reflexivity.
Qed.

Lemma after_stream_attempts_step (b : Bridge) (cr : ClaudeRequest.t) (from : Z)
    (calls naps : nat) (env : Effects) :
  after_stream_attempts b cr (from + 1) calls naps
    (sleep (backoff (options b) from)
           (onChunk (delivered b cr (invocations env)).1 (invoked cr env)))
  = after_stream_attempts b cr from (S calls) (S naps) env.
Proof.
  unfold after_stream_attempts, sleep, onChunk, invoked, invocations. simpl.
  rewrite delays_S, relayed_S, length_app. simpl.
  replace (List.length (forwarded env) + 1)%nat with (S (List.length (forwarded env))) by lia.
  f_equal; rewrite <- !app_assoc; reflexivity.
Qed.

Lemma executeStreamWithRetry_attempts (b : Bridge) (cr : ClaudeRequest.t) :
  backend b <> None ->
  forall (attempt : Z) (env : Effects),
  exists k,
    (executeStreamWithRetry b cr attempt env).2
    = after_stream_attempts b cr attempt (S k) k env
    /\ Z.of_nat k <= Z.max 0 (retryAttempts (options b) - attempt).
Proof.
  intros Hsel.
  apply (attempts_ind (retryAttempts (options b))); intros attempt env IH.
  rewrite executeStreamWithRetry_step, (stream_once_selected _ _ _ Hsel).
  assert (Hone : onChunk (delivered b cr (invocations env)).1 (invoked cr env)
                 = after_stream_attempts b cr attempt 1 0 env).
  { unfold after_stream_attempts, onChunk, invoked. simpl.
    rewrite relayed_S. unfold relayed. simpl. now rewrite !app_nil_r. }
  destruct ((delivered b cr (invocations env)).2) as [e |]; simpl.
  - destruct (should_retry (options b) attempt e) eqn:E; simpl.
    + pose proof (should_retry_budget _ _ _ E) as Hlt.
      destruct (IH Hlt (sleep (backoff (options b) attempt)
                          (onChunk (delivered b cr (invocations env)).1 (invoked cr env))))
        as (k & Hk & Hb).
      exists (S k). rewrite Hk, after_stream_attempts_step. split; [reflexivity | lia].
    + exists 0%nat. split; [exact Hone | lia].
  - exists 0%nat. split; [exact Hone | lia].
Qed.

(** X10. A streaming call is never answered from the cache and never
    writes to it: with a backend selected the adapter is invoked at least
    once and at most as often as the retry budget, always with the
    normalised request and with the same back-off delays as a
    non-streaming call, and the cache and the hit and miss counters are
    left as they were. *)
Theorem X10_streaming_bypasses_cache `{Platform} (b : Bridge) (request : Request.t)
    (t0 t1 : Z) (env : Effects) :
  backend b <> None ->
  let cr := transformToClaudeFormat (options b) request in
  let result := proxyRequestStream b request t0 t1 env in
  cache result.1.2 = cache b
  /\ cacheHits (metrics result.1.2) = cacheHits (metrics b)
  /\ cacheMisses (metrics result.1.2) = cacheMisses (metrics b)
  /\ exists k,
       Z.of_nat (S k) <= Z.max 1 (retryAttempts (options b))
       /\ forwarded result.2 = (forwarded env ++ repeat cr (S k))%list
       /\ sleeps result.2 = (sleeps env ++ delays (options b) 1 k)%list.
Proof.
  intros Hsel. cbv zeta. unfold proxyRequestStream.
  destruct (executeStreamWithRetry_attempts b (transformToClaudeFormat (options b) request)
              Hsel 1 env) as (k & Hk & Hb).
  destruct (executeStreamWithRetry _ _ _ _) as [[e |] env1]; simpl in *;
    repeat split; exists k; subst env1; simpl;
    (split; [lia |]); split; reflexivity.
Qed.

Lemma X10_witness :
  let cr := transformToClaudeFormat sampleOptions (hi_request 50) in
  let warm := (proxyRequest (H := samplePlatform) (sampleBridge (always helloResponse) unterminated)
                            (hi_request 50) 1000 1500 no_effects).1.2 in
  let result := proxyRequestStream (H := samplePlatform) warm (hi_request 50) 2000 2500
                                   no_effects in
  cache result.1.2 = cache warm
  /\ cacheHits (metrics result.1.2) = cacheHits (metrics warm)
  /\ cacheMisses (metrics result.1.2) = cacheMisses (metrics warm)
  /\ exists k,
       Z.of_nat (S k) <= Z.max 1 3
       /\ forwarded result.2 = (forwarded no_effects ++ repeat cr (S k))%list
       /\ sleeps result.2 = (sleeps no_effects ++ delays sampleOptions 1 k)%list.
Proof.
  intros cr warm.
  apply (X10_streaming_bypasses_cache (H := samplePlatform) warm (hi_request 50) 2000 2500
           no_effects).
  discriminate.
Defined.

(** ** Normalised numbers *)

Lemma lt_irrefl (x : JS.number) : JS.lt x x = false.
Proof.
  destruct (JS.lt x x) eqn:E; [| reflexivity].
  pose proof (lt_asym _ _ E). congruence.
Qed.

Lemma Math_min_bounded (x c : JS.number) : JS.lt c (JS.Math_min x c) = false.
Proof.
  unfold JS.Math_min.
  destruct (JS.isNaN x || JS.isNaN c) eqn:En.
  - now destruct c.
  - destruct (JS.lt c x) eqn:E; [apply lt_irrefl | exact E].
Qed.

Lemma Math_min_idempotent (x c : JS.number) :
  JS.Math_min (JS.Math_min x c) c = JS.Math_min x c.
Proof.
  unfold JS.Math_min.
  destruct (JS.isNaN x || JS.isNaN c) eqn:En; [reflexivity |].
  apply orb_false_iff in En as [Hx Hc].
  destruct (JS.lt c x) eqn:E.
  - now rewrite Hc, lt_irrefl.
  - now rewrite Hx, Hc, E.
Qed.

(** The clamp of the temperature, case by case. *)
Lemma clamp_cases (t : JS.number) :
  let clamped := JS.Math_max (JS.ofZ 0) (JS.Math_min (JS.ofZ 1) t) in
  (clamped = JS.NaN /\ t = JS.NaN)
  \/ clamped = JS.ofZ 1
  \/ clamped = JS.ofZ 0
  \/ (clamped = t /\ JS.lt t (JS.ofZ 1) = true /\ JS.lt (JS.ofZ 0) t = true).
Proof.
  cbv zeta.
  destruct t as [q | | |];
    [| right; left; reflexivity | right; right; left; reflexivity | left; split; reflexivity].
  change (JS.ofZ 1) with (JS.Fin (inject_Z 1)). change (JS.ofZ 0) with (JS.Fin (inject_Z 0)).
  assert (Hmin : JS.Math_min (JS.Fin (inject_Z 1)) (JS.Fin q)
                 = if JS.lt (JS.Fin q) (JS.Fin (inject_Z 1)) then JS.Fin q
                   else JS.Fin (inject_Z 1)) by reflexivity.
  rewrite Hmin.
  destruct (JS.lt (JS.Fin q) (JS.Fin (inject_Z 1))) eqn:E1.
  - assert (Hmax : JS.Math_max (JS.Fin (inject_Z 0)) (JS.Fin q)
                   = if JS.lt (JS.Fin (inject_Z 0)) (JS.Fin q) then JS.Fin q
                     else JS.Fin (inject_Z 0)) by reflexivity.
    rewrite Hmax.
    destruct (JS.lt (JS.Fin (inject_Z 0)) (JS.Fin q)) eqn:E0.
    + right. right. right. repeat split; reflexivity.
    + right. right. left. reflexivity.
  - right. left. reflexivity.
Qed.

Lemma clamp_properties (t : JS.number) :
  let clamped := JS.Math_max (JS.ofZ 0) (JS.Math_min (JS.ofZ 1) t) in
  JS.lt (JS.ofZ 1) clamped = false
  /\ JS.lt clamped (JS.ofZ 0) = false
  /\ JS.Math_max (JS.ofZ 0) (JS.Math_min (JS.ofZ 1) clamped) = clamped.
Proof.
  cbv zeta.
  destruct (clamp_cases t) as [[-> _] | [-> | [-> | (-> & H1 & H0)]]];
    try (repeat split; reflexivity).
  repeat split; try (now apply lt_asym).
  change (JS.ofZ 1) with (JS.Fin (inject_Z 1)) in *.
  change (JS.ofZ 0) with (JS.Fin (inject_Z 0)) in *.
  destruct (lt_not_NaN _ _ H1) as [Hn _].
  unfold JS.Math_min. cbn [JS.isNaN orb]. rewrite Hn, H1.
  unfold JS.Math_max. cbn [JS.isNaN orb]. now rewrite Hn, H0.
Qed.

(** X11. The numbers of a normalised request are always in range:
    [max_tokens] is never above 8192 and the temperature never above 1 or
    below 0; and normalising is idempotent on them: a request that names
    the normalised numbers is normalised to the same numbers. *)
Theorem X11_normalised_numbers_in_range (opts : Options) (request : Request.t) :
  let cr := transformToClaudeFormat opts request in
  JS.lt token_ceiling (ClaudeRequest.max_tokens cr) = false
  /\ JS.lt (JS.ofZ 1) (ClaudeRequest.temperature cr) = false
  /\ JS.lt (ClaudeRequest.temperature cr) (JS.ofZ 0) = false
  /\ ClaudeRequest.max_tokens (transformToClaudeFormat opts (renormalised request cr))
     = ClaudeRequest.max_tokens cr
  /\ ClaudeRequest.temperature (transformToClaudeFormat opts (renormalised request cr))
     = ClaudeRequest.temperature cr.
Proof.
  cbv zeta.
  destruct (clamp_properties (default default_temperature (Request.temperature request)))
    as (Hhigh & Hlow & Hidem).
  split; [exact (Math_min_bounded _ _) |].
  split; [exact Hhigh |]. split; [exact Hlow |].
  split; [exact (Math_min_idempotent _ _) | exact Hidem].
Qed.


(** ** The running average when every call records a sample *)

Lemma first_attempt_succeeds (b : Bridge) (stub : Adapter) (cr : ClaudeRequest.t)
    (env : Effects) (r : JS.object) :
  backend b = Some stub ->
  stub cr (invocations env) = Returned r ->
  executeWithRetry b cr 1 env = (Returned r, invoked cr env).
Proof.
  intros Hsel Hok. now rewrite executeWithRetry_step, (attempt_once_backend _ _ _ _ Hsel), Hok.
Qed.





(** ** The subscription adapters under the retry rule *)

(** The fixed head of the failure message mentions neither a rate limit
    nor a timeout. *)
Lemma cli_failure_text (error : string) :
  includes "rate limit" ("Claude Code CLI failed: " +:+ error) = includes "rate limit" error
  /\ includes "timeout" ("Claude Code CLI failed: " +:+ error) = includes "timeout" error.
Proof. split; reflexivity. Qed.

Lemma cli_failure_classified (error : string) :
  isRetryableError
    (ClaudeCodeCLI.failure
       ("Claude Code CLI failed: " +:+ (if String.eqb error "" then "Unknown error" else error)))
  = Some (includes "rate limit" error || includes "timeout" error).
Proof.
  destruct (String.eqb error "") eqn:E.
  - apply String.eqb_eq in E. subst error. reflexivity.
  - unfold isRetryableError, ClaudeCodeCLI.failure. cbn [Error.status Error.code Error.message
      status_listed code_listed].
    destruct (cli_failure_text error) as [-> ->].
    destruct (includes "rate limit" error); reflexivity.
Qed.

(** X13. How the bridge's retry rule classifies a failure of the
    command-line adapter: a missing command is final, a timeout is
    retried, and a run that ends with a non-zero exit code or by a signal
    is retried exactly when what it wrote to standard error mentions a
    rate limit or a timeout. *)
Theorem X13_cli_failures_classified `{Engine} (model : JS.value) (run : ClaudeCodeCLI.Run)
    (e : Error.t) :
  ClaudeCodeCLI.execute model run = Thrown e ->
  isRetryableError e
  = Some match run with
         | ClaudeCodeCLI.NotFound => false
         | ClaudeCodeCLI.Closed _ _ error =>
             includes "rate limit" error || includes "timeout" error
         | ClaudeCodeCLI.TimedOut => true
         end.
Proof.
  destruct run as [| [[| p | p] |] output error |]; cbn [ClaudeCodeCLI.execute];
    intros Hthrown; inversion Hthrown; subst e;
    first [apply cli_failure_classified | reflexivity].
Qed.

Lemma X13_witness :
  isRetryableError
    (ClaudeCodeCLI.failure "Claude Code CLI failed: upstream rate limit reached")
  = Some (includes "rate limit" "upstream rate limit reached"
          || includes "timeout" "upstream rate limit reached").
Proof.
  apply (X13_cli_failures_classified (H := sampleEngine) (JS.Str "m1")
           (ClaudeCodeCLI.Closed (Some 1) "" "upstream rate limit reached")).
  reflexivity.
Defined.

Lemma executeWithRetry_fatal (b : Bridge) (stub : Adapter) (cr : ClaudeRequest.t)
    (attempt : Z) (env : Effects) (e : Error.t) :
  backend b = Some stub ->
  stub cr (invocations env) = Thrown e ->
  isRetryableError e = Some false ->
  executeWithRetry b cr attempt env = (Thrown e, invoked cr env).
Proof.
  intros Hsel Hthrown Hfatal.
  now rewrite executeWithRetry_step, (attempt_once_backend _ _ _ _ Hsel), Hthrown,
    (fatal_not_retried _ _ _ Hfatal).
Qed.

(** X14. A bridge that has settled on the command-line adapter while the
    command is not installed fails a request that is not served from the
    cache after a single attempt and without sleeping: the caller gets
    status 500, the installation hint as message, and [retryable: false]. *)
Theorem X14_missing_command_fails_at_once `{Platform} `{Engine} (b : Bridge)
    (world : list JS.value -> nat -> ClaudeCodeCLI.Run) (request : Request.t) (t0 t1 : Z)
    (env : Effects) (cliPrompt : JS.value) :
  let cr := transformToClaudeFormat (options b) request in
  authMethod b = Cli ->
  claudeCLI b = ClaudeCodeCLI.adapter world ->
  cached_response b request t0 = None ->
  ClaudeCodeCLI.transformRequest cr = Returned cliPrompt ->
  world (ClaudeCodeCLI.args (ClaudeRequest.model cr) cliPrompt) (invocations env)
  = ClaudeCodeCLI.NotFound ->
  exists se b',
    proxyRequest b request t0 t1 env = (Thrown se, b', invoked cr env)
    /\ StructuredError.status se = 500
    /\ StructuredError.retryable se = Some false
    /\ StructuredError.message se
       = "Claude Code CLI not found. Please install: curl -fsSL https://api.claude.ai/install.sh | sh".
Proof.
  intros cr Hmethod Hadapter Hmiss Hprompt Hworld.
  assert (Hsel : backend b
                 = Some (fun claudeRequest n =>
                           match claudeCLI b claudeRequest n with
                           | Returned cliResponse => Returned (cliToApi cliResponse)
                           | Thrown e => Thrown e
                           end))
    by (unfold backend; now rewrite Hmethod).
  pose (e := ClaudeCodeCLI.failure
     "Claude Code CLI not found. Please install: curl -fsSL https://api.claude.ai/install.sh | sh").
  assert (Hrun : executeWithRetry b cr 1 env = (Thrown e, invoked cr env)).
  { apply (executeWithRetry_fatal b _ cr 1 env e Hsel); [| reflexivity].
    rewrite Hadapter. unfold ClaudeCodeCLI.adapter. fold cr. rewrite Hprompt, Hworld.
    reflexivity. }
  destruct (proxyRequest_propagates b request t0 t1 env (invoked cr env) e Hmiss Hrun)
    as (se & b' & Hcall & Hretryable & Hstatus & Hmessage).
  exists se, b'. split; [exact Hcall |].
  rewrite Hretryable, Hstatus, Hmessage. repeat split; reflexivity.
Qed.

Lemma X14_witness :
  exists se b',
    proxyRequest (H := samplePlatform) (cliBridge (fun _ _ => ClaudeCodeCLI.NotFound))
                 (hi_request 50) 1000 1200 no_effects
    = (Thrown se, b', invoked (transformToClaudeFormat keyless_options (hi_request 50)) no_effects)
    /\ StructuredError.status se = 500
    /\ StructuredError.retryable se = Some false
    /\ StructuredError.message se
       = "Claude Code CLI not found. Please install: curl -fsSL https://api.claude.ai/install.sh | sh".
Proof.
  apply (X14_missing_command_fails_at_once (H := samplePlatform) (H0 := sampleEngine)
           (cliBridge (fun _ _ => ClaudeCodeCLI.NotFound)) (fun _ _ => ClaudeCodeCLI.NotFound)
           (hi_request 50) 1000 1200 no_effects (JS.Str "hi")); reflexivity.
Defined.

(** Every failure of the SDK adapter is thrown with status 500. *)
Lemma sdk_failure_retryable `{Platform} (generated : string) (duration : Z)
    (options : JS.object) (error : Error.t) :
  exists e,
    ClaudeCodeSDK.execute generated duration options (ClaudeCodeSDK.Failed error) = Thrown e
    /\ Error.status e = Some 500
    /\ isRetryableError e = Some true.
Proof. eexists. repeat split. Qed.

(** X15. The SDK adapter rethrows whatever its query throws with status
    500, which the retry rule always retries: when the query keeps
    failing, whatever the failures are, the bridge invokes the adapter as
    often as its attempt budget allows and sleeps before every attempt
    but the first. *)
Theorem X15_sdk_failures_use_up_the_budget `{Platform} `{Engine} (b : Bridge)
    (cfg : ClaudeCodeSDK.Config) (generated : nat -> string) (duration : nat -> Z)
    (world : JS.value * JS.object -> nat -> ClaudeCodeSDK.Query)
    (cr : ClaudeRequest.t) (env : Effects) (input : JS.value * JS.object) :
  authMethod b = Sdk ->
  claudeSDK b = ClaudeCodeSDK.adapter cfg generated duration world ->
  ClaudeCodeSDK.queryInput cfg cr = Returned input ->
  (forall n, exists error, world input n = ClaudeCodeSDK.Failed error) ->
  1 <= retryAttempts (options b) ->
  let budget := Z.to_nat (retryAttempts (options b)) in
  exists e,
    executeWithRetry b cr 1 env
    = (Thrown e, after_attempts (options b) cr 1 budget (budget - 1) env)
    /\ Error.status e = Some 500
    /\ isRetryableError e = Some true.
Proof.
  intros Hmethod Hadapter Hinput Hfails Hpos budget.
  assert (Hsel : backend b = Some (claudeSDK b)) by (unfold backend; now rewrite Hmethod).
  unfold ClaudeCodeSDK.queryInput in Hinput.
  destruct (ClaudeCodeSDK.transformRequest cfg cr) as [[prompt sdkOptions] | e0] eqn:Ereq;
    [| discriminate].
  injection Hinput as Hinput.
  set (passed := ClaudeCodeSDK.callOptions
                   (JS.get "requestId" (ClaudeRequest.otherParams cr)) sdkOptions) in *.
  pose (errs := fun k : nat =>
          {| Error.status := Some 500; Error.code := None;
             Error.message :=
               Some (message_or "Claude Code SDK execution failed"
                       match world input (invocations env + k)%nat with
                       | ClaudeCodeSDK.Failed error => error
                       | ClaudeCodeSDK.Completed _ => authError
                       end) |}).
  assert (Hstub : forall k, claudeSDK b cr (invocations env + k)%nat = Thrown (errs k)).
  { intros k. rewrite Hadapter. unfold ClaudeCodeSDK.adapter. rewrite Ereq. cbv zeta.
    fold passed. rewrite Hinput. subst errs. cbv beta.
    destruct (Hfails (invocations env + k)%nat) as [error ->]. reflexivity. }
  exists (errs (budget - 1)%nat).
  split; [| split; reflexivity].
  assert (Hrun : executeWithRetry b cr 1 env
                 = (Thrown (errs (budget - 1)%nat),
                    after_attempts (options b) cr 1 (S (budget - 1)) (budget - 1) env)).
  { apply (retry_exhausts b (claudeSDK b) cr Hsel (budget - 1) 1 env errs).
    - intros k _. apply Hstub.
    - intros k _. reflexivity.
    - subst budget. lia. }
  replace (S (budget - 1)) with budget in Hrun by (subst budget; lia).
  exact Hrun.
Qed.

Lemma X15_witness :
  exists e,
    executeWithRetry (sdkBridge (fun _ _ => ClaudeCodeSDK.Failed authError))
                     (transformToClaudeFormat keyless_options (hi_request 50)) 1 no_effects
    = (Thrown e,
       after_attempts keyless_options (transformToClaudeFormat keyless_options (hi_request 50))
                      1 3 2 no_effects)
    /\ Error.status e = Some 500
    /\ isRetryableError e = Some true.
Proof.
  apply (X15_sdk_failures_use_up_the_budget (H := samplePlatform) (H0 := sampleEngine)
           (sdkBridge (fun _ _ => ClaudeCodeSDK.Failed authError))
           sampleConfig (fun _ => "sdk_1_abc") (fun _ => 40)
           (fun _ _ => ClaudeCodeSDK.Failed authError)
           (transformToClaudeFormat keyless_options (hi_request 50)) no_effects
           (JS.Str "hi",
            ClaudeCodeSDK.queryOptions sampleConfig
              (ClaudeCodeSDK.callOptions (JS.Str "req_1")
                 [ ("maxTurns", JS.Num (JS.ofZ 3)); ("outputFormat", JS.Str "json");
                   ("allowedTools", JS.Arr []); ("systemPrompt", JS.Undefined);
                   ("permissionMode", JS.Str "default") ]))).
  - reflexivity.
  - reflexivity.
  - reflexivity.
  - intros n. exists authError. reflexivity.
  - simpl. lia.
Defined.

(** What the retry loop returns is an answer of the selected adapter. *)
Lemma executeWithRetry_returns (b : Bridge) (stub : Adapter) (cr : ClaudeRequest.t) :
  backend b = Some stub ->
  forall (attempt : Z) (env : Effects),
  forall r env1, executeWithRetry b cr attempt env = (Returned r, env1) ->
  exists n, stub cr n = Returned r.
Proof.
  intros Hsel.
  apply (attempts_ind (retryAttempts (options b))
           (fun attempt env =>
              forall r env1, executeWithRetry b cr attempt env = (Returned r, env1) ->
                             exists n, stub cr n = Returned r)).
  intros attempt env IH r env1.
  rewrite executeWithRetry_step, (attempt_once_backend _ _ _ _ Hsel).
  destruct (stub cr (invocations env)) as [response | e] eqn:E.
  - intros [= <- _]. eauto.
  - destruct (should_retry (options b) attempt e) eqn:Hretry; [| discriminate].
    apply IH. exact (should_retry_budget _ _ _ Hretry).
Qed.

Lemma sdk_answer_token_free `{Platform} `{Engine} (cfg : ClaudeCodeSDK.Config)
    (generated : nat -> string) (duration : nat -> Z)
    (world : JS.value * JS.object -> nat -> ClaudeCodeSDK.Query)
    (cr : ClaudeRequest.t) (n : nat) (r : JS.object) :
  ClaudeCodeSDK.adapter cfg generated duration world cr n = Returned r -> token_free r.
Proof.
  unfold ClaudeCodeSDK.adapter.
  destruct (ClaudeCodeSDK.transformRequest cfg cr) as [[prompt sdkOptions] | e];
    [| discriminate].
  cbv zeta. destruct (world _ n) as [messages | error]; [| discriminate].
  intros [= <-]. eexists. split; [reflexivity |]. split; reflexivity.
Qed.

Lemma cli_answer_token_free `{Platform} `{Engine}
    (world : list JS.value -> nat -> ClaudeCodeCLI.Run) (cr : ClaudeRequest.t) (n : nat)
    (r : JS.object) :
  match ClaudeCodeCLI.adapter world cr n with
  | Returned cliResponse => Returned (cliToApi cliResponse)
  | Thrown e => Thrown e
  end = Returned r ->
  token_free r.
Proof.
  unfold ClaudeCodeCLI.adapter.
  destruct (ClaudeCodeCLI.transformRequest cr) as [cliPrompt | e]; [| discriminate].
  destruct (world _ n) as [| [[| p | p] |] output error |]; try discriminate.
  intros [= <-]. eexists. split; [reflexivity |]. split; reflexivity.
Qed.

Lemma token_free_metrics (m : Metrics) (r : JS.object) (responseTime : Z) :
  token_free r ->
  JS.truthy (JS.get "usage" r) = true
  /\ (totalTokens (updateMetrics m r responseTime) == totalTokens m)%Q.
Proof.
  intros (u & Hu & Hin & Hout). unfold updateMetrics. cbn [totalTokens].
  rewrite Hu. cbn [JS.truthy prop]. rewrite Hin, Hout. split; [reflexivity |].
  simpl. ring.
Qed.

Lemma cache_check_tokens (c : option (gmap string NodeCache.entry)) (request : Request.t)
    (key : string) (now : Z) (m : Metrics) :
  totalTokens (cache_check c request key now m).2 = totalTokens m.
Proof.
  unfold cache_check.
  destruct c as [data |]; [| reflexivity].
  destruct (negb (is_POST (Request.method request))); [| reflexivity].
  destruct (NodeCache.get data key now) as [[cached |] data']; reflexivity.
Qed.

(** X16. An answer of the SDK adapter or of the command-line adapter
    always carries a [usage] object, and that object never has token
    counts: on a bridge with the cache enabled every such answer is stored
    under the key of the request, whatever the query or the command
    reported (an error result included), and the token total of the
    metrics stays as it was. *)
Theorem X16_subscription_answers_are_stored `{Platform} `{Engine} (b : Bridge)
    (cfg : ClaudeCodeSDK.Config) (generated : nat -> string) (duration : nat -> Z)
    (query : JS.value * JS.object -> nat -> ClaudeCodeSDK.Query)
    (command : list JS.value -> nat -> ClaudeCodeCLI.Run)
    (data : gmap string NodeCache.entry) (request : Request.t) (t0 t1 : Z)
    (env env1 : Effects) (r : JS.object) :
  (authMethod b = Sdk /\ claudeSDK b = ClaudeCodeSDK.adapter cfg generated duration query)
  \/ (authMethod b = Cli /\ claudeCLI b = ClaudeCodeCLI.adapter command) ->
  cache b = Some data ->
  cached_response b request t0 = None ->
  executeWithRetry b (transformToClaudeFormat (options b) request) 1 env = (Returned r, env1) ->
  let after := (proxyRequest b request t0 t1 env).1.2 in
  exists data' e,
    cache after = Some data'
    /\ data' !! generateCacheKey (options b) request = Some e
    /\ NodeCache.v e = r
    /\ (totalTokens (metrics after) == totalTokens (metrics b))%Q.
Proof.
  intros Hbackend Hcache Hmiss Hrun after.
  assert (Hfree : token_free r).
  { destruct Hbackend as [[Hmethod Hadapter] | [Hmethod Hadapter]].
    - assert (Hsel : backend b = Some (claudeSDK b)) by (unfold backend; now rewrite Hmethod).
      destruct (executeWithRetry_returns b _ _ Hsel 1 env r env1 Hrun) as [n Hn].
      rewrite Hadapter in Hn. exact (sdk_answer_token_free _ _ _ _ _ _ _ Hn).
    - assert (Hsel : backend b
                     = Some (fun claudeRequest n =>
                               match claudeCLI b claudeRequest n with
                               | Returned cliResponse => Returned (cliToApi cliResponse)
                               | Thrown e => Thrown e
                               end))
        by (unfold backend; now rewrite Hmethod).
      destruct (executeWithRetry_returns b _ _ Hsel 1 env r env1 Hrun) as [n Hn].
      cbv beta in Hn. rewrite Hadapter in Hn. exact (cli_answer_token_free _ _ _ _ Hn). }
  unfold cached_response in Hmiss.
  pose proof (cache_check_tokens (cache b) request (generateCacheKey (options b) request) t0
                (count_request (metrics b) t0)) as Htokens.
  destruct (cache_check_enabled data request (generateCacheKey (options b) request) t0
              (count_request (metrics b) t0)) as (data0 & Hdata0 & _).
  rewrite <- Hcache in Hdata0.
  destruct (cache_check (cache b) request (generateCacheKey (options b) request) t0
              (count_request (metrics b) t0)) as [[cached c] m] eqn:Hcheck.
  simpl in Hmiss, Hdata0, Htokens. subst cached c.
  subst after.
  rewrite (proxyRequest_reaches_backend b request t0 t1 env (Some data0) m Hcheck), Hrun.
  destruct (token_free_metrics m r (t1 - t0) Hfree) as [Husage Hsame].
  cbn [fst snd cache metrics with_state]. unfold stored. rewrite Husage.
  eexists. eexists. split; [reflexivity |].
  split; [unfold NodeCache.set; apply lookup_insert_eq |].
  split; [reflexivity |].
  rewrite Hsame, Htokens. reflexivity.
Qed.

Lemma X16_witness :
  let b := sdkBridge (fun _ _ => ClaudeCodeSDK.Completed error_result) in
  let after := (proxyRequest (H := samplePlatform) b (hi_request 50) 1000 1200 no_effects).1.2 in
  exists data' e,
    cache after = Some data'
    /\ data' !! generateCacheKey (H := samplePlatform) (options b) (hi_request 50) = Some e
    /\ NodeCache.v e
       = JS.spread
           (ClaudeCodeSDK.processMessages (H := samplePlatform) error_result (JS.Str "req_1"))
           [ ("requestId", JS.Str "req_1"); ("duration", JS.Num (JS.ofZ 40));
             ("source", JS.Str "sdk"); ("messages", JS.Undefined) ]
    /\ (totalTokens (metrics after) == totalTokens (metrics b))%Q.
Proof.
  intros b.
  apply (X16_subscription_answers_are_stored (H := samplePlatform) (H0 := sampleEngine) b
           sampleConfig (fun _ => "sdk_1_abc") (fun _ => 40)
           (fun _ _ => ClaudeCodeSDK.Completed error_result)
           (fun _ _ => ClaudeCodeCLI.NotFound)
           ∅ (hi_request 50) 1000 1200 no_effects
           (invoked (transformToClaudeFormat keyless_options (hi_request 50)) no_effects)).
  - left. split; reflexivity.
  - reflexivity.
  - reflexivity.
  - reflexivity.
Defined.

(** ** What the adapters are handed *)

Lemma system_message_skipped (s rest : list JS.value) :
  s = [] \/ (exists x, s = [mkMessage "system" x]) ->
  List.find nullish (s ++ rest) = List.find nullish rest
  /\ List.filter (fun msg => is_str "user" (prop "role" msg)) (s ++ rest)
     = List.filter (fun msg => is_str "user" (prop "role" msg)) rest.
Proof. intros [-> | [x ->]]; split; reflexivity. Qed.

Lemma synthesized_head (gh : GhRequest.t) :
  exists s rest,
    (s = [] \/ (exists x, s = [mkMessage "system" x]))
    /\ (forall sp, exists s',
          (s' = [] \/ (exists x, s' = [mkMessage "system" x]))
          /\ synthesized_messages (with_system_prompt gh sp) = (s' ++ rest)%list)
    /\ synthesized_messages gh = (s ++ rest)%list.
Proof.
  unfold synthesized_messages. cbn [with_system_prompt GhRequest.system_prompt
    GhRequest.context GhRequest.direct_prompt GhRequest.prompt].
  eexists. eexists. split; [| split; [| reflexivity]].
  - destruct (GhRequest.system_prompt gh) as [x |]; [| now left].
    destruct (truthy_str (Some x)); [right; eauto | now left].
  - intros sp. eexists. split; [| reflexivity].
    destruct sp as [x |]; [| now left].
    destruct (truthy_str (Some x)); [right; eauto | now left].
Qed.

(** X17. What the SDK adapter hands to its query for a request of the
    GitHub Actions endpoint, the prompt and the query options, does not
    depend on the [system_prompt] of the payload: the system message made
    from it is dropped with every other message that is not a user
    message, and the [systemPrompt] option is read from properties the
    endpoint never sets from it. *)
Theorem X17_sdk_query_ignores_system_prompt `{Platform} `{Engine}
    (cfg : ClaudeCodeSDK.Config) (opts : Options) (body : GhRequest.t)
    (system_prompt : option string) (requestId : string) (headers : JS.value) :
  ClaudeCodeSDK.queryInput cfg
    (transformToClaudeFormat opts
       (githubActionsCall opts (with_system_prompt body system_prompt) requestId headers))
  = ClaudeCodeSDK.queryInput cfg
      (transformToClaudeFormat opts (githubActionsCall opts body requestId headers)).
Proof.
  unfold ClaudeCodeSDK.queryInput, ClaudeCodeSDK.transformRequest, transformToClaudeFormat,
    githubActionsCall, transformGitHubActionsRequest.
  cbn [ClaudeRequest.otherParams ClaudeRequest.messages ClaudeRequest.system
       Request.otherParams Request.messages Request.system Request.model Request.max_tokens
       Request.temperature Request.stop_sequences
       with_system_prompt GhRequest.otherParams GhRequest.action GhRequest.model
       GhRequest.max_tokens GhRequest.temperature].
  destruct (JS.has "messages" (GhRequest.otherParams body)); [reflexivity |].
  destruct (synthesized_head body) as (s & rest & Hs & Hother & ->).
  destruct (Hother system_prompt) as (s' & Hs' & ->).
  cbn [JS.or_else JS.truthy].
  destruct (system_message_skipped s rest Hs) as [-> ->].
  destruct (system_message_skipped s' rest Hs') as [-> ->].
  reflexivity.
Qed.


Example prompts_of_full_payload :
  let cr := transformToClaudeFormat sampleOptions
              (githubActionsCall sampleOptions full_payload "gha_1" JS.Undefined) in
  ClaudeCodeCLI.transformRequest (H := samplePlatform) (H0 := sampleEngine) cr
  = Returned (JS.Str ("System: be brief" +:+ blank_line +:+ "Context: repo X"
                      +:+ blank_line +:+ "review this"))
  /\ ClaudeCodeSDK.queryInput (H := samplePlatform) (H0 := sampleEngine) sampleConfig cr
     = Returned (JS.Str ("Context: repo X" +:+ blank_line +:+ "review this"),
                 [ ("maxTurns", JS.Num (JS.ofZ 3)); ("outputFormat", JS.Str "json");
                   ("cwd", JS.Str "/srv/proxy"); ("allowedTools", JS.Arr []);
                   ("systemPrompt", JS.Null); ("mcpConfig", JS.Null) ]).
Proof. split; vm_compute; reflexivity. Qed.

(** ** Replies of the GitHub Actions endpoint *)

Lemma get_set_same (k : string) (v : JS.value) (o : JS.object) :
  JS.get k (JS.set k v o) = v.
Proof.
  induction o as [| [k' v'] o IH]; simpl.
  - now rewrite String.eqb_refl.
  - destruct (String.eqb k k') eqn:E; simpl; rewrite ?String.eqb_refl, ?E; auto.
Qed.

Lemma get_set_other (k k' : string) (v : JS.value) (o : JS.object) :
  k <> k' -> JS.get k (JS.set k' v o) = JS.get k o.
Proof.
  intros Hne. apply String.eqb_neq in Hne.
  induction o as [| [k0 v0] o IH]; simpl.
  - now rewrite Hne.
  - destruct (String.eqb k' k0) eqn:E; simpl.
    + apply String.eqb_eq in E. subst k0. now rewrite Hne.
    + now rewrite IH.
Qed.

(** A response served from the cache keeps every property of the stored
    answer but [fromCache] and [timestamp]. *)
Lemma cached_answer_properties `{Platform} (cached : JS.object) (now : Z) (k : string) :
  k <> "fromCache" -> k <> "timestamp" ->
  JS.get k (formatResponse cached [("fromCache", JS.Bool true)] now) = JS.get k cached.
Proof.
  intros Hc Ht. unfold formatResponse, JS.spread. simpl fold_left.
  now rewrite !get_set_other.
Qed.

Lemma cached_answer_flag `{Platform} (cached : JS.object) (now : Z) :
  JS.get "fromCache" (formatResponse cached [("fromCache", JS.Bool true)] now) = JS.Bool true.
Proof.
  unfold formatResponse, JS.spread. simpl fold_left.
  rewrite get_set_other by discriminate. apply get_set_same.
Qed.

(** The cache key of an endpoint request depends neither on its
    identifier nor on its headers. *)
Lemma githubActionsCall_key `{Platform} (opts : Options) (body : GhRequest.t)
    (requestId requestId' : string) (headers headers' : JS.value) :
  generateCacheKey opts (githubActionsCall opts body requestId headers)
  = generateCacheKey opts (githubActionsCall opts body requestId' headers').
Proof. reflexivity. Qed.

(** X18. Two non-streaming requests with the same payload at the GitHub
    Actions endpoint, the first answered by the backend with an answer
    that carries [usage], the second not marked POST and within the life
    time of the entry: the second reply is made without any backend call,
    its metadata say [fromCache: true], and the [requestId] and the
    [responseTime] they report are the properties of that name of the
    stored backend answer (none, for an answer without them), not the
    identifier and the latency of the second request. *)
Theorem X18_cached_reply_reports_stored_identifiers `{Platform} (b : Bridge)
    (data : gmap string NodeCache.entry) (body : GhRequest.t)
    (requestId requestId' : string) (headers headers' : JS.value)
    (start t0 t1 t2 start' t0' t1' t2' : Z) (env env1 : Effects) (r : JS.object) :
  let request := githubActionsCall (options b) body requestId headers in
  let request' := githubActionsCall (options b) body requestId' headers' in
  cache b = Some data ->
  cached_response b request t0 = None ->
  executeWithRetry b (transformToClaudeFormat (options b) request) 1 env = (Returned r, env1) ->
  JS.truthy (JS.get "usage" r) = true ->
  is_POST (Request.method request') = false ->
  cacheTtl (options b) = 0 \/ t0' <= t1 + cacheTtl (options b) * 1000 ->
  let first := githubActionsReply b body requestId headers start t0 t1 t2 env in
  let second := githubActionsReply first.1.2 body requestId' headers' start' t0' t1' t2' first.2 in
  let metadata := JS.get "metadata" (Reply.body second.1.1) in
  first.2 = env1
  /\ second.2 = env1
  /\ Reply.status second.1.1 = 200
  /\ prop "fromCache" metadata = JS.Bool true
  /\ prop "requestId" metadata = JS.get "requestId" r
  /\ prop "responseTime" metadata = JS.get "responseTime" r.
Proof.
  intros request request' Hcache Hmiss Hrun Husage Hpost Hlive.
  unfold cached_response in Hmiss.
  destruct (cache_check_enabled data request (generateCacheKey (options b) request) t0
              (count_request (metrics b) t0)) as (data0 & Hdata0 & _).
  rewrite <- Hcache in Hdata0.
  destruct (cache_check (cache b) request (generateCacheKey (options b) request) t0
              (count_request (metrics b) t0)) as [[cached c] m] eqn:Hcheck.
  simpl in Hmiss, Hdata0. subst cached c.
  assert (Hfirst : githubActionsReply b body requestId headers start t0 t1 t2 env
                   = ({| Reply.status := 200;
                         Reply.body :=
                           transformGitHubActionsResponse
                             (formatResponse r [("requestId", Request.requestId request);
                                                ("responseTime", JS.Num (JS.ofZ (t1 - t0)))] t1)
                             t2 |},
                      with_state b
                        (Some (NodeCache.set data0 (generateCacheKey (options b) request) r
                                             (cacheTtl (options b)) t1))
                        (updateMetrics m r (t1 - t0)),
                      env1)).
  { unfold githubActionsReply. fold request.
    rewrite (proxyRequest_reaches_backend b request t0 t1 env (Some data0) m Hcheck), Hrun.
    unfold stored. now rewrite Husage. }
  cbv zeta. rewrite Hfirst. cbn [fst snd].
  set (b1 := with_state b _ _).
  assert (Hsecond : proxyRequest b1 request' t0' t1' env1
                    = (Returned (formatResponse r [("fromCache", JS.Bool true)] t0'),
                       with_state b1 (cache b1)
                                  (count_cacheHit (count_request (metrics b1) t0')),
                       env1)).
  { apply (proxyRequest_hit b1 _ request' t0' t1' env1 r); [reflexivity | exact Hpost |].
    subst b1. cbn [options with_state].
    rewrite (githubActionsCall_key (options b) body requestId' requestId headers' headers).
    apply get_after_set. exact Hlive. }
  unfold githubActionsReply. change (options b1) with (options b). fold request'.
  rewrite Hsecond. cbn [fst snd Reply.status Reply.body].
  unfold transformGitHubActionsResponse. cbn [JS.get String.eqb Ascii.eqb Bool.eqb prop].
  rewrite cached_answer_flag, !cached_answer_properties by discriminate.
  repeat split; reflexivity.
Qed.

Lemma X18_witness :
  let b := sdkBridge (fun _ _ => ClaudeCodeSDK.Completed error_result) in
  let first :=
    githubActionsReply (H := samplePlatform) b full_payload "gha_1" JS.Undefined
                       900 1000 1200 1210 no_effects in
  let second :=
    githubActionsReply (H := samplePlatform) first.1.2 full_payload "gha_2" JS.Undefined
                       2000 2010 2020 2030 first.2 in
  let metadata := JS.get "metadata" (Reply.body second.1.1) in
  let env1 :=
    invoked (transformToClaudeFormat keyless_options
               (githubActionsCall keyless_options full_payload "gha_1" JS.Undefined))
            no_effects in
  first.2 = env1
  /\ second.2 = env1
  /\ Reply.status second.1.1 = 200
  /\ prop "fromCache" metadata = JS.Bool true
  /\ prop "requestId" metadata = JS.Str "gha_1"
  /\ prop "responseTime" metadata = JS.Undefined.
Proof.
  apply (X18_cached_reply_reports_stored_identifiers (H := samplePlatform)
           (sdkBridge (fun _ _ => ClaudeCodeSDK.Completed error_result)) ∅ full_payload
           "gha_1" "gha_2" JS.Undefined JS.Undefined 900 1000 1200 1210 2000 2010 2020 2030
           no_effects
           (invoked (transformToClaudeFormat keyless_options
                       (githubActionsCall keyless_options full_payload "gha_1" JS.Undefined))
                    no_effects)
           (JS.spread
              (ClaudeCodeSDK.processMessages (H := samplePlatform) error_result (JS.Str "gha_1"))
              [ ("requestId", JS.Str "gha_1"); ("duration", JS.Num (JS.ofZ 40));
                ("source", JS.Str "sdk"); ("messages", JS.Undefined) ])).
  - reflexivity.
  - reflexivity.
  - reflexivity.
  - reflexivity.
  - reflexivity.
  - right. vm_compute. discriminate.
Defined.

(** ** The shape of a cache key *)

Lemma round_length (st : list Z) (kw : Z * Z) :
  List.length (SHA256.round st kw) = List.length st.
Proof.
  unfold SHA256.round.
  destruct st as [| a [| b0 [| c [| d [| e [| f [| g [| h [| x st]]]]]]]]]; reflexivity.
Qed.

Lemma rounds_length (kws : list (Z * Z)) :
  forall st, List.length (fold_left SHA256.round kws st) = List.length st.
Proof.
  induction kws as [| kw kws IH]; intros st; simpl; [reflexivity |].
  now rewrite IH, round_length.
Qed.

Lemma compress_length (h block : list Z) :
  List.length (SHA256.compress h block) = List.length h.
Proof.
  unfold SHA256.compress.
  rewrite length_map, length_combine, rounds_length. apply Nat.min_id.
Qed.

Lemma digest_words_length (msg : list Z) : List.length (SHA256.digest_words msg) = 8%nat.
Proof.
  unfold SHA256.digest_words.
  generalize (SHA256.chunks
                (List.length (SHA256.words_of_bytes (List.length (SHA256.pad msg))
                                                    (SHA256.pad msg)))
                16
                (SHA256.words_of_bytes (List.length (SHA256.pad msg)) (SHA256.pad msg))).
  intros blocks.
  assert (Hinit : List.length SHA256.H0 = 8%nat) by reflexivity.
  revert Hinit. generalize SHA256.H0.
  induction blocks as [| block blocks IH]; intros h Hh; simpl; [exact Hh |].
  apply IH. now rewrite compress_length.
Qed.

Lemma hex_of_bytes_length (bs : list Z) :
  String.length (SHA256.hex_of_bytes bs) = (2 * List.length bs)%nat.
Proof. induction bs as [| x bs IH]; simpl; [reflexivity | rewrite IH; lia]. Qed.

Lemma be_bytes_length (n : nat) : forall x, List.length (SHA256.be_bytes n x) = n.
Proof.
  induction n as [| n IH]; intros x; simpl; [reflexivity |].
  rewrite length_app, IH. simpl. lia.
Qed.

Lemma flat_map_be_bytes_length (ws : list Z) :
  List.length (List.flat_map (SHA256.be_bytes 4) ws) = (4 * List.length ws)%nat.
Proof.
  induction ws as [| w ws IH]; [reflexivity |].
  cbn [List.flat_map]. rewrite length_app, be_bytes_length, IH. simpl. lia.
Qed.

Lemma hex_length (s : string) : String.length (SHA256.hex s) = 64%nat.
Proof.
  unfold SHA256.hex.
  now rewrite hex_of_bytes_length, flat_map_be_bytes_length, digest_words_length.
Qed.

Lemma substring_length (n : nat) :
  forall s, (n <= String.length s)%nat -> String.length (String.substring 0 n s) = n.
Proof.
  induction n as [| n IH]; intros [| c s] Hlen; simpl in *; try reflexivity; try lia.
  rewrite IH; [reflexivity | lia].
Qed.

(** X19. Every cache key is the text [claude_] followed by exactly
    sixteen characters, whatever the request. *)
Theorem X19_cache_key_shape `{Platform} (opts : Options) (request : Request.t) :
  String.prefix "claude_" (generateCacheKey opts request) = true
  /\ String.length (generateCacheKey opts request) = 23%nat.
Proof.
  unfold generateCacheKey. split.
  - unfold String.append. simpl String.prefix.
    now destruct (String.substring 0 16 _).
  - unfold String.append. cbn [String.length]. fold String.append.
    rewrite substring_length; [reflexivity |].
    rewrite hex_length. lia.
Qed.

(** ** The middlewares *)

(** X20. In production the error-handling middleware hands no stack and
    no details of an error to the reply, and a reply with a status of 500
    or more carries the fixed text [Internal server error], so that the
    texts chosen for [ECONNREFUSED] and [ENOTFOUND] are never sent with
    their statuses 503 and 502. Outside production the same status is
    sent, and the [stack] and [details] of the reply are those of the
    error, whatever they are. *)
Theorem X20_production_hides_server_errors `{Platform} (error : ErrorHandler.Err)
    (requestId : JS.value) (now : Z) :
  let reply := ErrorHandler.middleware true error requestId now in
  let verbose := ErrorHandler.middleware false error requestId now in
  JS.has "stack" (Reply.body reply) = false
  /\ JS.has "details" (Reply.body reply) = false
  /\ (Reply.status reply <? 500)
     || is_str "Internal server error" (JS.get "error" (Reply.body reply)) = true
  /\ JS.get "stack" (Reply.body verbose) = ErrorHandler.stack error
  /\ JS.get "details" (Reply.body verbose) = ErrorHandler.details error
  /\ Reply.status verbose = Reply.status reply.
Proof.
  cbv zeta. unfold ErrorHandler.middleware.
  destruct (ErrorHandler.named "ValidationError" (ErrorHandler.name error));
    [repeat split; reflexivity |].
  destruct (ErrorHandler.named "UnauthorizedError" (ErrorHandler.name error));
    [repeat split; reflexivity |].
  destruct (ErrorHandler.named "ECONNREFUSED" (ErrorHandler.code error));
    [repeat split; reflexivity |].
  destruct (ErrorHandler.named "ENOTFOUND" (ErrorHandler.code error));
    [repeat split; reflexivity |].
  cbn [andb Reply.status Reply.body].
  destruct (500 <=? _) eqn:E.
  - rewrite orb_true_r. repeat split; reflexivity.
  - assert (Hlow : ErrorHandler.num_or (ErrorHandler.status error)
                     (ErrorHandler.num_or (ErrorHandler.statusCode error) 500) < 500)
      by (apply Z.leb_gt; exact E).
    split; [reflexivity |]. split; [reflexivity |].
    split; [apply orb_true_iff; left; apply Z.ltb_lt; exact Hlow |].
    repeat split; reflexivity.
Qed.

(** X21. On a path of the GitHub Actions endpoints, a request that has
    some non-empty [x-github-token] and non-empty [x-github-repository],
    [x-github-workflow] and [x-github-actor] headers is let through,
    whatever the token and whatever keys and tokens are configured. *)
Theorem X21_context_headers_pass_any_token (auth : AuthMiddleware.t)
    (req : AuthMiddleware.Req) :
  includes "/github-actions/" (AuthMiddleware.path req) = true ->
  truthy_str (AuthMiddleware.x_github_token req) = true ->
  AuthMiddleware.isValidGitHubToken req = true ->
  exists authType, AuthMiddleware.middleware auth req = AuthMiddleware.Next authType.
Proof.
  intros Hpath Htoken Hcontext. unfold AuthMiddleware.middleware.
  destruct (String.eqb _ "/health"); [eauto |].
  destruct (negb _); [eauto |].
  destruct (match AuthMiddleware.x_api_key req with Some _ => _ | None => _ end); [eauto |].
  destruct (match AuthMiddleware.authorization req with Some _ => _ | None => _ end); [eauto |].
  rewrite Hpath, Hcontext.
  destruct (AuthMiddleware.x_github_token req) as [githubToken |]; [| discriminate].
  rewrite Htoken, orb_true_r. simpl. eauto.
Qed.

Lemma X21_witness :
  exists authType,
    AuthMiddleware.middleware
      {| AuthMiddleware.apiKeys := ["k1"]; AuthMiddleware.githubTokens := [];
         AuthMiddleware.requireAuth := true |}
      {| AuthMiddleware.path := "/github-actions/claude";
         AuthMiddleware.authorization := None;
         AuthMiddleware.x_api_key := None;
         AuthMiddleware.x_github_token := Some "anything";
         AuthMiddleware.x_github_repository := Some "o/r";
         AuthMiddleware.x_github_workflow := Some "ci";
         AuthMiddleware.x_github_actor := Some "someone";
         AuthMiddleware.ip := Some "203.0.113.7";
         AuthMiddleware.remoteAddress := None |}
    = AuthMiddleware.Next authType.
Proof.
  apply X21_context_headers_pass_any_token; reflexivity.
Defined.

Lemma has_In (set : list string) (x : string) :
  AuthMiddleware.has set x = true -> In x set.
Proof.
  unfold AuthMiddleware.has. intros Hx. apply existsb_exists in Hx as (y & Hy & E).
  apply String.eqb_eq in E. now subst y.
Qed.

Lemma substring_all (s : string) : String.substring 0 (String.length s) s = s.
Proof. induction s as [| c s IH]; simpl; [reflexivity | now rewrite IH]. Qed.

Lemma bearer_header (authHeader : string) :
  String.prefix "Bearer " authHeader = true ->
  authHeader = "Bearer " +:+ AuthMiddleware.bearer_token authHeader.
Proof.
  unfold AuthMiddleware.bearer_token, String.append. intros Hhead.
  do 7 (destruct authHeader as [| ?c authHeader]; cbn [String.prefix] in Hhead;
        [discriminate Hhead |];
        match type of Hhead with
        | (if ascii_dec ?a ?c then _ else _) = true =>
            destruct (ascii_dec a c) as [<- |]; [| discriminate Hhead]
        end).
  simpl. now rewrite Nat.sub_0_r, substring_all.
Qed.

(** X22. With the keys the constructor reads from [AUTHORIZED_API_KEYS],
    a request can only be let through as [api-key] or as [bearer] by
    presenting, in [x-api-key] or after [Bearer ] in [Authorization], a
    text that is one of the comma-separated fields of that variable
    exactly as written there, blanks included, and that is not blank
    (trimming the empty text gives the empty text). An unset or empty
    variable lets none through this way. *)
Theorem X22_key_admission_is_sound `{Engine}
    (AUTHORIZED_API_KEYS GITHUB_TOKENS REQUIRE_AUTH : option string)
    (req : AuthMiddleware.Req) (authType : string) :
  trim "" = "" ->
  AuthMiddleware.middleware
    (AuthMiddleware.constructor AUTHORIZED_API_KEYS GITHUB_TOKENS REQUIRE_AUTH) req
  = AuthMiddleware.Next (Some authType) ->
  authType = "api-key" \/ authType = "bearer" ->
  exists key,
    (authType = "api-key" /\ AuthMiddleware.x_api_key req = Some key
     \/ authType = "bearer" /\ AuthMiddleware.authorization req = Some ("Bearer " +:+ key))
    /\ In key (AuthMiddleware.split_commas (default "" AUTHORIZED_API_KEYS))
    /\ trim key <> ""
    /\ AUTHORIZED_API_KEYS <> None /\ AUTHORIZED_API_KEYS <> Some "".
Proof.
  intros Hempty Hnext Hkind.
  assert (Hlisted : forall key,
             AuthMiddleware.has
               (AuthMiddleware.apiKeys
                  (AuthMiddleware.constructor AUTHORIZED_API_KEYS GITHUB_TOKENS REQUIRE_AUTH))
               key = true ->
             In key (AuthMiddleware.split_commas (default "" AUTHORIZED_API_KEYS))
             /\ trim key <> ""
             /\ AUTHORIZED_API_KEYS <> None /\ AUTHORIZED_API_KEYS <> Some "").
  { intros key Hkey. apply has_In in Hkey.
    cbn [AuthMiddleware.constructor AuthMiddleware.apiKeys] in Hkey.
    apply filter_In in Hkey as [Hin Hblank].
    apply negb_true_iff, String.eqb_neq in Hblank.
    assert (Hkey : key <> "") by (intros ->; contradiction).
    destruct AUTHORIZED_API_KEYS as [[| c s] |]; simpl in Hin |- *.
    - destruct Hin as [<- | []]. contradiction.
    - repeat split; try assumption; discriminate.
    - destruct Hin as [<- | []]. contradiction. }
  unfold AuthMiddleware.middleware in Hnext.
  destruct (String.eqb _ "/health"); [discriminate |].
  destruct (negb _); [discriminate |].
  match type of Hnext with
  | (if ?byKey then _ else _) = _ => destruct byKey eqn:Eapi
  end.
  { injection Hnext as <-.
    destruct (AuthMiddleware.x_api_key req) as [apiKey |]; [| discriminate].
    apply andb_true_iff in Eapi as [_ Hhas].
    exists apiKey. split; [left; split; reflexivity | exact (Hlisted _ Hhas)]. }
  match type of Hnext with
  | (if ?byBearer then _ else _) = _ => destruct byBearer eqn:Ebearer
  end.
  { injection Hnext as <-.
    destruct (AuthMiddleware.authorization req) as [authHeader |]; [| discriminate].
    apply andb_true_iff in Ebearer as [Hhead Hhas].
    apply andb_true_iff in Hhead as [_ Hhead].
    exists (AuthMiddleware.bearer_token authHeader).
    split; [right; split; [reflexivity | f_equal; exact (bearer_header _ Hhead)]
           | exact (Hlisted _ Hhas)]. }
  match type of Hnext with
  | (if ?byToken then _ else _) = _ => destruct byToken
  end.
  { injection Hnext as <-. destruct Hkind; discriminate. }
  destruct (AuthMiddleware.isLocalRequest req) as [[|] |]; try discriminate.
  injection Hnext as <-. destruct Hkind; discriminate.
Qed.

Lemma X22_witness :
  exists key,
    ("bearer" = "api-key"
     /\ AuthMiddleware.x_api_key
          {| AuthMiddleware.path := "/claude/messages";
             AuthMiddleware.authorization := Some "Bearer  k2";
             AuthMiddleware.x_api_key := Some "k2";
             AuthMiddleware.x_github_token := None;
             AuthMiddleware.x_github_repository := None;
             AuthMiddleware.x_github_workflow := None;
             AuthMiddleware.x_github_actor := None;
             AuthMiddleware.ip := Some "203.0.113.7";
             AuthMiddleware.remoteAddress := None |} = Some key
     \/ "bearer" = "bearer"
        /\ AuthMiddleware.authorization
             {| AuthMiddleware.path := "/claude/messages";
                AuthMiddleware.authorization := Some "Bearer  k2";
                AuthMiddleware.x_api_key := Some "k2";
                AuthMiddleware.x_github_token := None;
                AuthMiddleware.x_github_repository := None;
                AuthMiddleware.x_github_workflow := None;
                AuthMiddleware.x_github_actor := None;
                AuthMiddleware.ip := Some "203.0.113.7";
                AuthMiddleware.remoteAddress := None |} = Some ("Bearer " +:+ key))
    /\ In key (AuthMiddleware.split_commas (default "" (Some "k1, k2,,")))
    /\ trim (Engine := sampleEngine) key <> ""
    /\ Some "k1, k2,," <> None /\ Some "k1, k2,," <> Some "".
Proof.
  apply (X22_key_admission_is_sound (H := sampleEngine) (Some "k1, k2,,") None None).
  - reflexivity.
  - reflexivity.
  - right. reflexivity.
Defined.

(** ** The options of the bridge *)

Lemma get_absent_key (k : string) (o : JS.object) :
  JS.has k o = false -> JS.get k o = JS.Undefined.
Proof.
  induction o as [| [k' v] o IH]; simpl; [reflexivity |].
  destruct (String.eqb k k'); [discriminate | exact IH].
Qed.

Lemma has_In_keys (k : string) (o : JS.object) :
  JS.has k o = true -> In k (List.map fst o).
Proof.
  induction o as [| [k' v] o IH]; simpl; [discriminate |].
  destruct (String.eqb k k') eqn:E.
  - apply String.eqb_eq in E. now left.
  - intros Hk. right. now apply IH.
Qed.

(** A property of [{...a, ...b}] is that of [b] when [b] has it, that of
    [a] otherwise. *)
Lemma get_spread (k : string) (b : JS.object) :
  List.NoDup (List.map fst b) ->
  forall a, JS.get k (JS.spread a b) = if JS.has k b then JS.get k b else JS.get k a.
Proof.
  unfold JS.spread.
  induction b as [| [k0 v0] b IH]; intros Hdistinct a; simpl; [reflexivity |].
  inversion Hdistinct as [| ? ? Hfresh Hrest]; subst.
  rewrite (IH Hrest).
  destruct (String.eqb k k0) eqn:E; simpl.
  - apply String.eqb_eq in E. subst k0.
    destruct (JS.has k b) eqn:Hk; [| apply get_set_same].
    exfalso. apply Hfresh. now apply has_In_keys.
  - destruct (JS.has k b); [reflexivity |].
    apply get_set_other. intros ->. now rewrite String.eqb_refl in E.
Qed.

Lemma computed_defaults (ANTHROPIC_API_KEY : JS.value) (options : JS.object) (k : string) :
  JS.has k options = false ->
  JS.get k
    [ ("anthropicApiKey", JS.or_else (JS.get "anthropicApiKey" options) ANTHROPIC_API_KEY);
      ("cacheEnabled", JS.Bool (is_not_false (JS.get "cacheEnabled" options)));
      ("cacheTtl", JS.or_else (JS.get "cacheTtl" options) (JS.Num (JS.ofZ 300)));
      ("retryAttempts", JS.or_else (JS.get "retryAttempts" options) (JS.Num (JS.ofZ 3)));
      ("retryDelay", JS.or_else (JS.get "retryDelay" options) (JS.Num (JS.ofZ 1000)));
      ("maxTokens", JS.or_else (JS.get "maxTokens" options) (JS.Num (JS.ofZ 4096)));
      ("defaultModel", JS.or_else (JS.get "defaultModel" options)
                                  (JS.Str "claude-sonnet-4-20250514")) ]
  = JS.get k (default_options ANTHROPIC_API_KEY).
Proof.
  intros Habsent. unfold default_options. cbn [JS.get].
  repeat match goal with
         | |- (if String.eqb k ?name then _ else _) = _ =>
             let E := fresh "E" in
             destruct (String.eqb k name) eqn:E;
             [apply String.eqb_eq in E; subst k; now rewrite (get_absent_key _ _ Habsent) |]
         end.
  reflexivity.
Qed.

(** X23. The options of a bridge are the properties of the constructor
    argument, each exactly as given (zero, the empty text, [null] and
    [undefined] included), and the built-in values only for the
    properties the argument does not have: the fall-backs written with
    [||] and [!== false] never replace a value that was given. So the
    cache is created exactly when [cacheEnabled] is absent or truthy. *)
Theorem X23_given_options_always_win (ANTHROPIC_API_KEY : JS.value) (options : JS.object) :
  List.NoDup (List.map fst options) ->
  (forall k, JS.get k (constructor_options ANTHROPIC_API_KEY options)
             = if JS.has k options then JS.get k options
               else JS.get k (default_options ANTHROPIC_API_KEY))
  /\ cache_created (constructor_options ANTHROPIC_API_KEY options)
     = if JS.has "cacheEnabled" options then JS.truthy (JS.get "cacheEnabled" options)
       else true.
Proof.
  intros Hdistinct.
  assert (Hget : forall k, JS.get k (constructor_options ANTHROPIC_API_KEY options)
                           = if JS.has k options then JS.get k options
                             else JS.get k (default_options ANTHROPIC_API_KEY)).
  { intros k. unfold constructor_options. rewrite (get_spread k options Hdistinct).
    destruct (JS.has k options) eqn:Hk; [reflexivity |].
    now apply computed_defaults. }
  split; [exact Hget |].
  unfold cache_created. rewrite Hget.
  destruct (JS.has "cacheEnabled" options); reflexivity.
Qed.

Lemma X23_witness :
  (forall k, JS.get k (constructor_options JS.Undefined
                         [("cacheTtl", JS.Num (JS.ofZ 0)); ("cacheEnabled", JS.Null)])
             = if JS.has k [("cacheTtl", JS.Num (JS.ofZ 0)); ("cacheEnabled", JS.Null)]
               then JS.get k [("cacheTtl", JS.Num (JS.ofZ 0)); ("cacheEnabled", JS.Null)]
               else JS.get k (default_options JS.Undefined))
  /\ cache_created (constructor_options JS.Undefined
                      [("cacheTtl", JS.Num (JS.ofZ 0)); ("cacheEnabled", JS.Null)])
     = if JS.has "cacheEnabled" [("cacheTtl", JS.Num (JS.ofZ 0)); ("cacheEnabled", JS.Null)]
       then JS.truthy (JS.get "cacheEnabled"
                         [("cacheTtl", JS.Num (JS.ofZ 0)); ("cacheEnabled", JS.Null)])
       else true.
Proof.
  apply X23_given_options_always_win.
  repeat constructor; simpl; intuition discriminate.
Defined.

(** X24. The authentication middleware never rejects, whatever the
    credentials and the configured keys, a request for [/health], any
    request when [REQUIRE_AUTH] is [false], or a request whose address is
    a loop-back address or starts with [192.168.] or [10.]. *)
Theorem X24_requests_never_rejected (auth : AuthMiddleware.t) (req : AuthMiddleware.Req) :
  AuthMiddleware.path req = "/health"
  \/ AuthMiddleware.requireAuth auth = false
  \/ AuthMiddleware.isLocalRequest req = Some true ->
  exists authType, AuthMiddleware.middleware auth req = AuthMiddleware.Next authType.
Proof.
  intros Hground. unfold AuthMiddleware.middleware.
  destruct (String.eqb _ "/health") eqn:Epath; [eauto |].
  destruct (negb _) eqn:Eauth; [eauto |].
  destruct Hground as [Hpath | [Hoff | Hlocal]].
  - rewrite Hpath in Epath. discriminate.
  - rewrite Hoff in Eauth. discriminate.
  - rewrite Hlocal.
    destruct (match AuthMiddleware.x_api_key req with Some _ => _ | None => _ end); [eauto |].
    destruct (match AuthMiddleware.authorization req with Some _ => _ | None => _ end);
      [eauto |].
    destruct (includes _ _ && _); eauto.
Qed.

Lemma X24_witness :
  exists authType,
    AuthMiddleware.middleware
      {| AuthMiddleware.apiKeys := ["k1"]; AuthMiddleware.githubTokens := [];
         AuthMiddleware.requireAuth := true |}
      {| AuthMiddleware.path := "/claude/messages";
         AuthMiddleware.authorization := None;
         AuthMiddleware.x_api_key := Some "wrong";
         AuthMiddleware.x_github_token := None;
         AuthMiddleware.x_github_repository := None;
         AuthMiddleware.x_github_workflow := None;
         AuthMiddleware.x_github_actor := None;
         AuthMiddleware.ip := None;
         AuthMiddleware.remoteAddress := Some "10.20.30.40" |}
    = AuthMiddleware.Next authType.
Proof.
  apply X24_requests_never_rejected. right. right. reflexivity.
Defined.

(** A response of the backend keeps every property but [requestId],
    [responseTime] and [timestamp] on its way out of [proxyRequest]. *)
Lemma fresh_answer_properties `{Platform} (r : JS.object) (requestId responseTime : JS.value)
    (now : Z) (k : string) :
  k <> "requestId" -> k <> "responseTime" -> k <> "timestamp" ->
  JS.get k (formatResponse r [("requestId", requestId); ("responseTime", responseTime)] now)
  = JS.get k r.
Proof.
  intros Hid Htime Hstamp. unfold formatResponse, JS.spread. simpl fold_left.
  now rewrite !get_set_other.
Qed.

(** X25. The GitHub Actions endpoint on a bridge that uses the
    command-line adapter: when the command exits with code 0, the reply
    has status 200 and its [response] is the trimmed standard output; but
    when that output is blank, [response] is not a text: it is the
    content array with its one empty text block. *)
Theorem X25_cli_output_reaches_the_reply `{Platform} `{Engine} (b : Bridge)
    (world : list JS.value -> nat -> ClaudeCodeCLI.Run) (body : GhRequest.t)
    (requestId : string) (headers : JS.value) (start t0 t1 t2 : Z) (env : Effects)
    (cliPrompt : JS.value) (output error : string) :
  let request := githubActionsCall (options b) body requestId headers in
  let cr := transformToClaudeFormat (options b) request in
  authMethod b = Cli ->
  claudeCLI b = ClaudeCodeCLI.adapter world ->
  cached_response b request t0 = None ->
  ClaudeCodeCLI.transformRequest cr = Returned cliPrompt ->
  world (ClaudeCodeCLI.args (ClaudeRequest.model cr) cliPrompt) (invocations env)
  = ClaudeCodeCLI.Closed (Some 0) output error ->
  let reply := (githubActionsReply b body requestId headers start t0 t1 t2 env).1.1 in
  Reply.status reply = 200
  /\ JS.get "response" (Reply.body reply)
     = (if String.eqb (trim output) ""
        then JS.Arr [JS.Obj [("type", JS.Str "text"); ("text", JS.Str "")]]
        else JS.Str (trim output))
  /\ prop "requestId" (JS.get "metadata" (Reply.body reply)) = JS.Str requestId
  /\ prop "fromCache" (JS.get "metadata" (Reply.body reply)) = JS.Bool false.
Proof.
  intros request cr Hmethod Hadapter Hmiss Hprompt Hworld.
  assert (Hsel : backend b
                 = Some (fun claudeRequest n =>
                           match claudeCLI b claudeRequest n with
                           | Returned cliResponse => Returned (cliToApi cliResponse)
                           | Thrown e => Thrown e
                           end))
    by (unfold backend; now rewrite Hmethod).
  set (r := cliToApi
              [ ("content", JS.Str (trim output));
                ("model", JS.or_else (ClaudeRequest.model cr) (JS.Str "claude-max"));
                ("source", JS.Str "cli");
                ("usage", JS.Obj [("note", JS.Str "Usage tracked by MAX subscription");
                                  ("subscription", JS.Str "MAX")]) ]).
  assert (Hrun : executeWithRetry b cr 1 env = (Returned r, invoked cr env)).
  { apply (first_attempt_succeeds b _ cr env r Hsel).
    rewrite Hadapter. unfold ClaudeCodeCLI.adapter. fold cr. now rewrite Hprompt, Hworld. }
  unfold cached_response in Hmiss.
  destruct (cache_check (cache b) request (generateCacheKey (options b) request) t0
              (count_request (metrics b) t0)) as [[cached c] m] eqn:Hcheck.
  simpl in Hmiss. subst cached.
  cbv zeta. unfold githubActionsReply. fold request.
  rewrite (proxyRequest_reaches_backend b request t0 t1 env c m Hcheck). fold cr.
  rewrite Hrun. cbn [fst snd Reply.status Reply.body].
  unfold transformGitHubActionsResponse. cbn [JS.get String.eqb Ascii.eqb Bool.eqb prop].
  rewrite !fresh_answer_properties by discriminate.
  split; [reflexivity |]. split.
  - subst r. unfold cliToApi. cbn [JS.get String.eqb Ascii.eqb Bool.eqb
      ClaudeCodeSDK.first_text prop JS.or_else JS.truthy].
    unfold JS.or_else, JS.truthy.
    destruct (String.eqb (trim output) "") eqn:E; simpl negb; cbv iota.
    + apply String.eqb_eq in E. rewrite E. reflexivity.
    + reflexivity.
  - unfold formatResponse, JS.spread. simpl fold_left.
    rewrite !get_set_other by discriminate.
    cbn [JS.get String.eqb Ascii.eqb Bool.eqb JS.or_else JS.truthy].
    split; [| reflexivity].
    subst request. unfold Request.requestId, githubActionsCall. cbn [Request.otherParams].
    unfold JS.spread. simpl fold_left.
    rewrite !get_set_other by discriminate.
    apply get_set_same.
Qed.

Lemma X25_witness :
  let reply :=
    (githubActionsReply (H := samplePlatform)
       (cliBridge (fun _ _ => ClaudeCodeCLI.Closed (Some 0) "  " "")) full_payload
       "gha_1" JS.Undefined 900 1000 1200 1210 no_effects).1.1 in
  Reply.status reply = 200
  /\ JS.get "response" (Reply.body reply)
     = (if String.eqb (trim (Engine := sampleEngine) "  ") ""
        then JS.Arr [JS.Obj [("type", JS.Str "text"); ("text", JS.Str "")]]
        else JS.Str (trim (Engine := sampleEngine) "  "))
  /\ prop "requestId" (JS.get "metadata" (Reply.body reply)) = JS.Str "gha_1"
  /\ prop "fromCache" (JS.get "metadata" (Reply.body reply)) = JS.Bool false.
Proof.
  apply (X25_cli_output_reaches_the_reply (H := samplePlatform) (H0 := sampleEngine)
           (cliBridge (fun _ _ => ClaudeCodeCLI.Closed (Some 0) "  " ""))
           (fun _ _ => ClaudeCodeCLI.Closed (Some 0) "  " "") full_payload
           "gha_1" JS.Undefined 900 1000 1200 1210 no_effects
           (JS.Str ("System: be brief" +:+ blank_line +:+ "Context: repo X"
                    +:+ blank_line +:+ "review this")) "  " ""); reflexivity.
Defined.
